(** * esi_util: the ESI data wrapper

    A shallow embedding of [src/esi_util.py] (class [ESIDataWrapper]) and the
    properties its specification states about it.

    Conventions of the embedding.
    - A Python [float] is a [value]: a rational number or [NaN].  Only the
      order of floats matters to the program, and [value_lt] is Python's [<]
      on floats (false as soon as one side is NaN).
    - A Python [dict] is an association list in insertion order ([pydict]).
    - A pandas [DataFrame] is a list of column names and a list of rows, each
      row an index key and its cells.
    - Code that reads the clock, touches files or raises is written in the
      monad [M]: a function of the [World] to an outcome and the world after.
      The world after is kept when an exception is raised, since files
      written before a failure stay on disk. *)

From Stdlib Require Import String Ascii Bool Arith ZArith QArith Lia.
From Stdlib Require Import DecimalString.
From Stdlib Require Import List Permutation.
Import ListNotations.

Close Scope Q_scope.
Open Scope string_scope.
Open Scope list_scope.
Open Scope nat_scope.

Set Implicit Arguments.

(** ** Floats *)

Inductive value : Type :=
| Num (q : Q)
| NaN.

(** Python's [a < b] on floats. *)
Definition value_lt (a b : value) : bool :=
  match a, b with
  | Num x, Num y => negb (Qle_bool y x)
  | _, _ => false
  end.

Definition isnan (v : value) : bool :=
  match v with
  | NaN => true
  | Num _ => false
  end.

(** [value_ge a b]: both are numbers and [a >= b]. *)
Definition value_ge (a b : value) : Prop :=
  match a, b with
  | Num x, Num y => (y <= x)%Q
  | _, _ => False
  end.

(** ** Python lists and dicts *)

Inductive exn : Type :=
| IndexError
| KeyError (key : string)
| IOError (path : string)
| SystemExit (msg : string).

Inductive result (A : Type) : Type :=
| Ok (a : A)
| Raise (e : exn).

Arguments Ok {A} a.
Arguments Raise {A} e.

Definition pydict (V : Type) : Type := list (string * V).

Fixpoint dict_get {V} (k : string) (d : pydict V) : option V :=
  match d with
  | [] => None
  | (k', v) :: t => if String.eqb k' k then Some v else dict_get k t
  end.

(** [d[k] = v]: an existing key keeps its place, a new one goes last. *)
Fixpoint dict_set {V} (k : string) (v : V) (d : pydict V) : pydict V :=
  match d with
  | [] => [(k, v)]
  | (k', v') :: t =>
      if String.eqb k' k then (k', v) :: t else (k', v') :: dict_set k v t
  end.

Definition keys {V} (d : pydict V) : list string := map fst d.
Definition items {V} (d : pydict V) : list (string * V) := d.

(** ** [sorted]

    CPython's [list.sort] (Objects/listobject.c) as it runs on a list of
    fewer than 64 elements, where [minrun] is the whole length: [count_run]
    finds the natural run the list starts with (and reverses it when it is
    strictly descending), [binarysort] inserts every later element into the
    run by binary search.  Lists of 64 elements and more are cut into
    several such runs and merged; every list this program sorts has at most
    16 entries.  [reverse=True] reverses the list, sorts it, and reverses the
    result.  The key of every element is compared with [<] only. *)

Section Sorting.
Variable A : Type.
Variable key : A -> value.

Definition item_lt (x y : A) : bool := value_lt (key x) (key y).

(** How many elements of [l] continue an ascending run that ends in [prev]. *)
Fixpoint run_asc (prev : A) (l : list A) : nat :=
  match l with
  | [] => 0
  | x :: t => if item_lt x prev then 0 else S (run_asc x t)
  end.

(** The same for a strictly descending run. *)
Fixpoint run_desc (prev : A) (l : list A) : nat :=
  match l with
  | [] => 0
  | x :: t => if item_lt x prev then S (run_desc x t) else 0
  end.

(** Length of the run at the head of [a], and whether it is descending. *)
Definition count_run (a : list A) : nat * bool :=
  match a with
  | [] => (0, false)
  | [x] => (1, false)
  | x :: y :: t =>
      if item_lt y x then (2 + run_desc y t, true)
      else (2 + run_asc y t, false)
  end.

(** The binary search of [binarysort]:
    [do { p = l + ((r - l) >> 1); IFLT(pivot, *p) r = p; else l = p+1; }
     while (l < r)].  The distance [r - l] shrinks at every turn, so a
    [fuel] of [r - l] turns is never used up (lemma [bisect_spec]). *)
Fixpoint bisect (fuel : nat) (pivot : A) (a : list A) (l r : nat) : nat :=
  match fuel with
  | O => l
  | S fuel' =>
      if l <? r then
        let p := l + Nat.div2 (r - l) in
        if item_lt pivot (nth p a pivot)
        then bisect fuel' pivot a l p
        else bisect fuel' pivot a (p + 1) r
      else l
  end.

Definition insert_at (k : nat) (x : A) (a : list A) : list A :=
  firstn k a ++ x :: skipn k a.

(** [binarysort run rest]: [run] is sorted, the elements of [rest] are
    inserted one after the other. *)
Fixpoint binarysort (run rest : list A) : list A :=
  match rest with
  | [] => run
  | pivot :: rest' =>
      let l := bisect (length run) pivot run 0 (length run) in
      binarysort (insert_at l pivot run) rest'
  end.

Definition listsort (a : list A) : list A :=
  if length a <? 2 then a
  else
    let '(n, descending) := count_run a in
    let run := firstn n a in
    binarysort (if descending then rev run else run) (skipn n a).

Definition sorted (reverse : bool) (l : list A) : list A :=
  if reverse then rev (listsort (rev l)) else listsort l.

End Sorting.

(** ** Dates and monthly periods *)

(** A [datetime] / pandas [Timestamp]; the time of day is never read. *)
Record Timestamp : Type := mkTimestamp
  { ts_year : Z; ts_month : Z; ts_day : Z }.

(** A pandas [Period] of frequency ['M']. *)
Record Period : Type := mkPeriod
  { p_year : Z; p_month : Z }.

(** [Timestamp.to_period(freq='M')]. *)
Definition to_period (t : Timestamp) : Period :=
  {| p_year := ts_year t; p_month := ts_month t |}.

(** The ordinal of a monthly period: months since January 1970. *)
Definition ordinal (p : Period) : Z :=
  ((p_year p - 1970) * 12 + (p_month p - 1))%Z.

(** ['{}-{}'.format(year, month)]: the label pandas reads as that month. *)
Definition month_label (year month : Z) : Period :=
  {| p_year := year; p_month := month |}.

(** [dt + relativedelta(months=n)] for [-12 < n < 12], year and month of the
    result (dateutil also clips the day to the length of the month; the day
    is not read by the program). *)
Definition relativedelta_months (n : Z) (dt : Timestamp) : Timestamp :=
  let month := (ts_month dt + n)%Z in
  if (12 <? month)%Z then
    {| ts_year := ts_year dt + 1; ts_month := month - 12; ts_day := ts_day dt |}
  else if (month <? 1)%Z then
    {| ts_year := ts_year dt - 1; ts_month := month + 12; ts_day := ts_day dt |}
  else
    {| ts_year := ts_year dt; ts_month := month; ts_day := ts_day dt |}.

(** ** Data frames *)

Record DataFrame (I : Type) : Type := mkDataFrame
  { df_columns : list string;
    df_rows : list (I * list value) }.

Arguments mkDataFrame {I} df_columns df_rows.

Definition df_index {I} (df : DataFrame I) : list I := map fst (df_rows df).

(** [df.values.tolist()] *)
Definition values_tolist {I} (df : DataFrame I) : list (list value) :=
  map snd (df_rows df).

(** [x.tail(n)] of pandas: [x.iloc[0:0]] when [n = 0], else [x.iloc[-n:]]:
    the last [n] rows when [n > 0], all rows but the first [-n] otherwise. *)
Definition tail {X} (n : Z) (l : list X) : list X :=
  if (n =? 0)%Z then []
  else if (0 <? n)%Z then skipn (length l - Z.to_nat n) l
  else skipn (Z.to_nat (- n)) l.

Definition frame_tail {I} (n : Z) (df : DataFrame I) : DataFrame I :=
  {| df_columns := df_columns df; df_rows := tail n (df_rows df) |}.

Definition in_window (start_date end_date p : Period) : bool :=
  ((ordinal start_date <=? ordinal p) && (ordinal p <=? ordinal end_date))%Z.

(** [df[start_date:end_date]] on a period index: the rows of the months from
    [start_date] to [end_date], both included (on an ordered index, which is
    where pandas defines the slice by label). *)
Definition frame_slice (start_date end_date : Period) (df : DataFrame Period)
  : DataFrame Period :=
  {| df_columns := df_columns df;
     df_rows := filter (fun r => in_window start_date end_date (fst r))
                       (df_rows df) |}.

(** Position of a column name. *)
Fixpoint column_position (col : string) (cols : list string) : option nat :=
  match cols with
  | [] => None
  | c :: t =>
      if String.eqb c col then Some 0
      else option_map S (column_position col t)
  end.

(** [df[col]]: the series of that column, [None] for an unknown name.  A cell
    a short row does not have reads as missing. *)
Definition frame_column {I} (col : string) (df : DataFrame I)
  : option (list (I * value)) :=
  match column_position col (df_columns df) with
  | Some k => Some (map (fun r => (fst r, nth k (snd r) NaN)) (df_rows df))
  | None => None
  end.

Definition series_tolist {I} (s : list (I * value)) : list value := map snd s.

(** [df.index = df.index.to_period(freq='M')] *)
Definition frame_to_period (df : DataFrame Timestamp) : DataFrame Period :=
  {| df_columns := df_columns df;
     df_rows := map (fun r => (to_period (fst r), snd r)) (df_rows df) |}.

(** ** The world: files, clock, and the I/O performed *)

(** A file is what the tabular reader makes of it: a CSV file is the frame
    [pd.read_csv(path, index_col=0, parse_dates=[0])] returns, a workbook
    gives for a sheet name and a [usecols] selector the frame
    [pd.read_excel(path, sheet_name, header=0, index_col=0, usecols)]
    returns ([None] where the reader raises).  How floats and dates are
    written as text is outside the embedding. *)
Inductive File : Type :=
| CsvFile (df : DataFrame Timestamp)
| XlsxFile (book : string -> string -> option (DataFrame Timestamp)).

Inductive io_event : Type :=
| EvIsFile (path : string)
| EvReadCsv (path : string) (index_col : nat) (parse_dates : list nat)
| EvReadExcel (path sheet_name : string) (header index_col : nat)
              (usecols : string)
| EvToCsv (path : string).

Record World : Type := mkWorld
  { fs : string -> option File;
    clock : Timestamp;
    io_log : list io_event }.

Definition M (A : Type) : Type := World -> result A * World.

Definition ret {A} (a : A) : M A := fun w => (Ok a, w).

Definition raise {A} (e : exn) : M A := fun w => (Raise e, w).

Definition bind {A B} (c : M A) (k : A -> M B) : M B :=
  fun w =>
    match c w with
    | (Ok a, w') => k a w'
    | (Raise e, w') => (Raise e, w')
    end.

Declare Scope monad_scope.
Delimit Scope monad_scope with monad.
Notation "x <- c ;; k" := (bind c (fun x => k))
  (at level 61, c at next level, right associativity) : monad_scope.
Notation "' p <- c ;; k" := (bind c (fun x => match x with p => k end))
  (at level 61, p pattern, c at next level, right associativity) : monad_scope.
Open Scope monad_scope.

(** [try: c except: h] *)
Definition try_except {A} (c : M A) (h : exn -> M A) : M A :=
  fun w =>
    match c w with
    | (Ok a, w') => (Ok a, w')
    | (Raise e, w') => h e w'
    end.

(** [for x in l: s = body(s, x)] *)
Fixpoint for_each {A S} (l : list A) (body : S -> A -> M S) (s : S) : M S :=
  match l with
  | [] => ret s
  | x :: t => s' <- body s x ;; for_each t body s'
  end.

(** [d[k]] on a dict. *)
Definition getitem {V} (d : pydict V) (k : string) : M V :=
  match dict_get k d with
  | Some v => ret v
  | None => raise (KeyError k)
  end.

(** [l[i]] on a list. *)
Definition list_getitem {X} (l : list X) (i : nat) : M X :=
  match nth_error l i with
  | Some x => ret x
  | None => raise IndexError
  end.

(** [sys.exit(msg)] *)
Definition sys_exit {A} (msg : string) : M A := raise (SystemExit msg).

Definition log (e : io_event) (w : World) : World :=
  {| fs := fs w; clock := clock w; io_log := io_log w ++ [e] |}.

(** [datetime.datetime.now()] *)
Definition datetime_now : M Timestamp := fun w => (Ok (clock w), w).

(** [Path(path).is_file()] *)
Definition is_file (path : string) : M bool :=
  fun w =>
    (Ok (match fs w path with Some _ => true | None => false end),
     log (EvIsFile path) w).

(** [pd.read_csv(path, index_col=0, parse_dates=[0])] *)
Definition read_csv (path : string) (index_col : nat) (parse_dates : list nat)
  : M (DataFrame Timestamp) :=
  fun w =>
    let w' := log (EvReadCsv path index_col parse_dates) w in
    match fs w path with
    | Some (CsvFile df) => (Ok df, w')
    | _ => (Raise (IOError path), w')
    end.

(** [pd.read_excel(path, sheet_name=..., header=0, index_col=0, usecols=...)] *)
Definition read_excel (path sheet_name : string) (header index_col : nat)
           (usecols : string) : M (DataFrame Timestamp) :=
  fun w =>
    let w' := log (EvReadExcel path sheet_name header index_col usecols) w in
    match fs w path with
    | Some (XlsxFile book) =>
        match book sheet_name usecols with
        | Some df => (Ok df, w')
        | None => (Raise (IOError path), w')
        end
    | _ => (Raise (IOError path), w')
    end.

Definition write_file (path : string) (f : File) (w : World) : World :=
  {| fs := fun p => if String.eqb p path then Some f else fs w p;
     clock := clock w;
     io_log := io_log w |}.

(** [df.to_csv(path, encoding='utf-8')] *)
Definition to_csv (df : DataFrame Timestamp) (path : string) : M unit :=
  fun w => (Ok tt, write_file path (CsvFile df) (log (EvToCsv path) w)).

(** [Path(dir) / name] *)
Definition path_join (dir name : string) : string :=
  String.append dir (String.append "/" name).

(** [s.upper()] *)
Definition ascii_upper (c : ascii) : ascii :=
  let n := nat_of_ascii c in
  if (97 <=? n) && (n <=? 122) then ascii_of_nat (n - 32) else c.

Fixpoint upper (s : string) : string :=
  match s with
  | EmptyString => EmptyString
  | String c t => String (ascii_upper c) (upper t)
  end.

(** ** [class ESIDataWrapper] *)

Module ESIDataWrapper.

Definition ENTITY_CODES : list string :=
  ["eu"; "ea"; "at"; "be"; "dk"; "de"; "el"; "es";
   "fr"; "it"; "nl"; "pl"; "pt"; "fi"; "se"; "uk"].

Definition ESI_ENTITIES : pydict string :=
  [("eu", "Europe"); ("ea", "Euro Area"); ("at", "Austria");
   ("be", "Belgium"); ("dk", "Denmark"); ("de", "Germany");
   ("el", "Greece"); ("es", "Spain"); ("fr", "France"); ("it", "Italy");
   ("nl", "Netherlands"); ("pl", "Poland"); ("pt", "Portugal");
   ("fi", "Finland"); ("se", "Sweden"); ("uk", "United Kingdom")].

Definition ENTITY_COLS : pydict string :=
  [("eu", "A,C:H"); ("ea", "A,K:P"); ("at", "A,FO:FT"); ("be", "A,S:X");
   ("dk", "A,AQ:AV"); ("de", "A,AY:BD"); ("el", "A,BW:CB");
   ("es", "A,CE:CJ"); ("fr", "A,CM:CR"); ("it", "A,DC:DH");
   ("nl", "A,FG:FL"); ("pl", "A,FW:GB"); ("pt", "A,GE:GJ");
   ("fi", "A,HK:HP"); ("se", "A,HS:HX"); ("uk", "A,IA:IF")].

Definition ESI_COMPONENTS : list string :=
  [".INDU"; ".SERV"; ".CONS"; ".RETA"; ".BUIL"; ".ESI"].

(** The attributes set by [__init__]. *)
Record t : Type := mk
  { data_dir : string;
    esi_filename : string;
    esi_sheet_name : string }.

Definition __init__ : t :=
  {| data_dir := ".";
     esi_filename := "main_indicators_nace2.xlsx";
     esi_sheet_name := "MONTHLY" |}.

Definition _entity_csv_filename (self : t) (entity_code : string) : string :=
  path_join (data_dir self) (String.append entity_code "_esi.csv").

(** The loops of the class are [for_each] over a step, the body of the
    loop as a function of the variables it updates. *)

Definition create_step (self : t) (esi_tables : pydict (DataFrame Timestamp))
           (_ : unit) (code : string) : M unit :=
  table <- getitem esi_tables code ;;
  to_csv table (_entity_csv_filename self code).

Definition _create_esi_csv_tables (self : t)
           (esi_tables : pydict (DataFrame Timestamp)) : M unit :=
  for_each ENTITY_CODES (create_step self esi_tables) tt.

Definition esi_file_path (self : t) : string :=
  path_join (data_dir self) (esi_filename self).

Definition import_step (self : t) (esi_tables : pydict (DataFrame Timestamp))
           (entity_cols : string * string) : M (pydict (DataFrame Timestamp)) :=
  let '(entity, cols) := entity_cols in
  table <- read_excel (esi_file_path self) (esi_sheet_name self) 0 0 cols ;;
  ret (dict_set entity table esi_tables).

Definition _import_esi_tables_from_xlsx (self : t)
  : M (pydict (DataFrame Timestamp)) :=
  for_each (items ENTITY_COLS) (import_step self) [].

Definition load_step (self : t) (esi_tables : pydict (DataFrame Timestamp))
           (ec : string) : M (pydict (DataFrame Timestamp)) :=
  table <- read_csv (_entity_csv_filename self ec) 0 [0] ;;
  ret (dict_set ec table esi_tables).

Definition _load_esi_tables_from_csv (self : t)
  : M (pydict (DataFrame Timestamp)) :=
  for_each ENTITY_CODES (load_step self) [].

(** The loop that sets [we_have_csvs]; it stops at the first missing file. *)
Fixpoint we_have_csvs (self : t) (codes : list string) : M bool :=
  match codes with
  | [] => ret true
  | ec :: rest =>
      present <- is_file (_entity_csv_filename self ec) ;;
      if negb present then ret false else we_have_csvs self rest
  end.

(** [for ec in self.ENTITY_CODES:
        esi_tables[ec].index = esi_tables[ec].index.to_period(freq='M')].
    Python assigns the new index to the table in place; here the tables
    with the new index are collected under the same keys, in the same
    order. *)
Definition to_monthly_step (esi_tables : pydict (DataFrame Timestamp))
           (monthly : pydict (DataFrame Period)) (ec : string)
  : M (pydict (DataFrame Period)) :=
  table <- getitem esi_tables ec ;;
  ret (dict_set ec (frame_to_period table) monthly).

Definition to_monthly (esi_tables : pydict (DataFrame Timestamp))
  : M (pydict (DataFrame Period)) :=
  for_each ENTITY_CODES (to_monthly_step esi_tables) [].

Definition _fetch_esi_tables (self : t) : M (pydict (DataFrame Period)) :=
  have <- we_have_csvs self ENTITY_CODES ;;
  esi_tables <- (if have then _load_esi_tables_from_csv self
                 else (esi_tables <- _import_esi_tables_from_xlsx self ;;
                       _ <- _create_esi_csv_tables self esi_tables ;;
                       ret esi_tables)) ;;
  to_monthly esi_tables.

Definition INDU_idx : nat := 0.
Definition SERV_idx : nat := 1.
Definition CONS_idx : nat := 2.
Definition RETA_idx : nat := 3.
Definition BUIL_idx : nat := 4.
Definition ESI_idx : nat := 5.

Definition out_of_range_message : string := "Date given is out of range".

(** [start_date] and [end_date]. *)
Definition lookup_window (date : option Period) : M (Period * Period) :=
  match date with
  | None =>
      now <- datetime_now ;;
      let month_ago := relativedelta_months (-1) now in
      ret (month_label (ts_year month_ago) (ts_month month_ago),
           month_label (ts_year now) (ts_month now))
  | Some d => ret (d, d)
  end.

(** [esi_tables[ec][start_date:end_date].tail(1).values.tolist()] *)
Definition window_tail (start_date end_date : Period)
           (table : DataFrame Period) : list (list value) :=
  values_tolist (frame_tail 1 (frame_slice start_date end_date table)).

(** The loop that fills [latest_values]. *)
Definition latest_values_step (esi_tables : pydict (DataFrame Period))
           (start_date end_date : Period)
           (latest_values : pydict (list value)) (ec : string)
  : M (pydict (list value)) :=
  row <- try_except
           (table <- getitem esi_tables ec ;;
            list_getitem (window_tail start_date end_date table) 0)
           (fun e =>
              match e with
              | IndexError => sys_exit out_of_range_message
              | _ => raise e
              end) ;;
  ret (dict_set ec row latest_values).

Definition latest_values_loop (esi_tables : pydict (DataFrame Period))
           (start_date end_date : Period) : M (pydict (list value)) :=
  for_each (keys ESI_ENTITIES)
    (latest_values_step esi_tables start_date end_date) [].

(** The six dicts filled by the second loop of [get_latest_rankings]. *)
Record ranking_dicts : Type := mkRankingDicts
  { industrial_ranking : pydict value;
    services_ranking : pydict value;
    consumer_ranking : pydict value;
    retail_ranking : pydict value;
    construction_ranking : pydict value;
    esi_ranking : pydict value }.

Definition empty_rankings : ranking_dicts :=
  {| industrial_ranking := []; services_ranking := [];
     consumer_ranking := []; retail_ranking := [];
     construction_ranking := []; esi_ranking := [] |}.

(** [latest_values[ec][idx]] *)
Definition latest_cell (latest_values : pydict (list value)) (ec : string)
           (idx : nat) : M value :=
  row <- getitem latest_values ec ;; list_getitem row idx.

(** The loop that fills the six dicts, keyed by display name. *)
Definition rankings_step (latest_values : pydict (list value))
           (r : ranking_dicts) (entity : string * string) : M ranking_dicts :=
  let '(ec, label) := entity in
  indu <- latest_cell latest_values ec INDU_idx ;;
  serv <- latest_cell latest_values ec SERV_idx ;;
  cons <- latest_cell latest_values ec CONS_idx ;;
  reta <- latest_cell latest_values ec RETA_idx ;;
  buil <- latest_cell latest_values ec BUIL_idx ;;
  esi <- latest_cell latest_values ec ESI_idx ;;
  ret {| industrial_ranking := dict_set label indu (industrial_ranking r);
         services_ranking := dict_set label serv (services_ranking r);
         consumer_ranking := dict_set label cons (consumer_ranking r);
         retail_ranking := dict_set label reta (retail_ranking r);
         construction_ranking := dict_set label buil (construction_ranking r);
         esi_ranking := dict_set label esi (esi_ranking r) |}.

Definition rankings_loop (latest_values : pydict (list value))
  : M ranking_dicts :=
  for_each (items ESI_ENTITIES) (rankings_step latest_values) empty_rankings.

(** [rankings = {...}] and
    [for ranking, values in rankings.items():
         rankings[ranking] = sorted(values.items(), key=lambda x: x[1],
                                    reverse=True)] *)
Definition sort_rankings (r : ranking_dicts)
  : pydict (list (string * value)) :=
  let rankings :=
    [("industrial_confidence", industrial_ranking r);
     ("services_confidence", services_ranking r);
     ("consumer_confidence", consumer_ranking r);
     ("retail_confidence", retail_ranking r);
     ("construction_confidence", construction_ranking r);
     ("esi", esi_ranking r)] in
  map (fun '(ranking, values) =>
         (ranking, sorted (fun x => snd x) true (items values)))
      rankings.

Definition get_latest_rankings (self : t) (date : option Period)
  : M (pydict (list (string * value))) :=
  '(start_date, end_date) <- lookup_window date ;;
  esi_tables <- _fetch_esi_tables self ;;
  latest_values <- latest_values_loop esi_tables start_date end_date ;;
  r <- rankings_loop latest_values ;;
  ret (sort_rankings r).

Record HistoricalValues : Type := mkHistoricalValues
  { countries : pydict (list value);
    dates : list Period }.

(** [esi_tables[ec][col]] *)
Definition frame_getitem {I} (df : DataFrame I) (col : string)
  : M (list (I * value)) :=
  match frame_column col df with
  | Some s => ret s
  | None => raise (KeyError col)
  end.

(** The loop that fills [values['countries']]. *)
Definition countries_step (esi_tables : pydict (DataFrame Period))
           (esi_component : string) (months : Z)
           (countries : pydict (list value)) (ec : string)
  : M (pydict (list value)) :=
  let col := String.append (upper ec) esi_component in
  table <- getitem esi_tables ec ;;
  column <- frame_getitem table col ;;
  ret (dict_set ec (series_tolist (tail months column)) countries).

Definition countries_loop (esi_tables : pydict (DataFrame Period))
           (esi_component : string) (months : Z) : M (pydict (list value)) :=
  for_each ENTITY_CODES (countries_step esi_tables esi_component months) [].

Definition get_historical_values (self : t) (esi_component : string)
           (months : Z) : M HistoricalValues :=
  let esi_component :=
    if negb (existsb (String.eqb esi_component) ESI_COMPONENTS)
    then ".ESI" else esi_component in
  esi_tables <- _fetch_esi_tables self ;;
  countries <- countries_loop esi_tables esi_component months ;;
  first <- list_getitem ENTITY_CODES 0 ;;
  table <- getitem esi_tables first ;;
  ret {| countries := countries;
         dates := df_index (frame_tail months table) |}.

End ESIDataWrapper.

Import ESIDataWrapper.

(** ** The functions of the module

    [display_latest_rankings] prints a table or JSON;
    [historical_esi_values_chart] renders a chart into a file or returns
    the rendering.  The text of the table, of the JSON and of the SVG is
    the work of terminaltables, json and pygal: a function here returns
    what it hands to them.  The text Python gives for a float, for the
    month asked for and for a period under [strftime('%Y-%m')] is left
    open. *)

(** A [terminaltables.SingleTable]: the attributes the program sets. *)
Record SingleTable : Type := mkSingleTable
  { table_data : list (list string);
    inner_heading_row_border : bool;
    table_title : option string }.

(** What [display_latest_rankings] prints: [json.dumps(rankings)] or
    [rankings_table.table]. *)
Inductive printed : Type :=
| JsonDumps (rankings : pydict (list (string * value)))
| Table (rankings_table : SingleTable).

(** A [pygal.Line]: its configuration, its title, its labels and the
    series added to it. *)
Record Line : Type := mkLine
  { dots_size : Z;
    show_y_guides : bool;
    x_label_rotation : Z;
    disable_xml_declaration : bool;
    chart_title : string;
    x_labels : list string;
    series : list (string * list value) }.

(** [chart.add(country, val)] *)
Definition add (country : string) (val : list value) (chart : Line) : Line :=
  {| dots_size := dots_size chart;
     show_y_guides := show_y_guides chart;
     x_label_rotation := x_label_rotation chart;
     disable_xml_declaration := disable_xml_declaration chart;
     chart_title := chart_title chart;
     x_labels := x_labels chart;
     series := series chart ++ [(country, val)] |}.

(** What [historical_esi_values_chart] does with the chart:
    [chart.render_to_file(filename)], and it returns [None], or
    [return chart.render()]. *)
Inductive rendered : Type :=
| RenderToFile (chart : Line) (filename : string)
| Render (chart : Line).

(** [x if x else default] for an argument that is [None] or a string: the
    empty string is as good as [None]. *)
Definition if_given (arg : option string) (default : string) : string :=
  match arg with
  | Some (String c s) => String c s
  | _ => default
  end.

(** [esi = ESIDataWrapper()] and the three [if x: esi.x = x]. *)
Definition configure (data_dir esi_filename esi_sheet_name : option string)
  : t :=
  let esi := __init__ in
  {| ESIDataWrapper.data_dir :=
       if_given data_dir (ESIDataWrapper.data_dir esi);
     ESIDataWrapper.esi_filename :=
       if_given esi_filename (ESIDataWrapper.esi_filename esi);
     ESIDataWrapper.esi_sheet_name :=
       if_given esi_sheet_name (ESIDataWrapper.esi_sheet_name esi) |}.

(** [[f(x) for x in l]] *)
Fixpoint comprehension {A B} (f : A -> M B) (l : list A) : M (list B) :=
  match l with
  | [] => ret []
  | x :: t => y <- f x ;; ys <- comprehension f t ;; ret (y :: ys)
  end.

Definition BOLD : string := String (ascii_of_nat 27) "[1m".
Definition ENDC : string := String (ascii_of_nat 27) "[0m".
Definition GREEN : string := String (ascii_of_nat 27) "[92m".
Definition RED : string := String (ascii_of_nat 27) "[91m".

Definition indicators : list string :=
  ["esi"; "industrial_confidence"; "services_confidence";
   "consumer_confidence"; "retail_confidence"; "construction_confidence"].

Definition headers : list string :=
  [(BOLD ++ "ESI" ++ ENDC)%string;
   "Industrial Confidence (40%)";
   "Services Confidence (30%)";
   "Consumer Confidence (20%)";
   "Retail Trade Confidence (5%)";
   "Construction Confidence (5%)"].

(** [str(n)] for an int. *)
Definition str_int (n : Z) : string := NilZero.string_of_int (Z.to_int n).

Section Text.

(** ['{}'.format(x)] for a float and for the month asked for, and
    [d.strftime('%Y-%m')]. *)
Variable format_float : value -> string.
Variable format_date : Period -> string.
Variable strftime_Y_m : Period -> string.

(** [tmpl.format(name, v)] in turn [i] of the loop. *)
Definition tmpl (i : nat) (name : string) (v : value) : string :=
  let text := (name ++ " (" ++ format_float v ++ ")")%string in
  if i =? 0 then (GREEN ++ text ++ ENDC)%string
  else if i =? 15 then (RED ++ text ++ ENDC)%string
  else text.

(** [tmpl.format(rankings[indicator][i][0], rankings[indicator][i][1])];
    the two lookups are the same and fail alike. *)
Definition table_cell (rankings : pydict (list (string * value))) (i : nat)
           (indicator : string) : M string :=
  ranking <- getitem rankings indicator ;;
  entry <- list_getitem ranking i ;;
  ret (tmpl i (fst entry) (snd entry)).

(** The loop over [range(num_entries)]. *)
Definition table_row_step (rankings : pydict (list (string * value)))
           (table_data : list (list string)) (i : nat)
  : M (list (list string)) :=
  row <- comprehension (table_cell rankings i) indicators ;;
  ret (table_data ++ [row]).

Definition display_latest_rankings (date : option Period)
           (json_output : bool)
           (data_dir esi_filename esi_sheet_name : option string)
  : M printed :=
  let esi := configure data_dir esi_filename esi_sheet_name in
  let num_entries := length ESI_ENTITIES in
  rankings <- get_latest_rankings esi date ;;
  if json_output then ret (JsonDumps rankings)
  else
    table_data <- for_each (seq 0 num_entries) (table_row_step rankings)
                           [headers] ;;
    ret (Table
           {| table_data := table_data;
              inner_heading_row_border := true;
              table_title :=
                match date with
                | Some d => Some ("Rankings for " ++ format_date d)%string
                | None => None
                end |}).

Definition historical_esi_values_chart (esi_component title : string)
           (filename : option string) (months : Z)
           (data_dir esi_filename esi_sheet_name : option string)
  : M rendered :=
  let disable_xml_declaration :=
    match filename with
    | None => true
    | Some _ => false
    end in
  let title :=
    ("ESI - " ++ title ++ " (past " ++ str_int months ++ " months)")%string in
  let esi := configure data_dir esi_filename esi_sheet_name in
  values <- get_historical_values esi esi_component months ;;
  let chart :=
    {| dots_size := 1;
       show_y_guides := false;
       x_label_rotation := 90;
       disable_xml_declaration := disable_xml_declaration;
       chart_title := title;
       x_labels := map strftime_Y_m (dates values);
       series := [] |} in
  let chart :=
    fold_left (fun chart country_val =>
                 add (fst country_val) (snd country_val) chart)
              (items (countries values)) chart in
  match filename with
  | Some (String c s) => ret (RenderToFile chart (String c s))
  | _ => ret (Render chart)
  end.

(** Convenience functions. *)

Definition industrial_esi_chart (filename : option string) (months : Z)
           (data_dir esi_filename esi_sheet_name : option string)
  : M rendered :=
  historical_esi_values_chart ".INDU" "Industrial Confidence"
    filename months data_dir esi_filename esi_sheet_name.

Definition services_esi_chart (filename : option string) (months : Z)
           (data_dir esi_filename esi_sheet_name : option string)
  : M rendered :=
  historical_esi_values_chart ".SERV" "Services Confidence"
    filename months data_dir esi_filename esi_sheet_name.

Definition consumer_esi_chart (filename : option string) (months : Z)
           (data_dir esi_filename esi_sheet_name : option string)
  : M rendered :=
  historical_esi_values_chart ".CONS" "Consumer Confidence"
    filename months data_dir esi_filename esi_sheet_name.

Definition retail_trade_esi_chart (filename : option string) (months : Z)
           (data_dir esi_filename esi_sheet_name : option string)
  : M rendered :=
  historical_esi_values_chart ".RETA" "Retail Trade Confidence"
    filename months data_dir esi_filename esi_sheet_name.

Definition construction_esi_chart (filename : option string) (months : Z)
           (data_dir esi_filename esi_sheet_name : option string)
  : M rendered :=
  historical_esi_values_chart ".BUIL" "Construction Confidence"
    filename months data_dir esi_filename esi_sheet_name.

Definition esi_chart (filename : option string) (months : Z)
           (data_dir esi_filename esi_sheet_name : option string)
  : M rendered :=
  historical_esi_values_chart ".ESI" "ESI"
    filename months data_dir esi_filename esi_sheet_name.

End Text.

(** ** Vocabulary of the properties *)

(** [adjacent R l]: every element of [l] is in relation [R] with the next. *)
Definition adjacent {A} (R : A -> A -> Prop) (l : list A) : Prop :=
  forall i d, S i < length l -> R (nth i l d) (nth (S i) l d).

(** The order a sorted run is in: no element is [<] the one before it. *)
Definition ascending {A} (key : A -> value) : list A -> Prop :=
  adjacent (fun x y => item_lt key y x = false).

Definition nan_key {A} (key : A -> value) (x : A) : bool := isnan (key x).

(** The rows of a table whose month lies in the window. *)
Definition rows_in_window (start_date end_date : Period)
           (table : DataFrame Period) : list (Period * list value) :=
  filter (fun r => in_window start_date end_date (fst r)) (df_rows table).

(** The row [latest_values[ec]] holds once the first loop has passed [ec]. *)
Definition latest_row (esi_tables : pydict (DataFrame Period))
           (start_date end_date : Period) (ec : string) : list value :=
  match dict_get ec esi_tables with
  | Some table => hd [] (window_tail start_date end_date table)
  | None => []
  end.

(** The value [latest_values[ec][idx]]. *)
Definition cell (latest_values : pydict (list value)) (ec : string)
           (idx : nat) : value :=
  match dict_get ec latest_values with
  | Some row => nth idx row NaN
  | None => NaN
  end.

(** One turn of the second loop, when every cell is there. *)
Definition add_entity (latest_values : pydict (list value))
           (r : ranking_dicts) (entity : string * string) : ranking_dicts :=
  let '(ec, label) := entity in
  {| industrial_ranking :=
       dict_set label (cell latest_values ec INDU_idx) (industrial_ranking r);
     services_ranking :=
       dict_set label (cell latest_values ec SERV_idx) (services_ranking r);
     consumer_ranking :=
       dict_set label (cell latest_values ec CONS_idx) (consumer_ranking r);
     retail_ranking :=
       dict_set label (cell latest_values ec RETA_idx) (retail_ranking r);
     construction_ranking :=
       dict_set label (cell latest_values ec BUIL_idx)
                (construction_ranking r);
     esi_ranking :=
       dict_set label (cell latest_values ec ESI_idx) (esi_ranking r) |}.

(** The entries of one component before they are sorted: one per entity,
    in the order of [ESI_ENTITIES]. *)
Definition unsorted_ranking (latest_values : pydict (list value))
           (idx : nat) : list (string * value) :=
  map (fun entity => (snd entity, cell latest_values (fst entity) idx))
      ESI_ENTITIES.

(** The key of each ranking and the column it is read from. *)
Definition component_columns : list (string * nat) :=
  [("industrial_confidence", INDU_idx); ("services_confidence", SERV_idx);
   ("consumer_confidence", CONS_idx); ("retail_confidence", RETA_idx);
   ("construction_confidence", BUIL_idx); ("esi", ESI_idx)].

(** A world with events appended to its log. *)
Definition logs (w : World) (events : list io_event) : World :=
  {| fs := fs w; clock := clock w; io_log := io_log w ++ events |}.

(** The table a dict of imported or loaded tables holds for [ec]. *)
Definition raw_frame (esi_tables : pydict (DataFrame Timestamp))
           (ec : string) : DataFrame Timestamp :=
  match dict_get ec esi_tables with
  | Some table => table
  | None => mkDataFrame [] []
  end.

(** *** The file system seen by [_fetch_esi_tables] *)

Definition file_present (files : string -> option File) (path : string)
  : bool :=
  match files path with
  | Some _ => true
  | None => false
  end.

(** Every entity has its cache file. *)
Definition all_cached (self : t) (files : string -> option File) : bool :=
  forallb (fun ec => file_present files (_entity_csv_filename self ec))
          ENTITY_CODES.

(** The cache files [is_file] is asked about: all of them up to the first
    one that is missing. *)
Fixpoint checked_files (self : t) (files : string -> option File)
         (codes : list string) : list string :=
  match codes with
  | [] => []
  | ec :: rest =>
      _entity_csv_filename self ec ::
      (if file_present files (_entity_csv_filename self ec)
       then checked_files self files rest else [])
  end.

(** The frame in the cache file of [ec]. *)
Definition cached_frame (self : t) (files : string -> option File)
           (ec : string) : option (DataFrame Timestamp) :=
  match files (_entity_csv_filename self ec) with
  | Some (CsvFile df) => Some df
  | _ => None
  end.

(** The frame the workbook gives for a column selector. *)
Definition excel_frame (self : t) (files : string -> option File)
           (cols : string) : option (DataFrame Timestamp) :=
  match files (esi_file_path self) with
  | Some (XlsxFile book) => book (esi_sheet_name self) cols
  | _ => None
  end.

Definition frame_or_empty (o : option (DataFrame Timestamp))
  : DataFrame Timestamp :=
  match o with
  | Some df => df
  | None => mkDataFrame [] []
  end.

(** The world after [df.to_csv(path)]. *)
Definition write_csv (path : string) (df : DataFrame Timestamp) (w : World)
  : World :=
  write_file path (CsvFile df) (log (EvToCsv path) w).

Definition is_file_events (paths : list string) : list io_event :=
  map EvIsFile paths.

Definition read_csv_events (self : t) : list io_event :=
  map (fun ec => EvReadCsv (_entity_csv_filename self ec) 0 [0]) ENTITY_CODES.

Definition read_excel_events (self : t) : list io_event :=
  map (fun entity_cols =>
         EvReadExcel (esi_file_path self) (esi_sheet_name self) 0 0
                     (snd entity_cols))
      ENTITY_COLS.

Definition to_csv_events (self : t) : list io_event :=
  map (fun ec => EvToCsv (_entity_csv_filename self ec)) ENTITY_CODES.

(** The tables [_load_esi_tables_from_csv] returns. *)
Definition cached_tables (self : t) (files : string -> option File)
  : pydict (DataFrame Timestamp) :=
  map (fun ec => (ec, frame_or_empty (cached_frame self files ec)))
      ENTITY_CODES.

(** The tables [_import_esi_tables_from_xlsx] returns. *)
Definition imported_tables (self : t) (files : string -> option File)
  : pydict (DataFrame Timestamp) :=
  map (fun e => (fst e, frame_or_empty (excel_frame self files (snd e))))
      ENTITY_COLS.

(** The tables with their index turned into months. *)
Definition monthly (esi_tables : pydict (DataFrame Timestamp))
  : pydict (DataFrame Period) :=
  map (fun ec => (ec, frame_to_period (raw_frame esi_tables ec))) ENTITY_CODES.

(** The world after [_create_esi_csv_tables]. *)
Definition write_cache (self : t) (esi_tables : pydict (DataFrame Timestamp))
           (w : World) : World :=
  fold_left (fun w ec =>
               write_csv (_entity_csv_filename self ec)
                         (raw_frame esi_tables ec) w)
            ENTITY_CODES w.

(** The months of an index go strictly up. *)
Definition strictly_monthly (index : list Period) : Prop :=
  adjacent (fun p q => (ordinal p < ordinal q)%Z) index.

(** The calendar month of a date, counted in months. *)
Definition month_number (t : Timestamp) : Z :=
  (ts_year t * 12 + ts_month t)%Z.

(** The last [n] elements of a list, all of it when it is shorter. *)
Definition last_n {X} (n : nat) (l : list X) : list X :=
  skipn (length l - n) l.

(** The series [values['countries'][ec]] is set to. *)
Definition history_series (esi_tables : pydict (DataFrame Period))
           (esi_component : string) (months : Z) (ec : string) : list value :=
  match dict_get ec esi_tables with
  | Some table =>
      match frame_column (String.append (upper ec) esi_component) table with
      | Some column => series_tolist (tail months column)
      | None => []
      end
  | None => []
  end.

(** ** Sample data

    Small worlds the properties are tried on: two or three months of data
    for each of the 16 entities, as cache files or as a workbook. *)

Fixpoint position (ec : string) (codes : list string) : nat :=
  match codes with
  | [] => 0
  | c :: rest => if String.eqb c ec then 0 else S (position ec rest)
  end.

Definition entity_number (ec : string) : Z :=
  Z.of_nat (position ec ENTITY_CODES).

Definition sample_columns (ec : string) : list string :=
  map (String.append (upper ec)) ESI_COMPONENTS.

Definition july (n : Z) : Timestamp * list value :=
  (mkTimestamp 2020 7 31,
   [Num (Qmake (2 * n) 1); Num (Qmake 5 2); NaN; Num (Qmake n 1);
    Num (Qmake (- 4) 1); Num (Qmake (880 + n) 10)]).

Definition august (n : Z) : Timestamp * list value :=
  (mkTimestamp 2020 8 31,
   [Num (Qmake n 1); Num (Qmake 1 2); Num (Qmake (- n) 1); NaN;
    Num (Qmake 3 1); Num (Qmake (900 + n) 10)]).

Definition september (n : Z) : Timestamp * list value :=
  (mkTimestamp 2020 9 30,
   [Num (Qmake (10 - n) 1); Num (Qmake (n * n) 4);
    (if (n mod 4 =? 0)%Z then NaN else Num (Qmake n 3));
    Num (Qmake 0 1); Num (Qmake (7 - 2 * n) 1);
    Num (Qmake (955 - 3 * n) 10)]).

Definition sample_frame (rows : Z -> list (Timestamp * list value))
           (ec : string) : DataFrame Timestamp :=
  mkDataFrame (sample_columns ec) (rows (entity_number ec)).

Definition two_months (n : Z) : list (Timestamp * list value) :=
  [august n; september n].

(** A directory with a cache file for every entity. *)
Definition cache_of (rows : string -> Z -> list (Timestamp * list value))
  : string -> option File :=
  fun path =>
    dict_get path
             (map (fun ec => (_entity_csv_filename __init__ ec,
                              CsvFile (sample_frame (rows ec) ec)))
                  ENTITY_CODES).

Definition sample_clock : Timestamp := mkTimestamp 2020 10 3.

Definition cached_world : World :=
  {| fs := cache_of (fun _ => two_months);
     clock := sample_clock; io_log := [] |}.

(** The cache file of ['eu'] has one row more than the others. *)
Definition uneven_world : World :=
  {| fs := cache_of (fun ec n => if String.eqb ec "eu"
                                 then july n :: two_months n
                                 else two_months n);
     clock := sample_clock; io_log := [] |}.

(** Every cache file has two dates in September 2020. *)
Definition same_month_world : World :=
  {| fs := cache_of (fun _ n => [(mkTimestamp 2020 9 1, snd (august n));
                                 september n]);
     clock := sample_clock; io_log := [] |}.

Definition sample_book (sheet_name usecols : string)
  : option (DataFrame Timestamp) :=
  if String.eqb sheet_name "MONTHLY" then
    match find (fun e => String.eqb (snd e) usecols) ENTITY_COLS with
    | Some e => Some (sample_frame two_months (fst e))
    | None => None
    end
  else None.

(** A directory with the workbook and no cache file. *)
Definition workbook_world : World :=
  {| fs := fun path => if String.eqb path (esi_file_path __init__)
                       then Some (XlsxFile sample_book) else None;
     clock := sample_clock; io_log := [] |}.

Definition sample_month : Period := mkPeriod 2020 9.
Definition late_month : Period := mkPeriod 2021 9.

Definition rankings_of (date : option Period) (w : World)
  : pydict (list (string * value)) :=
  match fst (get_latest_rankings __init__ date w) with
  | Ok rankings => rankings
  | Raise _ => []
  end.

Definition ranking_of (date : option Period) (w : World) (name : string)
  : list (string * value) :=
  match dict_get name (rankings_of date w) with
  | Some ranking => ranking
  | None => []
  end.

Definition tables_of (w : World) : pydict (DataFrame Period) :=
  match fst (_fetch_esi_tables __init__ w) with
  | Ok tables => tables
  | Raise _ => []
  end.

Definition table_of (w : World) (ec : string) : DataFrame Period :=
  match dict_get ec (tables_of w) with
  | Some table => table
  | None => mkDataFrame [] []
  end.

Definition history_of (esi_component : string) (months : Z) (w : World)
  : HistoricalValues :=
  match fst (get_historical_values __init__ esi_component months w) with
  | Ok values => values
  | Raise _ => {| countries := []; dates := [] |}
  end.

Definition series_of (esi_component : string) (months : Z) (w : World)
           (ec : string) : list value :=
  match dict_get ec (countries (history_of esi_component months w)) with
  | Some series => series
  | None => []
  end.

(** ** Vocabulary of the further properties *)

(** Python's [a == b] on floats. *)
Definition value_eqb (a b : value) : bool :=
  match a, b with
  | Num x, Num y => Qeq_bool x y
  | _, _ => false
  end.

(** No key of the list is NaN. *)
Definition numbers {A} (key : A -> value) (l : list A) : Prop :=
  forall x, In x l -> isnan (key x) = false.

(** [key x <= key y], both numbers. *)
Definition key_le {A} (key : A -> value) (x y : A) : Prop :=
  value_ge (key y) (key x).

(** A computation that leaves the world as it is, whatever it returns. *)
Definition quiet {A} (c : M A) : Prop := forall w, snd (c w) = w.

(** A directory with no file at all. *)
Definition empty_world : World :=
  {| fs := fun _ => None; clock := sample_clock; io_log := [] |}.

(** The suffix [get_historical_values] works with: the one given when it
    is among the six, ['.ESI'] otherwise. *)
Definition component_or_esi (esi_component : string) : string :=
  if existsb (String.eqb esi_component) ESI_COMPONENTS
  then esi_component else ".ESI".

(** The table of [ec] has the column of the component. *)
Definition has_column (esi_tables : pydict (DataFrame Period))
           (esi_component ec : string) : Prop :=
  exists table,
    dict_get ec esi_tables = Some table /\
    frame_column (String.append (upper ec) esi_component) table <> None.

(** The cache file of ['at'] lacks the last column, that of ['.ESI']. *)
Definition narrow_world : World :=
  {| fs := fun path =>
             if String.eqb path (_entity_csv_filename __init__ "at")
             then Some (CsvFile
                          (mkDataFrame
                             (firstn 5 (sample_columns "at"))
                             (map (fun r => (fst r, firstn 5 (snd r)))
                                  (two_months 2))))
             else cache_of (fun _ => two_months) path;
     clock := sample_clock; io_log := [] |}.

(** Stand-ins for the text of a float, of a month and of a period. *)
Definition sample_float_text (v : value) : string :=
  match v with
  | Num q =>
      String.append (str_int (Qnum q))
                    (String.append "/" (str_int (Zpos (Qden q))))
  | NaN => "nan"
  end.

Definition sample_month_text (p : Period) : string :=
  String.append (str_int (p_year p)) (String.append "-" (str_int (p_month p))).

(** Modelled from the spec: pandas' [to_csv] and [read_csv] are not code of
    the repository, and the spec takes the cache write/read to be lossless
    for numeric and date data.  [csv_round_trip path df] is
    [df.to_csv(path, encoding='utf-8')] followed by
    [pd.read_csv(path, index_col=0, parse_dates=[0])], as [to_csv] and
    [read_csv] treat a [CsvFile]: the file written reads back as the frame
    that was written. *)
Definition csv_round_trip (path : string) (df : DataFrame Timestamp)
  : M (DataFrame Timestamp) :=
  _ <- to_csv df path ;; read_csv path 0 [0].

(** * Properties *)

Unset Implicit Arguments.

(** ** The sort *)

Lemma value_lt_asym (a b : value) :
  value_lt a b = true -> value_lt b a = false.
Proof.
  destruct a as [x|], b as [y|]; simpl; try discriminate; intros H.
  apply negb_true_iff in H. apply negb_false_iff, Qle_bool_iff.
  destruct (Qlt_le_dec y x) as [Hlt|Hle].
  - apply Qlt_le_weak in Hlt. apply Qle_bool_iff in Hlt. congruence.
  - exact Hle.
Qed.

Lemma value_lt_numbers (a b : value) :
  value_lt a b = true -> isnan a = false /\ isnan b = false.
Proof. destruct a, b; simpl; intros; try discriminate; auto. Qed.

Lemma value_lt_nan_l (a b : value) : isnan a = true -> value_lt a b = false.
Proof. destruct a; simpl; [discriminate | reflexivity]. Qed.

Lemma value_not_lt_ge (a b : value) :
  isnan a = false -> isnan b = false -> value_lt a b = false -> value_ge a b.
Proof.
  destruct a as [x|], b as [y|]; simpl; try discriminate; intros _ _ H.
  apply negb_false_iff, Qle_bool_iff in H. exact H.
Qed.

Lemma adjacent_short {A} (R : A -> A -> Prop) (l : list A) :
  length l < 2 -> adjacent R l.
Proof. intros H i d Hi. lia. Qed.

Lemma adjacent_cons {A} (R : A -> A -> Prop) (x y : A) (t : list A) :
  R x y -> adjacent R (y :: t) -> adjacent R (x :: y :: t).
Proof.
  intros Hxy Ht [|i] d Hi; simpl in *; [exact Hxy|].
  apply (Ht i d). simpl. lia.
Qed.

Lemma adjacent_rev {A} (R : A -> A -> Prop) (l : list A) :
  adjacent R l -> adjacent (fun x y => R y x) (rev l).
Proof.
  intros H i d Hi. rewrite length_rev in Hi.
  rewrite !rev_nth by lia.
  replace (length l - S i) with (S (length l - S (S i))) by lia.
  apply H. lia.
Qed.

Lemma adjacent_impl {A} (R R' : A -> A -> Prop) (l : list A) :
  (forall x y, R x y -> R' x y) -> adjacent R l -> adjacent R' l.
Proof. intros HR H i d Hi. apply HR, H, Hi. Qed.

Lemma nth_insert_at {A} (k : nat) (x : A) (a : list A) (i : nat) (d : A) :
  k <= length a ->
  nth i (insert_at k x a) d =
    if i <? k then nth i a d
    else if i =? k then x else nth (i - 1) a d.
Proof.
  intros Hk. unfold insert_at.
  destruct (Nat.ltb_spec i k) as [Hlt|Hge].
  - rewrite app_nth1 by (rewrite length_firstn; lia).
    rewrite nth_firstn. destruct (Nat.ltb_spec i k); [reflexivity | lia].
  - rewrite app_nth2 by (rewrite length_firstn; lia).
    rewrite length_firstn, Nat.min_l by exact Hk.
    destruct (Nat.eqb_spec i k) as [->|Hne].
    + rewrite Nat.sub_diag. reflexivity.
    + destruct (i - k) as [|j] eqn:Hj; [lia|]. simpl.
      rewrite nth_skipn. f_equal. lia.
Qed.

Lemma Permutation_insert_at {A} (k : nat) (x : A) (a : list A) :
  Permutation (insert_at k x a) (x :: a).
Proof.
  unfold insert_at. symmetry.
  rewrite <- (firstn_skipn k a) at 1. apply Permutation_middle.
Qed.

Lemma length_insert_at {A} (k : nat) (x : A) (a : list A) :
  length (insert_at k x a) = S (length a).
Proof. apply (Permutation_length (Permutation_insert_at k x a)). Qed.

Section SortingFacts.
Variable A : Type.
Variable key : A -> value.

Lemma bisect_spec (pivot : A) (a : list A) :
  forall fuel l r,
    r - l <= fuel -> l <= r -> r <= length a ->
    (l = 0 \/ item_lt key pivot (nth (l - 1) a pivot) = false) ->
    (r = length a \/ item_lt key pivot (nth r a pivot) = true) ->
    let k := bisect key fuel pivot a l r in
    l <= k <= r /\
    (k = 0 \/ item_lt key pivot (nth (k - 1) a pivot) = false) /\
    (k = length a \/ item_lt key pivot (nth k a pivot) = true).
Proof.
  induction fuel as [|fuel IH]; intros l r Hfuel Hlr Hr Hl Hrr; simpl.
  - assert (l = r) by lia. subst. repeat split; auto.
  - destruct (Nat.ltb_spec l r) as [Hlt|Hge].
    + assert (Hd : Nat.div2 (r - l) < r - l) by (apply Nat.lt_div2; lia).
      remember (Nat.div2 (r - l)) as h eqn:Eh. clear Eh.
      remember (l + h) as p eqn:Ep.
      destruct (item_lt key pivot (nth p a pivot)) eqn:Hp.
      * destruct (IH l p) as (H1 & H2 & H3); try lia; auto.
        repeat split; auto; lia.
      * destruct (IH (p + 1) r) as (H1 & H2 & H3); try lia; auto.
        { right. replace (p + 1 - 1) with p by lia. exact Hp. }
        repeat split; auto; lia.
    + assert (l = r) by lia. subst. repeat split; auto.
Qed.

(** A pivot that is [<] nothing (a NaN) stays where it is, after the run. *)
Lemma bisect_never_lt (pivot : A) (a : list A) :
  (forall x, item_lt key pivot x = false) ->
  forall fuel l r, r - l <= fuel -> l <= r ->
    bisect key fuel pivot a l r = r.
Proof.
  intros Hnan. induction fuel as [|fuel IH]; intros l r Hfuel Hlr; simpl.
  - lia.
  - destruct (Nat.ltb_spec l r) as [Hlt|Hge]; [|lia].
    assert (Hd : Nat.div2 (r - l) < r - l) by (apply Nat.lt_div2; lia).
    rewrite Hnan. remember (Nat.div2 (r - l)) as h eqn:Eh. clear Eh.
    apply IH; lia.
Qed.

Lemma ascending_insert_at (k : nat) (pivot : A) (a : list A) :
  ascending key a -> k <= length a ->
  (k = 0 \/ item_lt key pivot (nth (k - 1) a pivot) = false) ->
  (k = length a \/ item_lt key pivot (nth k a pivot) = true) ->
  ascending key (insert_at k pivot a).
Proof.
  intros Ha Hk Hleft Hright i d Hi.
  rewrite length_insert_at in Hi.
  rewrite !nth_insert_at by exact Hk.
  destruct (Nat.ltb_spec (S i) k) as [H1|H1].
  - destruct (Nat.ltb_spec i k); [|lia]. apply Ha. lia.
  - destruct (Nat.eqb_spec (S i) k) as [H2|H2].
    + destruct (Nat.ltb_spec i k); [|lia].
      destruct Hleft as [Hleft|Hleft]; [lia|].
      replace (k - 1) with i in Hleft by lia.
      rewrite (nth_indep a d pivot) by lia. exact Hleft.
    + destruct (Nat.ltb_spec i k); [lia|].
      destruct (Nat.eqb_spec i k) as [H3|H3].
      * subst i. destruct Hright as [Hright|Hright]; [lia|].
        apply value_lt_asym.
        replace (S k - 1) with k by lia.
        rewrite (nth_indep a d pivot) by lia. exact Hright.
      * replace (S i - 1) with (S (i - 1)) by lia. apply Ha. lia.
Qed.

Lemma binarysort_ascending (rest run : list A) :
  ascending key run -> ascending key (binarysort key run rest).
Proof.
  revert run. induction rest as [|pivot rest IH]; intros run Hrun; simpl.
  - exact Hrun.
  - apply IH.
    destruct (bisect_spec pivot run (length run) 0 (length run))
      as (H1 & H2 & H3); try lia; auto.
    apply ascending_insert_at; auto. lia.
Qed.

Lemma Permutation_binarysort (rest run : list A) :
  Permutation (binarysort key run rest) (run ++ rest).
Proof.
  revert run. induction rest as [|pivot rest IH]; intros run; simpl.
  - rewrite app_nil_r. reflexivity.
  - rewrite IH, Permutation_insert_at. apply Permutation_middle.
Qed.

Lemma filter_nan_binarysort (rest run : list A) :
  filter (nan_key key) (binarysort key run rest) =
  filter (nan_key key) run ++ filter (nan_key key) rest.
Proof.
  revert run. induction rest as [|pivot rest IH]; intros run; simpl.
  - rewrite app_nil_r. reflexivity.
  - rewrite IH. destruct (nan_key key pivot) eqn:Hp.
    + rewrite bisect_never_lt; try lia.
      * unfold insert_at. rewrite firstn_all, skipn_all.
        rewrite filter_app. simpl. rewrite Hp, <- app_assoc. reflexivity.
      * intros x. apply value_lt_nan_l. exact Hp.
    + unfold insert_at. rewrite filter_app. simpl. rewrite Hp.
      rewrite <- filter_app, firstn_skipn. reflexivity.
Qed.

Lemma run_asc_ascending (l : list A) :
  forall prev, ascending key (prev :: firstn (run_asc key prev l) l).
Proof.
  induction l as [|x t IH]; intros prev; simpl.
  - apply adjacent_short. simpl. lia.
  - destruct (item_lt key x prev) eqn:Hx; simpl.
    + apply adjacent_short. simpl. lia.
    + apply adjacent_cons; [exact Hx | apply IH].
Qed.

Lemma run_desc_descending (l : list A) :
  forall prev,
    adjacent (fun x y => item_lt key y x = true)
             (prev :: firstn (run_desc key prev l) l).
Proof.
  induction l as [|x t IH]; intros prev; simpl.
  - apply adjacent_short. simpl. lia.
  - destruct (item_lt key x prev) eqn:Hx; simpl.
    + apply adjacent_cons; [exact Hx | apply IH].
    + apply adjacent_short. simpl. lia.
Qed.

Lemma run_desc_numbers (l : list A) :
  forall prev, filter (nan_key key) (firstn (run_desc key prev l) l) = [].
Proof.
  induction l as [|x t IH]; intros prev; simpl; [reflexivity|].
  destruct (item_lt key x prev) eqn:Hx; simpl; [|reflexivity].
  apply value_lt_numbers in Hx. unfold nan_key at 1.
  destruct Hx as [-> _]. apply IH.
Qed.

Lemma listsort_ascending (a : list A) : ascending key (listsort key a).
Proof.
  unfold listsort. destruct (Nat.ltb_spec (length a) 2) as [Hlen|Hlen].
  - apply adjacent_short. exact Hlen.
  - destruct a as [|x [|y t]]; simpl in Hlen; try lia. simpl count_run.
    destruct (item_lt key y x) eqn:Hyx; apply binarysort_ascending.
    + change (ascending key (rev (x :: y :: firstn (run_desc key y t) t))).
      assert (Hd : adjacent (fun a b => item_lt key b a = true)
                            (x :: y :: firstn (run_desc key y t) t)).
      { apply adjacent_cons; [exact Hyx | apply run_desc_descending]. }
      apply adjacent_rev in Hd. revert Hd. apply adjacent_impl.
      intros a b Hab. apply value_lt_asym. exact Hab.
    + change (ascending key (x :: y :: firstn (run_asc key y t) t)).
      apply adjacent_cons; [exact Hyx | apply run_asc_ascending].
Qed.

Lemma Permutation_listsort (a : list A) : Permutation (listsort key a) a.
Proof.
  unfold listsort. destruct (length a <? 2); [reflexivity|].
  destruct (count_run key a) as [n descending].
  rewrite Permutation_binarysort.
  transitivity (firstn n a ++ skipn n a).
  - apply Permutation_app_tail.
    destruct descending; [symmetry; apply Permutation_rev | reflexivity].
  - rewrite firstn_skipn. reflexivity.
Qed.

Lemma filter_nan_listsort (a : list A) :
  filter (nan_key key) (listsort key a) = filter (nan_key key) a.
Proof.
  unfold listsort. destruct (Nat.ltb_spec (length a) 2) as [Hlen|Hlen];
    [reflexivity|].
  destruct a as [|x [|y t]]; simpl in Hlen; try lia. simpl count_run.
  destruct (item_lt key y x) eqn:Hyx; rewrite filter_nan_binarysort.
  - change (firstn (2 + run_desc key y t) (x :: y :: t))
      with (x :: y :: firstn (run_desc key y t) t).
    change (skipn (2 + run_desc key y t) (x :: y :: t))
      with (skipn (run_desc key y t) t).
    rewrite filter_rev. apply value_lt_numbers in Hyx.
    destruct Hyx as [Hy Hx].
    change (nan_key key y = false) in Hy. change (nan_key key x = false) in Hx.
    simpl. rewrite Hx, Hy, run_desc_numbers. simpl.
    pose proof (f_equal (filter (nan_key key))
                        (firstn_skipn (run_desc key y t) t)) as E.
    rewrite filter_app, run_desc_numbers in E. exact E.
  - rewrite <- filter_app, firstn_skipn. reflexivity.
Qed.

(** [sorted(l, key=key, reverse=True)]: no element is [<] the next one,
    the elements are those of [l], and the elements whose key is NaN are
    in the order they have in [l]. *)
Lemma sorted_reverse_adjacent (l : list A) :
  adjacent (fun x y => item_lt key x y = false) (sorted key true l).
Proof.
  unfold sorted. apply (adjacent_rev _ (listsort key (rev l))).
  apply listsort_ascending.
Qed.

Lemma Permutation_sorted (reverse : bool) (l : list A) :
  Permutation (sorted key reverse l) l.
Proof.
  unfold sorted. destruct reverse.
  - rewrite <- Permutation_rev, Permutation_listsort.
    symmetry. apply Permutation_rev.
  - apply Permutation_listsort.
Qed.

Lemma filter_nan_sorted (reverse : bool) (l : list A) :
  filter (nan_key key) (sorted key reverse l) = filter (nan_key key) l.
Proof.
  unfold sorted. destruct reverse.
  - rewrite filter_rev, filter_nan_listsort, filter_rev, rev_involutive.
    reflexivity.
  - apply filter_nan_listsort.
Qed.

End SortingFacts.

(** ** The monad *)

Lemma bind_ok_inv {A B} (c : M A) (k : A -> M B) (w : World) b w' :
  bind c k w = (Ok b, w') ->
  exists a w1, c w = (Ok a, w1) /\ k a w1 = (Ok b, w').
Proof.
  unfold bind. destruct (c w) as [[a|e] w1]; intros H.
  - exists a, w1. split; [reflexivity | exact H].
  - discriminate.
Qed.

Lemma bind_ok {A B} (c : M A) (k : A -> M B) (w : World) a w1 :
  c w = (Ok a, w1) -> bind c k w = k a w1.
Proof. unfold bind. intros ->. reflexivity. Qed.

Lemma bind_raise {A B} (c : M A) (k : A -> M B) (w : World) e w1 :
  c w = (Raise e, w1) -> bind c k w = (Raise e, w1).
Proof. unfold bind. intros ->. reflexivity. Qed.

Lemma for_each_cons {A S} (x : A) (l : list A) (body : S -> A -> M S) s :
  for_each (x :: l) body s = bind (body s x) (for_each l body).
Proof. reflexivity. Qed.

(** ** Dicts *)

Lemma dict_get_map_key {V} (f : string -> V) (k : string) (l : list string) :
  In k l -> dict_get k (map (fun x => (x, f x)) l) = Some (f k).
Proof.
  induction l as [|x l IH]; simpl; [contradiction|]. intros [->|Hin].
  - rewrite String.eqb_refl. reflexivity.
  - destruct (String.eqb_spec x k) as [->|_]; [reflexivity | apply IH, Hin].
Qed.

Lemma dict_get_In {V} (k : string) (d : pydict V) v :
  dict_get k d = Some v -> In (k, v) d.
Proof.
  induction d as [|[k' v'] d IH]; simpl; [discriminate|].
  destruct (String.eqb_spec k' k) as [->|_].
  - intros [= ->]. left. reflexivity.
  - intros H. right. apply IH, H.
Qed.

(** ** The first loop of [get_latest_rankings] *)

Lemma latest_values_step_eq tables s e acc ec (w : World) :
  latest_values_step tables s e acc ec w =
  (match dict_get ec tables with
   | None => Raise (KeyError ec)
   | Some table =>
       match window_tail s e table with
       | [] => Raise (SystemExit out_of_range_message)
       | row :: _ => Ok (dict_set ec row acc)
       end
   end, w).
Proof.
  unfold latest_values_step, try_except, bind, getitem, list_getitem,
    sys_exit, raise, ret.
  destruct (dict_get ec tables) as [table|]; [|reflexivity].
  destruct (window_tail s e table); reflexivity.
Qed.

Lemma latest_values_inv tables s e (codes : list string) :
  forall acc (w : World) latest w',
    for_each codes (latest_values_step tables s e) acc w = (Ok latest, w') ->
    w' = w /\
    latest = fold_left (fun d ec => dict_set ec (latest_row tables s e ec) d)
                       codes acc /\
    forall ec, In ec codes ->
      exists table row rest,
        dict_get ec tables = Some table /\
        window_tail s e table = row :: rest.
Proof.
  induction codes as [|ec codes IH]; intros acc w latest w' H.
  - simpl in H. inversion H. subst. repeat split. intros ? [].
  - rewrite for_each_cons in H. apply bind_ok_inv in H.
    destruct H as (acc1 & w1 & Hstep & Hrest).
    rewrite latest_values_step_eq in Hstep.
    destruct (dict_get ec tables) as [table|] eqn:Hget; [|discriminate].
    destruct (window_tail s e table) as [|row rest] eqn:Hwin; [discriminate|].
    inversion Hstep. subst acc1 w1.
    destruct (IH _ _ _ _ Hrest) as (-> & -> & Hall).
    repeat split.
    + assert (Hrow : latest_row tables s e ec = row).
      { unfold latest_row. rewrite Hget, Hwin. reflexivity. }
      simpl. rewrite Hrow. reflexivity.
    + intros ec' [<-|Hin]; [|apply Hall, Hin].
      exists table, row, rest. split; assumption.
Qed.


(** ** The second loop *)

Lemma latest_cell_eq latest ec idx (w : World) :
  latest_cell latest ec idx w =
  (match dict_get ec latest with
   | None => Raise (KeyError ec)
   | Some row =>
       match nth_error row idx with
       | Some v => Ok v
       | None => Raise IndexError
       end
   end, w).
Proof.
  unfold latest_cell, bind, getitem, list_getitem, raise, ret.
  destruct (dict_get ec latest) as [row|]; [|reflexivity].
  destruct (nth_error row idx); reflexivity.
Qed.

Lemma latest_cell_ok latest ec idx (w : World) v w' :
  latest_cell latest ec idx w = (Ok v, w') ->
  w' = w /\ v = cell latest ec idx /\
  exists row, dict_get ec latest = Some row /\ nth_error row idx = Some v.
Proof.
  rewrite latest_cell_eq. unfold cell.
  destruct (dict_get ec latest) as [row|]; [|discriminate].
  destruct (nth_error row idx) as [v'|] eqn:Hnth; [|discriminate].
  intros H. inversion H. subst. repeat split.
  - symmetry. apply nth_error_nth. exact Hnth.
  - exists row. auto.
Qed.

Lemma rankings_step_inv latest r ec label (w : World) r' w' :
  rankings_step latest r (ec, label) w = (Ok r', w') ->
  w' = w /\ r' = add_entity latest r (ec, label) /\
  forall idx, idx < 6 ->
    exists row, dict_get ec latest = Some row /\
                nth_error row idx = Some (cell latest ec idx).
Proof.
  unfold rankings_step. intros H.
  repeat (apply bind_ok_inv in H;
          let v := fresh "v" in let w1 := fresh "w" in
          let Hc := fresh "Hc" in
          destruct H as (v & w1 & Hc & H);
          apply latest_cell_ok in Hc;
          destruct Hc as (-> & -> & Hc)).
  unfold ret in H. inversion H. subst. repeat split.
  intros idx Hidx.
  destruct idx as [|[|[|[|[|[|idx]]]]]]; try assumption. lia.
Qed.

Lemma rankings_loop_inv latest (entities : list (string * string)) :
  forall r (w : World) r' w',
    for_each entities (rankings_step latest) r w = (Ok r', w') ->
    w' = w /\ r' = fold_left (add_entity latest) entities r /\
    forall ec label idx, In (ec, label) entities -> idx < 6 ->
      exists row, dict_get ec latest = Some row /\
                  nth_error row idx = Some (cell latest ec idx).
Proof.
  induction entities as [|[ec label] entities IH]; intros r w r' w' H.
  - simpl in H. inversion H. subst. repeat split. intros ? ? ? [].
  - rewrite for_each_cons in H. apply bind_ok_inv in H.
    destruct H as (r1 & w1 & Hstep & Hrest).
    apply rankings_step_inv in Hstep. destruct Hstep as (-> & -> & Hrow).
    destruct (IH _ _ _ _ Hrest) as (-> & -> & Hall).
    repeat split. intros ec' label' idx [Heq|Hin] Hidx.
    + inversion Heq. subst. apply Hrow, Hidx.
    + eapply Hall; eassumption.
Qed.

Lemma fold_add_entity latest :
  fold_left (add_entity latest) ESI_ENTITIES empty_rankings =
  {| industrial_ranking := unsorted_ranking latest INDU_idx;
     services_ranking := unsorted_ranking latest SERV_idx;
     consumer_ranking := unsorted_ranking latest CONS_idx;
     retail_ranking := unsorted_ranking latest RETA_idx;
     construction_ranking := unsorted_ranking latest BUIL_idx;
     esi_ranking := unsorted_ranking latest ESI_idx |}.
Proof. reflexivity. Qed.

Lemma sort_rankings_fold latest :
  sort_rankings (fold_left (add_entity latest) ESI_ENTITIES empty_rankings) =
  map (fun c => (fst c, sorted (fun x => snd x) true
                               (unsorted_ranking latest (snd c))))
      component_columns.
Proof. rewrite fold_add_entity. reflexivity. Qed.

(** ** The window *)

Lemma tail_one_last {X} (l : list X) (x : X) : tail 1 (l ++ [x]) = [x].
Proof.
  unfold tail. change (1 =? 0)%Z with false. change (0 <? 1)%Z with true.
  change (Z.to_nat 1) with 1. cbv iota.
  rewrite length_app. simpl length.
  replace (length l + 1 - 1) with (length l) by lia.
  rewrite skipn_app, skipn_all, Nat.sub_diag. reflexivity.
Qed.

Lemma tail_one_cases {X} (l : list X) :
  (l = [] /\ tail 1 l = []) \/
  (exists others x, l = others ++ [x] /\ tail 1 l = [x]).
Proof.
  induction l as [|y l' _] using rev_ind.
  - left. split; reflexivity.
  - right. exists l', y. split; [reflexivity | apply tail_one_last].
Qed.

Lemma window_tail_rows s e (table : DataFrame Period) :
  window_tail s e table = map snd (tail 1 (rows_in_window s e table)).
Proof. reflexivity. Qed.


Lemma window_tail_cons s e (table : DataFrame Period) row rest :
  window_tail s e table = row :: rest ->
  exists others last_row,
    rows_in_window s e table = others ++ [last_row] /\
    row = snd last_row /\ rest = [].
Proof.
  rewrite window_tail_rows.
  destruct (tail_one_cases (rows_in_window s e table))
    as [[_ Ht]|(others & x & Hl & Ht)]; rewrite Ht; simpl.
  - discriminate.
  - intros H. inversion H. subst. exists others, x. auto.
Qed.

Lemma lookup_window_eq (date : option Period) (w : World) :
  lookup_window date w =
  (Ok (match date with
       | Some d => (d, d)
       | None =>
           let month_ago := relativedelta_months (-1) (clock w) in
           (month_label (ts_year month_ago) (ts_month month_ago),
            month_label (ts_year (clock w)) (ts_month (clock w)))
       end), w).
Proof. destruct date; reflexivity. Qed.

(** ** The shape of what [_fetch_esi_tables] returns *)

Lemma to_monthly_step_eq raw acc ec (w : World) :
  to_monthly_step raw acc ec w =
  (match dict_get ec raw with
   | Some table => Ok (dict_set ec (frame_to_period table) acc)
   | None => Raise (KeyError ec)
   end, w).
Proof.
  unfold to_monthly_step, bind, getitem, raise, ret.
  destruct (dict_get ec raw); reflexivity.
Qed.

Lemma to_monthly_loop_inv raw (codes : list string) :
  forall acc (w : World) monthly w',
    for_each codes (to_monthly_step raw) acc w = (Ok monthly, w') ->
    w' = w /\
    monthly = fold_left
                (fun d ec => dict_set ec (frame_to_period (raw_frame raw ec)) d)
                codes acc /\
    forall ec, In ec codes -> dict_get ec raw = Some (raw_frame raw ec).
Proof.
  induction codes as [|ec codes IH]; intros acc w monthly w' H.
  - simpl in H. inversion H. subst. repeat split. intros ? [].
  - rewrite for_each_cons in H. apply bind_ok_inv in H.
    destruct H as (acc1 & w1 & Hstep & Hrest).
    rewrite to_monthly_step_eq in Hstep.
    destruct (dict_get ec raw) as [table|] eqn:Hget; [|discriminate].
    inversion Hstep. subst acc1 w1.
    assert (Hraw : raw_frame raw ec = table).
    { unfold raw_frame. rewrite Hget. reflexivity. }
    destruct (IH _ _ _ _ Hrest) as (-> & -> & Hall).
    repeat split.
    + simpl. rewrite Hraw. reflexivity.
    + intros ec' [<-|Hin]; [congruence | apply Hall, Hin].
Qed.

Lemma fold_dict_set_codes {V} (f : string -> V) :
  fold_left (fun d ec => dict_set ec (f ec) d) ENTITY_CODES [] =
  map (fun ec => (ec, f ec)) ENTITY_CODES.
Proof. reflexivity. Qed.

Lemma to_monthly_inv raw (w : World) monthly w' :
  to_monthly raw w = (Ok monthly, w') ->
  w' = w /\
  monthly = map (fun ec => (ec, frame_to_period (raw_frame raw ec)))
                ENTITY_CODES /\
  forall ec, In ec ENTITY_CODES -> dict_get ec raw = Some (raw_frame raw ec).
Proof.
  unfold to_monthly. intros H. apply to_monthly_loop_inv in H.
  destruct H as (-> & -> & Hall). rewrite fold_dict_set_codes. auto.
Qed.

Lemma fetch_inv_raw self (w : World) tables w' :
  _fetch_esi_tables self w = (Ok tables, w') ->
  exists raw,
    tables = map (fun ec => (ec, frame_to_period (raw_frame raw ec)))
                 ENTITY_CODES.
Proof.
  unfold _fetch_esi_tables. intros H.
  apply bind_ok_inv in H. destruct H as (have & w1 & _ & H).
  apply bind_ok_inv in H. destruct H as (raw & w2 & _ & H).
  apply to_monthly_inv in H. destruct H as (_ & -> & _).
  exists raw. reflexivity.
Qed.

Lemma fetch_has_tables self (w : World) tables w' ec :
  _fetch_esi_tables self w = (Ok tables, w') ->
  In ec ENTITY_CODES ->
  dict_get ec tables <> None.
Proof.
  intros H Hin. apply fetch_inv_raw in H. destruct H as (raw & ->).
  rewrite (dict_get_map_key
             (fun ec => frame_to_period (raw_frame raw ec)) _ _ Hin).
  discriminate.
Qed.

(** ** [get_latest_rankings], when it returns *)

Lemma get_latest_rankings_inv self date (w : World) rankings w' :
  get_latest_rankings self date w = (Ok rankings, w') ->
  exists s e tables latest,
    lookup_window date w = (Ok (s, e), w) /\
    _fetch_esi_tables self w = (Ok tables, w') /\
    latest = map (fun ec => (ec, latest_row tables s e ec)) ENTITY_CODES /\
    (forall ec, In ec ENTITY_CODES ->
       exists table row rest,
         dict_get ec tables = Some table /\
         window_tail s e table = row :: rest) /\
    (forall ec label idx, In (ec, label) ESI_ENTITIES -> idx < 6 ->
       exists row, dict_get ec latest = Some row /\
                   nth_error row idx = Some (cell latest ec idx)) /\
    rankings =
      map (fun c => (fst c, sorted (fun x => snd x) true
                                   (unsorted_ranking latest (snd c))))
          component_columns.
Proof.
  unfold get_latest_rankings. intros H.
  apply bind_ok_inv in H. destruct H as ([s e] & w0 & Hwin & H).
  assert (w0 = w)
    by (rewrite lookup_window_eq in Hwin; inversion Hwin; reflexivity).
  subst w0.
  apply bind_ok_inv in H. destruct H as (tables & w1 & Hfetch & H).
  apply bind_ok_inv in H. destruct H as (latest & w2 & Hlatest & H).
  apply bind_ok_inv in H. destruct H as (r & w3 & Hrank & H).
  unfold ret in H. inversion H. subst w3 rankings. clear H.
  unfold latest_values_loop in Hlatest.
  apply latest_values_inv in Hlatest. destruct Hlatest as (-> & Hl & Hrows).
  change (keys ESI_ENTITIES) with ENTITY_CODES in Hl, Hrows.
  rewrite (fold_dict_set_codes (latest_row tables s e)) in Hl.
  unfold rankings_loop in Hrank.
  apply rankings_loop_inv in Hrank. destruct Hrank as (-> & -> & Hcells).
  exists s, e, tables, latest.
  repeat split; auto.
Qed.

(** ** Rankings *)

Lemma adjacent_nth_error {A} (R : A -> A -> Prop) (l : list A) i x y :
  adjacent R l ->
  nth_error l i = Some x -> nth_error l (S i) = Some y -> R x y.
Proof.
  intros Hadj Hx Hy.
  assert (Hi : S i < length l) by (apply nth_error_Some; congruence).
  specialize (Hadj i x Hi).
  rewrite (nth_error_nth _ _ x Hx), (nth_error_nth _ _ x Hy) in Hadj.
  exact Hadj.
Qed.

Lemma In_rankings_sorted latest name ranking :
  In (name, ranking)
     (map (fun c => (fst c, sorted (fun x => snd x) true
                                   (unsorted_ranking latest (snd c))))
          component_columns) ->
  exists idx,
    In (name, idx) component_columns /\
    ranking = sorted (fun x => snd x) true (unsorted_ranking latest idx).
Proof.
  intros H. apply in_map_iff in H. destruct H as ([name' idx] & Heq & Hin).
  simpl in Heq. inversion Heq. subst. exists idx. auto.
Qed.

Lemma unsorted_ranking_names latest idx :
  map fst (unsorted_ranking latest idx) = map snd ESI_ENTITIES.
Proof. reflexivity. Qed.

Lemma entity_names_NoDup : NoDup (map snd ESI_ENTITIES).
Proof.
  repeat constructor; simpl; intros H;
    repeat (destruct H as [H|H]; [discriminate H|]); exact H.
Qed.

Lemma entity_code_of (ec label : string) :
  In (ec, label) ESI_ENTITIES -> In ec ENTITY_CODES.
Proof. intros H. apply (in_map fst) in H. exact H. Qed.

(** C1.  In every ranking [get_latest_rankings] returns, an entry is never
    followed by a larger one: of two neighbours that are both numbers the
    first is [>=] the second.  The entries are those of the component in the
    order of the entity catalogue, rearranged, and the entries whose value
    is NaN are among themselves still in catalogue order. *)
Theorem rankings_sorted_descending self date (w : World) rankings w'
        name ranking :
  get_latest_rankings self date w = (Ok rankings, w') ->
  In (name, ranking) rankings ->
  (forall i x y,
      nth_error ranking i = Some x -> nth_error ranking (S i) = Some y ->
      isnan (snd x) = false -> isnan (snd y) = false ->
      value_ge (snd x) (snd y)) /\
  exists entries,
    map fst entries = map snd ESI_ENTITIES /\
    Permutation ranking entries /\
    filter (fun x => isnan (snd x)) ranking =
    filter (fun x => isnan (snd x)) entries.
Proof.
  intros Hrun Hin.
  apply get_latest_rankings_inv in Hrun.
  destruct Hrun as (s & e & tables & latest & _ & _ & _ & _ & _ & ->).
  apply In_rankings_sorted in Hin. destruct Hin as (idx & _ & ->).
  split.
  - intros i x y Hx Hy Hnx Hny.
    apply value_not_lt_ge; try assumption.
    exact (adjacent_nth_error _ _ _ _ _ (sorted_reverse_adjacent _ _ _) Hx Hy).
  - exists (unsorted_ranking latest idx). split; [|split].
    + apply unsorted_ranking_names.
    + apply Permutation_sorted.
    + apply (filter_nan_sorted _ (fun x : string * value => snd x)).
Qed.

(** C5.  What [get_latest_rankings] returns has exactly the six keys, and
    under each key a list of 16 pairs whose names are the 16 display names
    of the catalogue, each once. *)
Theorem rankings_six_of_sixteen self date (w : World) rankings w' :
  get_latest_rankings self date w = (Ok rankings, w') ->
  keys rankings =
    ["industrial_confidence"; "services_confidence"; "consumer_confidence";
     "retail_confidence"; "construction_confidence"; "esi"] /\
  Permutation (keys rankings)
    ["esi"; "industrial_confidence"; "services_confidence";
     "consumer_confidence"; "retail_confidence"; "construction_confidence"] /\
  NoDup (keys rankings) /\
  forall name ranking, In (name, ranking) rankings ->
    length ranking = 16 /\
    Permutation (map fst ranking) (map snd ESI_ENTITIES) /\
    NoDup (map fst ranking).
Proof.
  intros Hrun.
  apply get_latest_rankings_inv in Hrun.
  destruct Hrun as (s & e & tables & latest & _ & _ & _ & _ & _ & ->).
  split; [reflexivity|]. split; [|split].
  - change (Permutation
              (["industrial_confidence"; "services_confidence";
                "consumer_confidence"; "retail_confidence";
                "construction_confidence"] ++ ["esi"])
              (["esi"] ++ ["industrial_confidence"; "services_confidence";
                "consumer_confidence"; "retail_confidence";
                "construction_confidence"])).
    apply Permutation_app_comm.
  - repeat constructor; simpl; intros H;
      repeat (destruct H as [H|H]; [discriminate H|]); exact H.
  - intros name ranking Hin.
    apply In_rankings_sorted in Hin. destruct Hin as (idx & _ & ->).
    assert (Hperm : Permutation
                      (map fst (sorted (fun x : string * value => snd x) true
                                       (unsorted_ranking latest idx)))
                      (map snd ESI_ENTITIES)).
    { rewrite <- (unsorted_ranking_names latest idx).
      apply Permutation_map, Permutation_sorted. }
    split; [|split].
    + rewrite <- (length_map fst), (Permutation_length Hperm). reflexivity.
    + exact Hperm.
    + apply (Permutation_NoDup (Permutation_sym Hperm)), entity_names_NoDup.
Qed.



Lemma relativedelta_month_ago (dt : Timestamp) :
  (1 <= ts_month dt <= 12)%Z ->
  let month_ago := relativedelta_months (-1) dt in
  (ordinal (to_period month_ago) = ordinal (to_period dt) - 1)%Z /\
  (1 <= ts_month month_ago <= 12)%Z.
Proof.
  intros Hm. unfold relativedelta_months, ordinal, to_period. simpl.
  destruct (Z.ltb_spec 12 (ts_month dt + -1)); [lia|].
  destruct (Z.ltb_spec (ts_month dt + -1) 1); simpl; lia.
Qed.

Lemma component_column_lt (name : string) (idx : nat) :
  In (name, idx) component_columns -> idx < 6.
Proof.
  unfold component_columns, INDU_idx, SERV_idx, CONS_idx, RETA_idx,
    BUIL_idx, ESI_idx.
  simpl. intros H.
  repeat (destruct H as [H|H]; [inversion H; lia|]). contradiction.
Qed.

Lemma dict_get_component {V} (f : nat -> V) (name : string) (idx : nat) :
  In (name, idx) component_columns ->
  dict_get name (map (fun c => (fst c, f (snd c))) component_columns) =
  Some (f idx).
Proof.
  simpl. intros H.
  repeat (destruct H as [H|H]; [inversion H; reflexivity|]). contradiction.
Qed.

(** C4.  Without a month the window runs from the month before the one of
    the clock to the month of the clock; with a month it is that month
    alone.  The value an entity gets in a ranking is the one in the last row
    of its table within the window. *)
Theorem window_last_row_used self date (w : World) rankings w' :
  (1 <= ts_month (clock w) <= 12)%Z ->
  get_latest_rankings self date w = (Ok rankings, w') ->
  exists start_date end_date tables,
    lookup_window date w = (Ok (start_date, end_date), w) /\
    match date with
    | None =>
        end_date = to_period (clock w) /\
        ordinal start_date = (ordinal end_date - 1)%Z /\
        (1 <= p_month start_date <= 12)%Z
    | Some d => start_date = d /\ end_date = d
    end /\
    _fetch_esi_tables self w = (Ok tables, w') /\
    forall ec label name idx,
      In (ec, label) ESI_ENTITIES -> In (name, idx) component_columns ->
      exists table others last_row v ranking,
        dict_get ec tables = Some table /\
        rows_in_window start_date end_date table = others ++ [last_row] /\
        nth_error (snd last_row) idx = Some v /\
        dict_get name rankings = Some ranking /\
        In (label, v) ranking.
Proof.
  intros Hclock Hrun.
  apply get_latest_rankings_inv in Hrun.
  destruct Hrun
    as (s & e & tables & latest & Hwin & Hfetch & Hl & Hrows & Hcells & ->).
  exists s, e, tables. split; [exact Hwin|]. split; [|split; [exact Hfetch|]].
  - rewrite lookup_window_eq in Hwin. destruct date as [d|].
    + inversion Hwin. auto.
    + inversion Hwin. subst s e.
      destruct (relativedelta_month_ago (clock w) Hclock) as [Hord Hmonth].
      repeat split; try assumption; apply Hmonth.
  - intros ec label name idx Hent Hcomp.
    pose proof (entity_code_of _ _ Hent) as Hcode.
    destruct (Hrows ec Hcode) as (table & row & rest & Hget & Htail).
    destruct (window_tail_cons _ _ _ _ _ Htail)
      as (others & last_row & Hwindow & -> & ->).
    destruct (Hcells ec label idx Hent (component_column_lt _ _ Hcomp))
      as (row' & Hget' & Hnth).
    assert (Hrow : row' = snd last_row).
    { rewrite Hl in Hget'.
      rewrite (dict_get_map_key (latest_row tables s e) _ _ Hcode) in Hget'.
      inversion Hget'. unfold latest_row. rewrite Hget, Htail. reflexivity. }
    subst row'.
    exists table, others, last_row, (cell latest ec idx),
      (sorted (fun x : string * value => snd x) true
              (unsorted_ranking latest idx)).
    repeat split; try assumption.
    + apply (dict_get_component
               (fun idx => sorted (fun x : string * value => snd x) true
                                  (unsorted_ranking latest idx))).
      exact Hcomp.
    + apply (Permutation_in _ (Permutation_sym (Permutation_sorted _ _ _ _))).
      unfold unsorted_ranking.
      apply (in_map (fun entity => (snd entity, cell latest (fst entity) idx))
                    _ _ Hent).
Qed.

(** ** [_fetch_esi_tables] *)

Lemma logs_log (e : io_event) (w : World) (events : list io_event) :
  logs (log e w) events = logs w (e :: events).
Proof. unfold logs, log. simpl. rewrite <- app_assoc. reflexivity. Qed.

Lemma logs_nil (w : World) : logs w [] = w.
Proof. destruct w. unfold logs. simpl. rewrite app_nil_r. reflexivity. Qed.

Lemma logs_logs (w : World) (a b : list io_event) :
  logs (logs w a) b = logs w (a ++ b).
Proof. unfold logs. simpl. rewrite <- app_assoc. reflexivity. Qed.

Lemma we_have_csvs_eq self (codes : list string) :
  forall w : World,
    we_have_csvs self codes w =
    (Ok (forallb (fun ec => file_present (fs w) (_entity_csv_filename self ec))
                 codes),
     logs w (is_file_events (checked_files self (fs w) codes))).
Proof.
  induction codes as [|ec codes IH]; intros w; simpl.
  - rewrite logs_nil. reflexivity.
  - unfold bind, is_file. fold (file_present (fs w) (_entity_csv_filename self ec)).
    destruct (file_present (fs w) (_entity_csv_filename self ec)); simpl.
    + rewrite IH. rewrite logs_log. reflexivity.
    + unfold ret. rewrite <- logs_log, logs_nil. reflexivity.
Qed.

Lemma checked_files_all self files (codes : list string) :
  forallb (fun ec => file_present files (_entity_csv_filename self ec)) codes
  = true ->
  checked_files self files codes = map (_entity_csv_filename self) codes.
Proof.
  induction codes as [|ec codes IH]; simpl; [reflexivity|].
  intros H. apply andb_true_iff in H. destruct H as [-> H].
  rewrite IH by exact H. reflexivity.
Qed.

Lemma load_step_eq self acc ec (w : World) :
  load_step self acc ec w =
  (match cached_frame self (fs w) ec with
   | Some df => Ok (dict_set ec df acc)
   | None => Raise (IOError (_entity_csv_filename self ec))
   end,
   log (EvReadCsv (_entity_csv_filename self ec) 0 [0]) w).
Proof.
  unfold load_step, bind, read_csv, cached_frame, ret.
  destruct (fs w (_entity_csv_filename self ec)) as [[df|book]|]; reflexivity.
Qed.

Lemma load_loop_ok self (codes : list string) :
  forall acc (w : World),
    (forall ec, In ec codes -> cached_frame self (fs w) ec <> None) ->
    for_each codes (load_step self) acc w =
    (Ok (fold_left
           (fun d ec =>
              dict_set ec (frame_or_empty (cached_frame self (fs w) ec)) d)
           codes acc),
     logs w (map (fun ec => EvReadCsv (_entity_csv_filename self ec) 0 [0])
                 codes)).
Proof.
  induction codes as [|ec codes IH]; intros acc w Hall; simpl.
  - rewrite logs_nil. reflexivity.
  - unfold bind. rewrite load_step_eq.
    destruct (cached_frame self (fs w) ec) as [df|] eqn:Hdf.
    + rewrite IH, logs_log; [reflexivity|].
      intros ec' Hin. apply Hall. right. exact Hin.
    + exfalso. apply (Hall ec); [left; reflexivity | exact Hdf].
Qed.

Lemma load_loop_inv self (codes : list string) :
  forall acc (w : World) raw w',
    for_each codes (load_step self) acc w = (Ok raw, w') ->
    forall ec, In ec codes -> cached_frame self (fs w) ec <> None.
Proof.
  induction codes as [|ec codes IH]; intros acc w raw w' H ec' Hin.
  - destruct Hin.
  - rewrite for_each_cons in H. apply bind_ok_inv in H.
    destruct H as (acc1 & w1 & Hstep & Hrest).
    rewrite load_step_eq in Hstep.
    destruct (cached_frame self (fs w) ec) as [df|] eqn:Hdf; [|discriminate].
    inversion Hstep. subst acc1 w1.
    destruct Hin as [<-|Hin]; [congruence|].
    apply (IH _ _ _ _ Hrest ec' Hin).
Qed.

Lemma import_step_eq self acc entity cols (w : World) :
  import_step self acc (entity, cols) w =
  (match excel_frame self (fs w) cols with
   | Some df => Ok (dict_set entity df acc)
   | None => Raise (IOError (esi_file_path self))
   end,
   log (EvReadExcel (esi_file_path self) (esi_sheet_name self) 0 0 cols) w).
Proof.
  unfold import_step, bind, read_excel, excel_frame, ret.
  destruct (fs w (esi_file_path self)) as [[df|book]|]; try reflexivity.
  destruct (book (esi_sheet_name self) cols); reflexivity.
Qed.

Lemma import_loop_ok self (l : list (string * string)) :
  forall acc (w : World),
    (forall e, In e l -> excel_frame self (fs w) (snd e) <> None) ->
    for_each l (import_step self) acc w =
    (Ok (fold_left
           (fun d e =>
              dict_set (fst e)
                       (frame_or_empty (excel_frame self (fs w) (snd e))) d)
           l acc),
     logs w (map (fun e => EvReadExcel (esi_file_path self)
                                       (esi_sheet_name self) 0 0 (snd e))
                 l)).
Proof.
  induction l as [|[entity cols] l IH]; intros acc w Hall.
  - simpl. rewrite logs_nil. reflexivity.
  - rewrite for_each_cons. unfold bind. rewrite import_step_eq.
    cbn [map fold_left fst snd].
    destruct (excel_frame self (fs w) cols) as [df|] eqn:Hdf.
    + rewrite IH, logs_log; [reflexivity|].
      intros e Hin. apply Hall. right. exact Hin.
    + exfalso. apply (Hall (entity, cols)); [left; reflexivity | exact Hdf].
Qed.

Lemma import_loop_inv self (l : list (string * string)) :
  forall acc (w : World) raw w',
    for_each l (import_step self) acc w = (Ok raw, w') ->
    forall e, In e l -> excel_frame self (fs w) (snd e) <> None.
Proof.
  induction l as [|[entity cols] l IH]; intros acc w raw w' H e Hin.
  - destruct Hin.
  - rewrite for_each_cons in H. apply bind_ok_inv in H.
    destruct H as (acc1 & w1 & Hstep & Hrest).
    rewrite import_step_eq in Hstep.
    destruct (excel_frame self (fs w) cols) as [df|] eqn:Hdf; [|discriminate].
    inversion Hstep. subst acc1 w1.
    destruct Hin as [<-|Hin]; [simpl; congruence|].
    apply (IH _ _ _ _ Hrest e Hin).
Qed.

Lemma create_loop_ok self raw (codes : list string) :
  forall w : World,
    (forall ec, In ec codes -> dict_get ec raw <> None) ->
    for_each codes (create_step self raw) tt w =
    (Ok tt,
     fold_left (fun w ec =>
                  write_csv (_entity_csv_filename self ec) (raw_frame raw ec) w)
               codes w).
Proof.
  induction codes as [|ec codes IH]; intros w Hall; simpl; [reflexivity|].
  unfold bind at 1. unfold create_step at 1, bind, getitem, raw_frame at 2.
  destruct (dict_get ec raw) as [table|] eqn:Hget.
  - unfold ret, to_csv. apply IH.
    intros ec' Hin. apply Hall. right. exact Hin.
  - exfalso. apply (Hall ec); [left; reflexivity | exact Hget].
Qed.

Lemma to_monthly_ok raw (w : World) :
  (forall ec, In ec ENTITY_CODES -> dict_get ec raw <> None) ->
  to_monthly raw w =
  (Ok (map (fun ec => (ec, frame_to_period (raw_frame raw ec))) ENTITY_CODES),
   w).
Proof.
  intros Hall. rewrite <- fold_dict_set_codes. unfold to_monthly.
  generalize (@nil (string * DataFrame Period)).
  revert Hall. generalize ENTITY_CODES as codes.
  induction codes as [|ec codes IH]; intros Hall acc; simpl; [reflexivity|].
  unfold bind. rewrite to_monthly_step_eq. unfold raw_frame at 2.
  destruct (dict_get ec raw) as [table|] eqn:Hget.
  - apply IH. intros ec' Hin. apply Hall. right. exact Hin.
  - exfalso. apply (Hall ec); [left; reflexivity | exact Hget].
Qed.

(** *** The files after the cache is written *)

Lemma append_inj_l (p a b : string) :
  String.append p a = String.append p b -> a = b.
Proof.
  induction p as [|c p IH]; simpl; intros H; [exact H|].
  inversion H. auto.
Qed.

Lemma entity_csv_filename_inj self (a b : string) :
  In a ENTITY_CODES -> In b ENTITY_CODES ->
  _entity_csv_filename self a = _entity_csv_filename self b -> a = b.
Proof.
  unfold _entity_csv_filename, path_join. intros Ha Hb H.
  apply append_inj_l in H. apply (append_inj_l "/") in H.
  simpl in Ha, Hb.
  repeat (destruct Ha as [Ha|Ha];
          [subst a;
           repeat (destruct Hb as [Hb|Hb];
                   [subst b; cbv in H;
                    first [reflexivity | discriminate H]|]);
           contradiction|]).
  contradiction.
Qed.

Lemma fs_write_csv_same path df (w : World) :
  fs (write_csv path df w) path = Some (CsvFile df).
Proof. simpl. rewrite String.eqb_refl. reflexivity. Qed.

Lemma fs_write_csv_other path df (w : World) p :
  p <> path -> fs (write_csv path df w) p = fs w p.
Proof.
  intros Hne. simpl. destruct (String.eqb_spec p path); [contradiction|].
  reflexivity.
Qed.

Lemma fs_after_writes self (f : string -> DataFrame Timestamp)
      (codes : list string) :
  forall (w : World) ec,
    In ec ENTITY_CODES ->
    (forall a, In a codes -> In a ENTITY_CODES) ->
    In ec codes \/
    fs w (_entity_csv_filename self ec) = Some (CsvFile (f ec)) ->
    fs (fold_left (fun w c => write_csv (_entity_csv_filename self c) (f c) w)
                  codes w)
       (_entity_csv_filename self ec) = Some (CsvFile (f ec)).
Proof.
  induction codes as [|c codes IH]; intros w ec Hec Hsub H; simpl.
  - destruct H as [[]|H]. exact H.
  - apply IH; [exact Hec | intros a Ha; apply Hsub; right; exact Ha |].
    destruct (string_dec c ec) as [->|Hne].
    + right. apply fs_write_csv_same.
    + destruct H as [[Heq|Hin]|H]; [contradiction | left; exact Hin |].
      right. rewrite fs_write_csv_other; [exact H|].
      intros Heq. apply Hne. symmetry.
      apply (entity_csv_filename_inj self); auto.
      apply Hsub. left. reflexivity.
Qed.

Lemma log_after_writes self (f : string -> DataFrame Timestamp)
      (codes : list string) :
  forall w : World,
    io_log (fold_left
              (fun w c => write_csv (_entity_csv_filename self c) (f c) w)
              codes w) =
    io_log w ++ map (fun c => EvToCsv (_entity_csv_filename self c)) codes.
Proof.
  induction codes as [|c codes IH]; intros w; simpl.
  - rewrite app_nil_r. reflexivity.
  - rewrite IH. simpl. rewrite <- app_assoc. reflexivity.
Qed.

(** *** Both ways through [_fetch_esi_tables] *)

Lemma cached_frame_present self files ec :
  cached_frame self files ec <> None ->
  file_present files (_entity_csv_filename self ec) = true.
Proof.
  unfold cached_frame, file_present.
  destruct (files (_entity_csv_filename self ec)); [reflexivity|].
  intros H. contradiction H. reflexivity.
Qed.

Lemma cached_tables_get self files ec :
  In ec ENTITY_CODES ->
  dict_get ec (cached_tables self files) =
  Some (frame_or_empty (cached_frame self files ec)).
Proof.
  apply (dict_get_map_key
           (fun ec => frame_or_empty (cached_frame self files ec))).
Qed.

Lemma imported_tables_get self files ec :
  In ec ENTITY_CODES ->
  exists cols,
    dict_get ec ENTITY_COLS = Some cols /\
    dict_get ec (imported_tables self files) =
    Some (frame_or_empty (excel_frame self files cols)).
Proof.
  simpl. intros H.
  repeat (destruct H as [<-|H]; [eexists; split; reflexivity|]).
  contradiction.
Qed.

Lemma entity_cols_In (ec cols : string) :
  dict_get ec ENTITY_COLS = Some cols -> In (ec, cols) ENTITY_COLS.
Proof. apply dict_get_In. Qed.

Lemma monthly_get raw ec table :
  In ec ENTITY_CODES ->
  dict_get ec raw = Some table ->
  dict_get ec (monthly raw) = Some (frame_to_period table).
Proof.
  intros Hin Hget. unfold monthly.
  rewrite (dict_get_map_key
             (fun ec => frame_to_period (raw_frame raw ec)) _ _ Hin).
  unfold raw_frame. rewrite Hget. reflexivity.
Qed.

Lemma fs_logs (w : World) (events : list io_event) :
  fs (logs w events) = fs w.
Proof. reflexivity. Qed.

(** [_load_esi_tables_from_csv], after some events. *)
Lemma load_ok self (w : World) (events : list io_event) :
  (forall ec, In ec ENTITY_CODES -> cached_frame self (fs w) ec <> None) ->
  _load_esi_tables_from_csv self (logs w events) =
  (Ok (cached_tables self (fs w)), logs w (events ++ read_csv_events self)).
Proof.
  intros Hall. unfold _load_esi_tables_from_csv.
  rewrite load_loop_ok by (rewrite fs_logs; exact Hall).
  rewrite logs_logs, fs_logs.
  rewrite (fold_dict_set_codes
             (fun ec => frame_or_empty (cached_frame self (fs w) ec))).
  reflexivity.
Qed.

Lemma fetch_cached self (w : World) :
  (forall ec, In ec ENTITY_CODES -> cached_frame self (fs w) ec <> None) ->
  _fetch_esi_tables self w =
  (Ok (monthly (cached_tables self (fs w))),
   logs w (is_file_events (map (_entity_csv_filename self) ENTITY_CODES)
           ++ read_csv_events self)).
Proof.
  intros Hall. unfold _fetch_esi_tables.
  rewrite (bind_ok _ _ _ _ _ (we_have_csvs_eq self ENTITY_CODES w)).
  assert (Hhave : forallb
                    (fun ec => file_present (fs w)
                                            (_entity_csv_filename self ec))
                    ENTITY_CODES = true).
  { apply forallb_forall. intros ec Hin.
    apply cached_frame_present, Hall, Hin. }
  rewrite Hhave, (checked_files_all _ _ _ Hhave).
  rewrite (bind_ok _ _ _ _ _ (load_ok self w _ Hall)).
  apply to_monthly_ok.
  intros ec Hin. rewrite (cached_tables_get _ _ _ Hin). discriminate.
Qed.

Lemma fold_dict_set_cols {V} (f : string -> V) :
  fold_left (fun d e => dict_set (fst e) (f (snd e)) d) ENTITY_COLS [] =
  map (fun e => (fst e, f (snd e))) ENTITY_COLS.
Proof. reflexivity. Qed.

Lemma imported_tables_keys self files ec :
  In ec ENTITY_CODES -> dict_get ec (imported_tables self files) <> None.
Proof.
  intros Hin. destruct (imported_tables_get self files ec Hin) as (c & _ & ->).
  discriminate.
Qed.

(** [_import_esi_tables_from_xlsx], after some events. *)
Lemma import_ok self (w : World) (events : list io_event) :
  (forall e, In e ENTITY_COLS -> excel_frame self (fs w) (snd e) <> None) ->
  _import_esi_tables_from_xlsx self (logs w events) =
  (Ok (imported_tables self (fs w)),
   logs w (events ++ read_excel_events self)).
Proof.
  intros Hall. unfold _import_esi_tables_from_xlsx, items.
  rewrite import_loop_ok by (rewrite fs_logs; exact Hall).
  rewrite logs_logs, fs_logs.
  rewrite (fold_dict_set_cols
             (fun cols => frame_or_empty (excel_frame self (fs w) cols))).
  reflexivity.
Qed.

Lemma create_ok self raw (w : World) :
  (forall ec, In ec ENTITY_CODES -> dict_get ec raw <> None) ->
  _create_esi_csv_tables self raw w = (Ok tt, write_cache self raw w).
Proof. apply create_loop_ok. Qed.

Lemma fetch_imported self (w : World) :
  all_cached self (fs w) = false ->
  (forall e, In e ENTITY_COLS -> excel_frame self (fs w) (snd e) <> None) ->
  _fetch_esi_tables self w =
  (Ok (monthly (imported_tables self (fs w))),
   write_cache self (imported_tables self (fs w))
     (logs w (is_file_events (checked_files self (fs w) ENTITY_CODES)
              ++ read_excel_events self))).
Proof.
  intros Hmiss Hall. unfold _fetch_esi_tables.
  rewrite (bind_ok _ _ _ _ _ (we_have_csvs_eq self ENTITY_CODES w)).
  fold (all_cached self (fs w)). rewrite Hmiss.
  assert (Hblock :
            (esi_tables <- _import_esi_tables_from_xlsx self ;;
             _ <- _create_esi_csv_tables self esi_tables ;;
             ret esi_tables)
              (logs w (is_file_events
                         (checked_files self (fs w) ENTITY_CODES))) =
            (Ok (imported_tables self (fs w)),
             write_cache self (imported_tables self (fs w))
               (logs w (is_file_events
                          (checked_files self (fs w) ENTITY_CODES)
                        ++ read_excel_events self)))).
  { rewrite (bind_ok _ _ _ _ _ (import_ok self w _ Hall)).
    rewrite (bind_ok _ _ _ _ _
               (create_ok self _ _ (imported_tables_keys self (fs w)))).
    reflexivity. }
  rewrite (bind_ok _ _ _ _ _ Hblock).
  apply to_monthly_ok. apply imported_tables_keys.
Qed.

Lemma forallb_false_exists {X} (f : X -> bool) (l : list X) :
  forallb f l = false -> exists x, In x l /\ f x = false.
Proof.
  induction l as [|x l IH]; simpl; [discriminate|].
  destruct (f x) eqn:Hx; simpl.
  - intros H. destruct (IH H) as (y & Hin & Hy). exists y. auto.
  - intros _. exists x. auto.
Qed.

Lemma all_cached_false self files :
  all_cached self files = false <->
  exists ec, In ec ENTITY_CODES /\ files (_entity_csv_filename self ec) = None.
Proof.
  unfold all_cached. split.
  - intros H. apply forallb_false_exists in H.
    destruct H as (ec & Hin & Hp).
    exists ec. split; [exact Hin|].
    unfold file_present in Hp.
    destruct (files (_entity_csv_filename self ec)); [discriminate|reflexivity].
  - intros (ec & Hin & Hnone).
    destruct (forallb _ ENTITY_CODES) eqn:Hall; [|reflexivity].
    rewrite forallb_forall in Hall. specialize (Hall ec Hin).
    unfold file_present in Hall. rewrite Hnone in Hall. discriminate.
Qed.

Lemma fetch_inv self (w : World) tables w' :
  _fetch_esi_tables self w = (Ok tables, w') ->
  (all_cached self (fs w) = true /\
   (forall ec, In ec ENTITY_CODES -> cached_frame self (fs w) ec <> None) /\
   tables = monthly (cached_tables self (fs w)) /\
   w' = logs w (is_file_events (map (_entity_csv_filename self) ENTITY_CODES)
                ++ read_csv_events self))
  \/
  (all_cached self (fs w) = false /\
   (forall e, In e ENTITY_COLS -> excel_frame self (fs w) (snd e) <> None) /\
   tables = monthly (imported_tables self (fs w)) /\
   w' = write_cache self (imported_tables self (fs w))
          (logs w (is_file_events (checked_files self (fs w) ENTITY_CODES)
                   ++ read_excel_events self))).
Proof.
  intros H. pose proof H as H0. unfold _fetch_esi_tables in H.
  apply bind_ok_inv in H. destruct H as (have & w1 & Hhave & H).
  rewrite we_have_csvs_eq in Hhave.
  fold (all_cached self (fs w)) in Hhave. injection Hhave as <- <-.
  apply bind_ok_inv in H. destruct H as (raw & w2 & Hraw & _).
  destruct (all_cached self (fs w)) eqn:Hall.
  - left. unfold _load_esi_tables_from_csv in Hraw.
    pose proof (load_loop_inv _ _ _ _ _ _ Hraw) as Hfiles.
    rewrite (fetch_cached self w Hfiles) in H0. inversion H0. auto.
  - right. apply bind_ok_inv in Hraw. destruct Hraw as (raw0 & w3 & Himp & _).
    unfold _import_esi_tables_from_xlsx, items in Himp.
    pose proof (import_loop_inv _ _ _ _ _ _ Himp) as Hbook.
    rewrite (fetch_imported self w Hall Hbook) in H0. inversion H0. auto.
Qed.


Lemma cache_file_written self raw (w : World) ec :
  In ec ENTITY_CODES ->
  fs (write_cache self raw w) (_entity_csv_filename self ec) =
  Some (CsvFile (raw_frame raw ec)).
Proof.
  intros Hin. unfold write_cache.
  apply (fs_after_writes self (raw_frame raw)); auto.
Qed.

Lemma cache_write_log self raw (w : World) :
  io_log (write_cache self raw w) = io_log w ++ to_csv_events self.
Proof. apply (log_after_writes self (raw_frame raw)). Qed.

(** What a fetch returns for an entity is, with its dates turned into
    months, the frame its cache file holds when the fetch is over. *)
Lemma fetch_sources self (w : World) tables w' ec :
  _fetch_esi_tables self w = (Ok tables, w') ->
  In ec ENTITY_CODES ->
  exists src,
    fs w' (_entity_csv_filename self ec) = Some (CsvFile src) /\
    dict_get ec tables = Some (frame_to_period src).
Proof.
  intros H Hin. apply fetch_inv in H.
  destruct H as [(_ & Hfiles & -> & ->)|(_ & Hbook & -> & ->)].
  - specialize (Hfiles ec Hin).
    destruct (cached_frame self (fs w) ec) as [src|] eqn:Hsrc;
      [|contradiction Hfiles; reflexivity].
    exists src. split.
    + rewrite fs_logs. unfold cached_frame in Hsrc.
      destruct (fs w (_entity_csv_filename self ec)) as [[df|book]|];
        try discriminate.
      inversion Hsrc. reflexivity.
    + apply monthly_get; [exact Hin|].
      rewrite (cached_tables_get _ _ _ Hin), Hsrc. reflexivity.
  - destruct (imported_tables_get self (fs w) ec Hin) as (cols & Hcols & Hget).
    exists (frame_or_empty (excel_frame self (fs w) cols)). split.
    + rewrite cache_file_written by exact Hin.
      unfold raw_frame. rewrite Hget. reflexivity.
    + apply monthly_get; assumption.
Qed.

(** C3.  When every entity has its cache file, [_fetch_esi_tables] asks for
    the 16 files, reads each of them with [read_csv] (index column 0, dates
    parsed in column 0) and does nothing else: no file is written and the
    workbook is not read.  When a cache file is missing, it reads the
    workbook once per entity of [ENTITY_COLS], with the column selector of
    that entity, header row 0 and index column 0, and then writes the cache
    file of every one of the 16 entities.  Either way the table returned for
    an entity is the frame read, with its dates turned into months. *)
Theorem fetch_loads_cache_or_imports_all self (w : World) :
  ((forall ec, In ec ENTITY_CODES ->
      exists df, fs w (_entity_csv_filename self ec) = Some (CsvFile df)) ->
   exists tables w',
     _fetch_esi_tables self w = (Ok tables, w') /\
     fs w' = fs w /\
     io_log w' =
       io_log w
       ++ is_file_events (map (_entity_csv_filename self) ENTITY_CODES)
       ++ read_csv_events self /\
     forall ec, In ec ENTITY_CODES ->
       exists df,
         fs w (_entity_csv_filename self ec) = Some (CsvFile df) /\
         dict_get ec tables = Some (frame_to_period df))
  /\
  ((exists ec, In ec ENTITY_CODES /\
               fs w (_entity_csv_filename self ec) = None) ->
   (forall ec cols, In (ec, cols) ENTITY_COLS ->
      excel_frame self (fs w) cols <> None) ->
   exists tables w',
     _fetch_esi_tables self w = (Ok tables, w') /\
     io_log w' =
       io_log w
       ++ is_file_events (checked_files self (fs w) ENTITY_CODES)
       ++ read_excel_events self
       ++ to_csv_events self /\
     forall ec, In ec ENTITY_CODES ->
       exists cols df,
         dict_get ec ENTITY_COLS = Some cols /\
         excel_frame self (fs w) cols = Some df /\
         fs w' (_entity_csv_filename self ec) = Some (CsvFile df) /\
         dict_get ec tables = Some (frame_to_period df)).
Proof.
  split.
  - intros Hfiles.
    assert (Hall : forall ec, In ec ENTITY_CODES ->
                              cached_frame self (fs w) ec <> None).
    { intros ec Hin. destruct (Hfiles ec Hin) as (df & Hdf).
      unfold cached_frame. rewrite Hdf. discriminate. }
    eexists _, _. split; [apply (fetch_cached self w Hall)|].
    split; [reflexivity|]. split; [reflexivity|].
    intros ec Hin. destruct (Hfiles ec Hin) as (df & Hdf).
    exists df. split; [exact Hdf|].
    apply monthly_get; [exact Hin|].
    rewrite (cached_tables_get _ _ _ Hin). unfold cached_frame.
    rewrite Hdf. reflexivity.
  - intros Hmiss Hbook. apply all_cached_false in Hmiss.
    assert (Hall : forall e, In e ENTITY_COLS ->
                             excel_frame self (fs w) (snd e) <> None).
    { intros [ec cols] Hin. apply (Hbook ec cols Hin). }
    eexists _, _. split; [apply (fetch_imported self w Hmiss Hall)|].
    split.
    + rewrite cache_write_log. unfold logs. cbn [io_log].
      rewrite <- !app_assoc. reflexivity.
    + intros ec Hin.
      destruct (imported_tables_get self (fs w) ec Hin)
        as (cols & Hcols & Hget).
      pose proof (Hbook ec cols (entity_cols_In _ _ Hcols)) as Hsome.
      destruct (excel_frame self (fs w) cols) as [df|] eqn:Hdf;
        [|contradiction Hsome; reflexivity].
      exists cols, df. repeat split; try assumption.
      * rewrite cache_file_written by exact Hin.
        unfold raw_frame. rewrite Hget. reflexivity.
      * apply monthly_get; assumption.
Qed.

(** ** The monthly index *)

Lemma adjacent_map {X Y} (f : X -> Y) (R : Y -> Y -> Prop) (l : list X) :
  adjacent (fun a b => R (f a) (f b)) l -> adjacent R (map f l).
Proof.
  intros H i d Hi. rewrite length_map in Hi.
  destruct l as [|a0 l']; [simpl in Hi; lia|].
  rewrite (nth_indep _ d (f a0)) by (rewrite length_map; lia).
  rewrite (nth_indep _ d (f a0)) by (rewrite length_map; lia).
  rewrite !map_nth. apply H. exact Hi.
Qed.

Lemma strictly_monthly_lt (index : list Period) (d : Period) :
  strictly_monthly index ->
  forall j i, i < j -> j < length index ->
    (ordinal (nth i index d) < ordinal (nth j index d))%Z.
Proof.
  intros H. induction j as [|j IH]; intros i Hij Hj; [lia|].
  pose proof (H j d Hj) as Hstep. simpl in Hstep.
  destruct (Nat.eq_dec i j) as [->|Hne]; [exact Hstep|].
  assert (Hi : (ordinal (nth i index d) < ordinal (nth j index d))%Z)
    by (apply IH; lia).
  lia.
Qed.

Lemma strictly_monthly_NoDup (index : list Period) :
  strictly_monthly index -> NoDup index.
Proof.
  intros H. apply (NoDup_nth index (mkPeriod 0 0)). intros i j Hi Hj Heq.
  destruct (Nat.lt_trichotomy i j) as [Hlt|[Heq'|Hgt]]; [|exact Heq'|].
  - pose proof (strictly_monthly_lt index (mkPeriod 0 0) H j i Hlt Hj).
    rewrite Heq in *. lia.
  - pose proof (strictly_monthly_lt index (mkPeriod 0 0) H i j Hgt Hi).
    rewrite Heq in *. lia.
Qed.

Lemma frame_to_period_index (src : DataFrame Timestamp) :
  df_index (frame_to_period src) = map to_period (df_index src).
Proof. unfold df_index, frame_to_period. simpl. rewrite !map_map. reflexivity. Qed.

Lemma frame_to_period_values (src : DataFrame Timestamp) :
  values_tolist (frame_to_period src) = values_tolist src.
Proof.
  unfold values_tolist, frame_to_period. simpl. rewrite map_map. reflexivity.
Qed.

(** C8, as amended.  The index of every table a fetch returns is the index
    of the frame that was read, every date replaced by its month and the
    day dropped, so that two dates of one calendar month give the same
    period; the cells and the columns are those of the frame.  The index
    goes strictly up and has no period twice when the dates of the frame
    lie in strictly increasing calendar months. *)
Theorem fetch_index_is_monthly self (w : World) tables w' ec :
  _fetch_esi_tables self w = (Ok tables, w') ->
  In ec ENTITY_CODES ->
  exists src table,
    fs w' (_entity_csv_filename self ec) = Some (CsvFile src) /\
    dict_get ec tables = Some table /\
    df_index table = map to_period (df_index src) /\
    values_tolist table = values_tolist src /\
    df_columns table = df_columns src /\
    (forall a b : Timestamp,
        ts_year a = ts_year b -> ts_month a = ts_month b ->
        to_period a = to_period b) /\
    (adjacent (fun a b => (month_number a < month_number b)%Z)
              (df_index src) ->
     strictly_monthly (df_index table) /\ NoDup (df_index table)).
Proof.
  intros H Hin. destruct (fetch_sources self w tables w' ec H Hin)
    as (src & Hfile & Hget).
  exists src, (frame_to_period src).
  split; [exact Hfile|]. split; [exact Hget|].
  split; [apply frame_to_period_index|].
  split; [apply frame_to_period_values|].
  split; [reflexivity|]. split.
  - intros a b Hy Hm. unfold to_period. rewrite Hy, Hm. reflexivity.
  - intros Hsrc.
    assert (Hm : strictly_monthly (df_index (frame_to_period src))).
    { rewrite frame_to_period_index. unfold strictly_monthly.
      apply adjacent_map. revert Hsrc. apply adjacent_impl.
      intros a b. unfold month_number, ordinal, to_period. simpl. lia. }
    split; [exact Hm | apply strictly_monthly_NoDup, Hm].
Qed.


(** ** History *)

Lemma tail_nonneg {X} (n : Z) (l : list X) :
  (0 <= n)%Z -> tail n l = last_n (Z.to_nat n) l.
Proof.
  intros Hn. unfold tail, last_n.
  destruct (Z.eqb_spec n 0) as [->|Hne].
  - simpl. rewrite Nat.sub_0_r, skipn_all. reflexivity.
  - destruct (Z.ltb_spec 0 n); [reflexivity | lia].
Qed.

Lemma length_last_n {X} (n : nat) (l : list X) :
  length (last_n n l) = Nat.min n (length l).
Proof. unfold last_n. rewrite length_skipn. lia. Qed.

Lemma last_n_map {X Y} (f : X -> Y) (n : nat) (l : list X) :
  map f (last_n n l) = last_n n (map f l).
Proof. unfold last_n. rewrite length_map. symmetry. apply skipn_map. Qed.

Lemma frame_column_length {I} (col : string) (df : DataFrame I) column :
  frame_column col df = Some column ->
  length column = length (df_rows df).
Proof.
  unfold frame_column. destruct (column_position col (df_columns df));
    [|discriminate].
  intros [= <-]. apply length_map.
Qed.

Lemma countries_step_eq tables comp months acc ec (w : World) :
  countries_step tables comp months acc ec w =
  (match dict_get ec tables with
   | None => Raise (KeyError ec)
   | Some table =>
       match frame_column (String.append (upper ec) comp) table with
       | Some column =>
           Ok (dict_set ec (series_tolist (tail months column)) acc)
       | None => Raise (KeyError (String.append (upper ec) comp))
       end
   end, w).
Proof.
  unfold countries_step, bind, getitem, frame_getitem, raise, ret.
  destruct (dict_get ec tables) as [table|]; [|reflexivity].
  destruct (frame_column _ table); reflexivity.
Qed.

Lemma countries_loop_ok tables comp months (codes : list string) :
  forall acc (w : World),
    (forall ec, In ec codes ->
       exists table,
         dict_get ec tables = Some table /\
         frame_column (String.append (upper ec) comp) table <> None) ->
    for_each codes (countries_step tables comp months) acc w =
    (Ok (fold_left
           (fun d ec => dict_set ec (history_series tables comp months ec) d)
           codes acc), w).
Proof.
  induction codes as [|ec codes IH]; intros acc w Hall; [reflexivity|].
  rewrite for_each_cons. unfold bind. rewrite countries_step_eq.
  destruct (Hall ec (or_introl eq_refl)) as (table & Hget & Hcol).
  cbn [fold_left]. unfold history_series at 2. rewrite Hget.
  destruct (frame_column (String.append (upper ec) comp) table) as [column|];
    [|contradiction Hcol; reflexivity].
  apply IH. intros ec' Hin. apply Hall. right. exact Hin.
Qed.

Lemma get_historical_values_ok self comp months (w : World) tables w1 :
  In comp ESI_COMPONENTS ->
  _fetch_esi_tables self w = (Ok tables, w1) ->
  (forall ec, In ec ENTITY_CODES ->
     exists table,
       dict_get ec tables = Some table /\
       frame_column (String.append (upper ec) comp) table <> None) ->
  exists first,
    dict_get "eu" tables = Some first /\
    get_historical_values self comp months w =
    (Ok {| countries :=
             map (fun ec => (ec, history_series tables comp months ec))
                 ENTITY_CODES;
           dates := df_index (frame_tail months first) |}, w1).
Proof.
  intros Hcomp Hfetch Hall.
  destruct (Hall "eu") as (first & Hfirst & _); [left; reflexivity|].
  exists first. split; [exact Hfirst|].
  unfold get_historical_values.
  assert (Hknown : existsb (String.eqb comp) ESI_COMPONENTS = true).
  { apply existsb_exists. exists comp. split; [exact Hcomp|].
    apply String.eqb_refl. }
  rewrite Hknown. cbn [negb].
  rewrite (bind_ok _ _ _ _ _ Hfetch).
  unfold countries_loop.
  rewrite (bind_ok _ _ _ _ _
             (countries_loop_ok tables comp months ENTITY_CODES [] w1 Hall)).
  rewrite (fold_dict_set_codes (history_series tables comp months)).
  unfold bind, list_getitem, getitem, ret. cbn [nth_error ENTITY_CODES].
  rewrite Hfirst. reflexivity.
Qed.

(** C6.  A component that is none of the six suffixes gives, for every
    number of months and in every world, what ['.ESI'] gives: the same
    outcome and the same world after. *)
Theorem unknown_component_is_esi self esi_component months (w : World) :
  ~ In esi_component ESI_COMPONENTS ->
  get_historical_values self esi_component months w =
  get_historical_values self ".ESI" months w.
Proof.
  intros Hnot. unfold get_historical_values.
  destruct (existsb (String.eqb esi_component) ESI_COMPONENTS) eqn:Hex.
  - exfalso. apply Hnot. apply existsb_exists in Hex.
    destruct Hex as (c & Hin & Heq). apply String.eqb_eq in Heq.
    subst c. exact Hin.
  - reflexivity.
Qed.

(** C7, as amended.  For a component among the six and [months >= 0], the
    series of an entity is the last [months] values of its column, all of
    them when there are fewer: it has [min months rows] values, at most
    [months].  The periods are the last [months] periods of the table of
    the first entity (['eu']), and the series of an entity whose table has
    as many rows as that one is as long as the list of periods. *)
Theorem history_is_last_months self comp months (w : World) tables w1 :
  In comp ESI_COMPONENTS ->
  (0 <= months)%Z ->
  _fetch_esi_tables self w = (Ok tables, w1) ->
  (forall ec, In ec ENTITY_CODES ->
     exists table,
       dict_get ec tables = Some table /\
       frame_column (String.append (upper ec) comp) table <> None) ->
  exists values first,
    get_historical_values self comp months w = (Ok values, w1) /\
    keys (countries values) = ENTITY_CODES /\
    dict_get "eu" tables = Some first /\
    dates values = last_n (Z.to_nat months) (df_index first) /\
    length (dates values) = Nat.min (Z.to_nat months) (length (df_rows first)) /\
    forall ec, In ec ENTITY_CODES ->
      exists table column series,
        dict_get ec tables = Some table /\
        frame_column (String.append (upper ec) comp) table = Some column /\
        dict_get ec (countries values) = Some series /\
        series = last_n (Z.to_nat months) (map snd column) /\
        length series =
          Nat.min (Z.to_nat months) (length (df_rows table)) /\
        (Z.of_nat (length series) <= months)%Z /\
        (length (df_rows table) = length (df_rows first) ->
         length series = length (dates values)).
Proof.
  intros Hcomp Hmonths Hfetch Hall.
  destruct (get_historical_values_ok self comp months w tables w1
                                     Hcomp Hfetch Hall)
    as (first & Hfirst & Hrun).
  eexists _, first. split; [exact Hrun|]. cbn [countries dates].
  assert (Hdates : df_index (frame_tail months first) =
                   last_n (Z.to_nat months) (df_index first)).
  { unfold df_index, frame_tail. cbn [df_rows].
    rewrite (tail_nonneg _ _ Hmonths). apply last_n_map. }
  assert (Hlen : length (df_index (frame_tail months first)) =
                 Nat.min (Z.to_nat months) (length (df_rows first))).
  { rewrite Hdates, length_last_n. unfold df_index.
    rewrite length_map. reflexivity. }
  split; [unfold keys; rewrite map_map; apply map_id|].
  split; [exact Hfirst|]. split; [exact Hdates|]. split; [exact Hlen|].
  intros ec Hin. destruct (Hall ec Hin) as (table & Hget & Hcol).
  destruct (frame_column (String.append (upper ec) comp) table)
    as [column|] eqn:Hcolumn; [|contradiction Hcol; reflexivity].
  assert (Hseries : history_series tables comp months ec =
                    last_n (Z.to_nat months) (map snd column)).
  { unfold history_series. rewrite Hget, Hcolumn. unfold series_tolist.
    rewrite (tail_nonneg _ _ Hmonths). apply last_n_map. }
  assert (Hslen : length (history_series tables comp months ec) =
                  Nat.min (Z.to_nat months) (length (df_rows table))).
  { rewrite Hseries, length_last_n, length_map.
    rewrite (frame_column_length _ _ _ Hcolumn). reflexivity. }
  exists table, column, (history_series tables comp months ec).
  split; [exact Hget|]. split; [exact Hcolumn|].
  split; [apply (dict_get_map_key (history_series tables comp months)), Hin|].
  split; [exact Hseries|]. split; [exact Hslen|]. split.
  - rewrite Hslen. lia.
  - intros Hrows. rewrite Hslen, Hlen, Hrows. reflexivity.
Qed.

(** ** The cache round trip *)

Lemma csv_round_trip_eq path df (w : World) :
  csv_round_trip path df w =
  (Ok df, log (EvReadCsv path 0 [0]) (write_csv path df w)).
Proof.
  unfold csv_round_trip, bind, to_csv, read_csv.
  fold (write_csv path df w). rewrite fs_write_csv_same. reflexivity.
Qed.

(** C9.  When the tables have been imported from the workbook and the
    cache has been written from them, loading from the cache returns, for
    every entity, the table that was imported: the key, the dates and the
    values are the same, and so are the periods and values of the monthly
    tables made of both.  The file of an entity holds its own table: no
    write for another entity has replaced it.  A file is held to read back
    as the frame written to it, the lossless [to_csv]/[read_csv] of the
    spec ([csv_round_trip]). *)
Theorem cache_round_trip_is_lossless self (w : World) imported w1 w2 :
  _import_esi_tables_from_xlsx self w = (Ok imported, w1) ->
  _create_esi_csv_tables self imported w1 = (Ok tt, w2) ->
  exists loaded w3,
    _load_esi_tables_from_csv self w2 = (Ok loaded, w3) /\
    keys loaded = ENTITY_CODES /\
    monthly loaded = monthly imported /\
    forall ec, In ec ENTITY_CODES ->
      exists table,
        dict_get ec imported = Some table /\
        fst (csv_round_trip (_entity_csv_filename self ec) table w1) =
          Ok table /\
        fs w2 (_entity_csv_filename self ec) = Some (CsvFile table) /\
        dict_get ec loaded = Some table /\
        dict_get ec (monthly loaded) = Some (frame_to_period table) /\
        dict_get ec (monthly imported) = Some (frame_to_period table).
Proof.
  intros Himport Hcreate.
  assert (Hbook : forall e, In e ENTITY_COLS ->
                            excel_frame self (fs w) (snd e) <> None).
  { unfold _import_esi_tables_from_xlsx, items in Himport.
    apply (import_loop_inv self ENTITY_COLS [] w imported w1 Himport). }
  pose proof (import_ok self w [] Hbook) as Hok.
  rewrite logs_nil, Himport in Hok. injection Hok as -> ->.
  assert (Hkeys : forall ec, In ec ENTITY_CODES ->
                    dict_get ec (imported_tables self (fs w)) <> None).
  { intros ec Hin. apply imported_tables_keys, Hin. }
  rewrite (create_ok self _ _ Hkeys) in Hcreate. injection Hcreate as <-.
  set (imported := imported_tables self (fs w)) in *.
  set (w1 := logs w ([] ++ read_excel_events self)) in *.
  assert (Hfile : forall ec, In ec ENTITY_CODES ->
            fs (write_cache self imported w1) (_entity_csv_filename self ec) =
            Some (CsvFile (raw_frame imported ec))).
  { intros ec Hin. apply cache_file_written, Hin. }
  assert (Hcached : forall ec, In ec ENTITY_CODES ->
            cached_frame self (fs (write_cache self imported w1)) ec =
            Some (raw_frame imported ec)).
  { intros ec Hin. unfold cached_frame. rewrite (Hfile ec Hin). reflexivity. }
  assert (Hreadable : forall ec, In ec ENTITY_CODES ->
            cached_frame self (fs (write_cache self imported w1)) ec <> None).
  { intros ec Hin. rewrite (Hcached ec Hin). discriminate. }
  pose proof (load_ok self (write_cache self imported w1) [] Hreadable)
    as Hload.
  rewrite logs_nil in Hload.
  assert (Hloaded : forall ec, In ec ENTITY_CODES ->
            dict_get ec (cached_tables self
                           (fs (write_cache self imported w1))) =
            Some (raw_frame imported ec)).
  { intros ec Hin. rewrite (cached_tables_get _ _ _ Hin), (Hcached ec Hin).
    reflexivity. }
  assert (Hsame : monthly (cached_tables self
                             (fs (write_cache self imported w1))) =
                  monthly imported).
  { unfold monthly. apply map_ext_in. intros ec Hin. f_equal. f_equal.
    unfold raw_frame at 1. rewrite (Hloaded ec Hin). reflexivity. }
  eexists _, _. split; [exact Hload|]. split; [|split; [exact Hsame|]].
  - unfold cached_tables, keys. rewrite map_map. apply map_id.
  - intros ec Hin. exists (raw_frame imported ec).
    assert (Hget : dict_get ec imported = Some (raw_frame imported ec)).
    { unfold raw_frame. destruct (dict_get ec imported) eqn:Hd;
        [reflexivity | contradiction (Hkeys ec Hin Hd)]. }
    split; [exact Hget|]. split; [rewrite csv_round_trip_eq; reflexivity|].
    split; [apply Hfile, Hin|]. split; [apply Hloaded, Hin|].
    split; apply (monthly_get _ _ _ Hin); [apply Hloaded, Hin | exact Hget].
Qed.

(** ** The properties on the sample data *)

Ltac run := vm_compute; reflexivity.


Lemma rankings_sorted_descending_witness :
  get_latest_rankings __init__ (Some sample_month) cached_world =
    (Ok (rankings_of (Some sample_month) cached_world),
     snd (get_latest_rankings __init__ (Some sample_month) cached_world)) /\
  In ("consumer_confidence",
      ranking_of (Some sample_month) cached_world "consumer_confidence")
     (rankings_of (Some sample_month) cached_world) /\
  ((forall i x y,
       nth_error (ranking_of (Some sample_month) cached_world
                             "consumer_confidence") i = Some x ->
       nth_error (ranking_of (Some sample_month) cached_world
                             "consumer_confidence") (S i) = Some y ->
       isnan (snd x) = false -> isnan (snd y) = false ->
       value_ge (snd x) (snd y)) /\
   exists entries,
     map fst entries = map snd ESI_ENTITIES /\
     Permutation (ranking_of (Some sample_month) cached_world
                             "consumer_confidence") entries /\
     filter (fun x => isnan (snd x))
            (ranking_of (Some sample_month) cached_world
                        "consumer_confidence") =
     filter (fun x => isnan (snd x)) entries).
Proof.
  assert (H1 : get_latest_rankings __init__ (Some sample_month) cached_world =
               (Ok (rankings_of (Some sample_month) cached_world),
                snd (get_latest_rankings __init__ (Some sample_month)
                                         cached_world))) by run.
  assert (H2 : In ("consumer_confidence",
                   ranking_of (Some sample_month) cached_world
                              "consumer_confidence")
                  (rankings_of (Some sample_month) cached_world))
    by (apply dict_get_In; run).
  split; [exact H1|]. split; [exact H2|].
  exact (rankings_sorted_descending __init__ (Some sample_month) cached_world
           _ _ _ _ H1 H2).
Defined.

Lemma rankings_six_of_sixteen_witness :
  get_latest_rankings __init__ (Some sample_month) cached_world =
    (Ok (rankings_of (Some sample_month) cached_world),
     snd (get_latest_rankings __init__ (Some sample_month) cached_world)) /\
  keys (rankings_of (Some sample_month) cached_world) =
    ["industrial_confidence"; "services_confidence"; "consumer_confidence";
     "retail_confidence"; "construction_confidence"; "esi"] /\
  forall name ranking,
    In (name, ranking) (rankings_of (Some sample_month) cached_world) ->
    length ranking = 16 /\
    Permutation (map fst ranking) (map snd ESI_ENTITIES) /\
    NoDup (map fst ranking).
Proof.
  assert (H1 : get_latest_rankings __init__ (Some sample_month) cached_world =
               (Ok (rankings_of (Some sample_month) cached_world),
                snd (get_latest_rankings __init__ (Some sample_month)
                                         cached_world))) by run.
  split; [exact H1|].
  destruct (rankings_six_of_sixteen __init__ (Some sample_month) cached_world
              _ _ H1) as (Hkeys & _ & _ & Hall).
  split; [exact Hkeys | exact Hall].
Defined.



Lemma window_last_row_used_witness :
  (1 <= ts_month (clock cached_world) <= 12)%Z /\
  get_latest_rankings __init__ None cached_world =
    (Ok (rankings_of None cached_world),
     snd (get_latest_rankings __init__ None cached_world)) /\
  exists start_date end_date tables,
    lookup_window None cached_world =
      (Ok (start_date, end_date), cached_world) /\
    (end_date = to_period (clock cached_world) /\
     ordinal start_date = (ordinal end_date - 1)%Z /\
     (1 <= p_month start_date <= 12)%Z) /\
    _fetch_esi_tables __init__ cached_world =
      (Ok tables, snd (get_latest_rankings __init__ None cached_world)) /\
    forall ec label name idx,
      In (ec, label) ESI_ENTITIES -> In (name, idx) component_columns ->
      exists table others last_row v ranking,
        dict_get ec tables = Some table /\
        rows_in_window start_date end_date table = others ++ [last_row] /\
        nth_error (snd last_row) idx = Some v /\
        dict_get name (rankings_of None cached_world) = Some ranking /\
        In (label, v) ranking.
Proof.
  assert (H1 : (1 <= ts_month (clock cached_world) <= 12)%Z)
    by (cbn; lia).
  assert (H2 : get_latest_rankings __init__ None cached_world =
               (Ok (rankings_of None cached_world),
                snd (get_latest_rankings __init__ None cached_world))) by run.
  split; [exact H1|]. split; [exact H2|].
  exact (window_last_row_used __init__ None cached_world _ _ H1 H2).
Defined.

Lemma cached_world_has_cache (ec : string) :
  In ec ENTITY_CODES ->
  exists df,
    fs cached_world (_entity_csv_filename __init__ ec) = Some (CsvFile df).
Proof.
  intros H. exists (sample_frame two_months ec). simpl in H.
  repeat (destruct H as [<-|H]; [run|]). contradiction.
Defined.

Lemma workbook_world_has_sheets (ec cols : string) :
  In (ec, cols) ENTITY_COLS ->
  excel_frame __init__ (fs workbook_world) cols <> None.
Proof.
  intros H. simpl in H.
  repeat (destruct H as [H|H];
          [injection H as <- <-; vm_compute; discriminate|]).
  contradiction.
Defined.

Lemma workbook_world_has_no_cache :
  exists ec, In ec ENTITY_CODES /\
             fs workbook_world (_entity_csv_filename __init__ ec) = None.
Proof. exists "eu". split; [left; reflexivity | run]. Defined.

Lemma fetch_loads_cache_or_imports_all_witness :
  (exists tables w',
      _fetch_esi_tables __init__ cached_world = (Ok tables, w') /\
      fs w' = fs cached_world /\
      io_log w' =
        io_log cached_world
        ++ is_file_events (map (_entity_csv_filename __init__) ENTITY_CODES)
        ++ read_csv_events __init__ /\
      forall ec, In ec ENTITY_CODES ->
        exists df,
          fs cached_world (_entity_csv_filename __init__ ec) =
            Some (CsvFile df) /\
          dict_get ec tables = Some (frame_to_period df))
  /\
  (exists tables w',
      _fetch_esi_tables __init__ workbook_world = (Ok tables, w') /\
      io_log w' =
        io_log workbook_world
        ++ is_file_events
             (checked_files __init__ (fs workbook_world) ENTITY_CODES)
        ++ read_excel_events __init__
        ++ to_csv_events __init__ /\
      forall ec, In ec ENTITY_CODES ->
        exists cols df,
          dict_get ec ENTITY_COLS = Some cols /\
          excel_frame __init__ (fs workbook_world) cols = Some df /\
          fs w' (_entity_csv_filename __init__ ec) = Some (CsvFile df) /\
          dict_get ec tables = Some (frame_to_period df)).
Proof.
  split.
  - exact (proj1 (fetch_loads_cache_or_imports_all __init__ cached_world)
                 cached_world_has_cache).
  - exact (proj2 (fetch_loads_cache_or_imports_all __init__ workbook_world)
                 workbook_world_has_no_cache workbook_world_has_sheets).
Defined.

(** Two dates of one month in a cache file give the same period twice: the
    index of the table fetched is then neither free of duplicates nor
    strictly ordered. *)
Lemma same_month_index_has_duplicates :
  _fetch_esi_tables __init__ same_month_world =
    (Ok (tables_of same_month_world),
     snd (_fetch_esi_tables __init__ same_month_world)) /\
  dict_get "eu" (tables_of same_month_world) =
    Some (table_of same_month_world "eu") /\
  df_index (table_of same_month_world "eu") =
    [mkPeriod 2020 9; mkPeriod 2020 9] /\
  ~ NoDup (df_index (table_of same_month_world "eu")) /\
  ~ strictly_monthly (df_index (table_of same_month_world "eu")).
Proof.
  split; [run|]. split; [run|].
  assert (H : df_index (table_of same_month_world "eu") =
              [mkPeriod 2020 9; mkPeriod 2020 9]) by run.
  split; [exact H|]. rewrite H. split.
  - intros Hnd. inversion Hnd as [|x l Hnot _]. apply Hnot. left. reflexivity.
  - intros Hm. specialize (Hm 0 (mkPeriod 0 0)).
    simpl in Hm. unfold ordinal in Hm. simpl in Hm. lia.
Qed.

Lemma fetch_index_is_monthly_witness :
  _fetch_esi_tables __init__ cached_world =
    (Ok (tables_of cached_world),
     snd (_fetch_esi_tables __init__ cached_world)) /\
  In "de" ENTITY_CODES /\
  exists src table,
    fs (snd (_fetch_esi_tables __init__ cached_world))
       (_entity_csv_filename __init__ "de") = Some (CsvFile src) /\
    dict_get "de" (tables_of cached_world) = Some table /\
    df_index table = map to_period (df_index src) /\
    values_tolist table = values_tolist src /\
    df_columns table = df_columns src /\
    (forall a b : Timestamp,
        ts_year a = ts_year b -> ts_month a = ts_month b ->
        to_period a = to_period b) /\
    (adjacent (fun a b => (month_number a < month_number b)%Z)
              (df_index src) ->
     strictly_monthly (df_index table) /\ NoDup (df_index table)).
Proof.
  assert (H1 : _fetch_esi_tables __init__ cached_world =
               (Ok (tables_of cached_world),
                snd (_fetch_esi_tables __init__ cached_world))) by run.
  assert (H2 : In "de" ENTITY_CODES) by (simpl; tauto).
  split; [exact H1|]. split; [exact H2|].
  exact (fetch_index_is_monthly __init__ cached_world _ _ "de" H1 H2).
Defined.



Lemma unknown_component_is_esi_witness :
  ~ In "not_a_real_suffix" ESI_COMPONENTS /\
  get_historical_values __init__ "not_a_real_suffix" 6 cached_world =
  get_historical_values __init__ ".ESI" 6 cached_world.
Proof.
  assert (H : ~ In "not_a_real_suffix" ESI_COMPONENTS).
  { simpl. intros H.
    repeat (destruct H as [H|H]; [discriminate H|]). exact H. }
  split; [exact H|].
  exact (unknown_component_is_esi __init__ "not_a_real_suffix" 6
                                  cached_world H).
Defined.

Lemma cached_world_has_columns (ec : string) :
  In ec ENTITY_CODES ->
  exists table,
    dict_get ec (tables_of cached_world) = Some table /\
    frame_column (String.append (upper ec) ".INDU") table <> None.
Proof.
  intros H. exists (table_of cached_world ec). simpl in H.
  repeat (destruct H as [<-|H];
          [split; [run | vm_compute; discriminate]|]).
  contradiction.
Defined.

(** With [months = -1] an entity gets more than [months] values; with
    tables of different lengths a series is shorter than the list of
    periods. *)
Lemma history_counterexample :
  (fst (get_historical_values __init__ ".INDU" (-1) cached_world) =
     Ok (history_of ".INDU" (-1) cached_world) /\
   dict_get "eu" (countries (history_of ".INDU" (-1) cached_world)) =
     Some [Num (Qmake 10 1)] /\
   ~ (Z.of_nat (length [Num (Qmake 10 1)]) <= -1)%Z)
  /\
  (fst (get_historical_values __init__ ".INDU" 6 uneven_world) =
     Ok (history_of ".INDU" 6 uneven_world) /\
   dict_get "ea" (countries (history_of ".INDU" 6 uneven_world)) =
     Some (series_of ".INDU" 6 uneven_world "ea") /\
   length (series_of ".INDU" 6 uneven_world "ea") = 2 /\
   length (dates (history_of ".INDU" 6 uneven_world)) = 3).
Proof.
  split.
  - split; [run|]. split; [run|]. simpl. lia.
  - split; [run|]. split; [run|]. split; run.
Qed.

Lemma history_is_last_months_witness :
  In ".INDU" ESI_COMPONENTS /\
  (0 <= 6)%Z /\
  _fetch_esi_tables __init__ cached_world =
    (Ok (tables_of cached_world),
     snd (_fetch_esi_tables __init__ cached_world)) /\
  exists values first,
    get_historical_values __init__ ".INDU" 6 cached_world =
      (Ok values, snd (_fetch_esi_tables __init__ cached_world)) /\
    keys (countries values) = ENTITY_CODES /\
    dict_get "eu" (tables_of cached_world) = Some first /\
    dates values = last_n (Z.to_nat 6) (df_index first) /\
    length (dates values) =
      Nat.min (Z.to_nat 6) (length (df_rows first)) /\
    forall ec, In ec ENTITY_CODES ->
      exists table column series,
        dict_get ec (tables_of cached_world) = Some table /\
        frame_column (String.append (upper ec) ".INDU") table =
          Some column /\
        dict_get ec (countries values) = Some series /\
        series = last_n (Z.to_nat 6) (map snd column) /\
        length series =
          Nat.min (Z.to_nat 6) (length (df_rows table)) /\
        (Z.of_nat (length series) <= 6)%Z /\
        (length (df_rows table) = length (df_rows first) ->
         length series = length (dates values)).
Proof.
  assert (H1 : In ".INDU" ESI_COMPONENTS) by (left; reflexivity).
  assert (H2 : (0 <= 6)%Z) by lia.
  assert (H3 : _fetch_esi_tables __init__ cached_world =
               (Ok (tables_of cached_world),
                snd (_fetch_esi_tables __init__ cached_world))) by run.
  split; [exact H1|]. split; [exact H2|]. split; [exact H3|].
  exact (history_is_last_months __init__ ".INDU" 6 cached_world _ _
                                H1 H2 H3 cached_world_has_columns).
Defined.

(** * Further properties *)

(** ** The sort on numbers *)

Lemma value_ge_trans (a b c : value) :
  value_ge a b -> value_ge b c -> value_ge a c.
Proof.
  destruct a as [x|], b as [y|], c as [z|]; simpl; try contradiction.
  intros H1 H2. apply (Qle_trans _ y); assumption.
Qed.

Lemma value_lt_ge_false (a b : value) :
  value_lt a b = true -> value_ge a b -> False.
Proof.
  destruct a as [x|], b as [y|]; simpl; try discriminate.
  intros H Hge. apply negb_true_iff in H.
  apply Qle_bool_iff in Hge. congruence.
Qed.

Lemma value_eqb_not_lt (a b v : value) :
  value_eqb a v = true -> value_lt a b = true -> value_eqb b v = false.
Proof.
  destruct a as [x|], b as [y|], v as [z|]; simpl; try discriminate;
    try reflexivity.
  intros Hxz H. apply negb_true_iff in H.
  destruct (Qeq_bool y z) eqn:Hyz; [|reflexivity].
  apply Qeq_bool_iff in Hxz, Hyz.
  assert (Hle : Qle_bool y x = true).
  { apply Qle_bool_iff. rewrite Hxz, Hyz. apply Qle_refl. }
  congruence.
Qed.

Lemma adjacent_tail {A} (R : A -> A -> Prop) (x : A) (l : list A) :
  adjacent R (x :: l) -> adjacent R l.
Proof. intros H i d Hi. apply (H (S i) d). simpl. lia. Qed.

Lemma adjacent_head {A} (R : A -> A -> Prop) (x y : A) (l : list A) :
  adjacent R (x :: y :: l) -> R x y.
Proof. intros H. apply (H 0 x). simpl. lia. Qed.

(** In a list whose neighbours are related by a transitive relation, the
    head is related to every later element. *)
Lemma adjacent_head_all {A} (R : A -> A -> Prop) (l : list A) :
  (forall a b c, R a b -> R b c -> R a c) ->
  forall x, adjacent R (x :: l) -> Forall (R x) l.
Proof.
  intros Htrans. induction l as [|y l IH]; intros x H; constructor.
  - apply (adjacent_head _ _ _ _ H).
  - pose proof (adjacent_head _ _ _ _ H) as Hxy.
    specialize (IH y (adjacent_tail _ _ _ H)).
    revert IH. apply Forall_impl. intros z Hyz. apply (Htrans _ y); assumption.
Qed.

Lemma adjacent_app_r {A} (R : A -> A -> Prop) (l1 l2 : list A) :
  adjacent R (l1 ++ l2) -> adjacent R l2.
Proof.
  induction l1 as [|x l1 IH]; simpl; intros H; [exact H|].
  apply IH. apply (adjacent_tail _ x). exact H.
Qed.

Lemma adjacent_nth {A} (R : A -> A -> Prop) :
  (forall a b c, R a b -> R b c -> R a c) ->
  forall (l : list A) (d : A),
    adjacent R l ->
    forall j i, i < j -> j < length l -> R (nth i l d) (nth j l d).
Proof.
  intros Htrans l d H. induction j as [|j IH]; intros i Hij Hj; [lia|].
  pose proof (H j d Hj) as Hstep.
  destruct (Nat.eq_dec i j) as [->|Hne]; [exact Hstep|].
  apply (Htrans _ (nth j l d)); [apply IH; lia | exact Hstep].
Qed.

(** [p < a] and [a <= b] give [p < b]. *)
Lemma value_ge_lt' (p a b : value) :
  value_ge b a -> value_lt p a = true -> value_lt p b = true.
Proof.
  destruct p as [x|], a as [y|], b as [z|]; simpl; try discriminate;
    try contradiction.
  intros Hyz H. apply negb_true_iff in H. apply negb_true_iff.
  destruct (Qle_bool z x) eqn:Hzx; [|reflexivity].
  apply Qle_bool_iff in Hzx.
  assert (Hyx : Qle_bool y x = true)
    by (apply Qle_bool_iff, (Qle_trans _ z); assumption).
  congruence.
Qed.

Lemma In_firstn {X} (n : nat) (l : list X) (x : X) :
  In x (firstn n l) -> In x l.
Proof.
  intros H. rewrite <- (firstn_skipn n l). apply in_or_app. left. exact H.
Qed.

Lemma In_skipn {X} (n : nat) (l : list X) (x : X) :
  In x (skipn n l) -> In x l.
Proof.
  intros H. rewrite <- (firstn_skipn n l). apply in_or_app. right. exact H.
Qed.

Section SortingNumbers.
Variable A : Type.
Variable key : A -> value.

Lemma ascending_numbers_le (l : list A) :
  numbers key l -> ascending key l -> adjacent (key_le key) l.
Proof.
  intros Hnum Hasc i d Hi. unfold key_le.
  apply value_not_lt_ge.
  - apply Hnum. apply nth_In. lia.
  - apply Hnum. apply nth_In. lia.
  - apply (Hasc i d Hi).
Qed.

Lemma key_le_trans (a b c : A) :
  key_le key a b -> key_le key b c -> key_le key a c.
Proof. unfold key_le. intros H1 H2. apply (value_ge_trans _ (key b)); assumption. Qed.

(** After the place of the binary search, every element of a run of
    numbers is above the pivot. *)
Lemma above_pivot (pivot : A) (run : list A) (k : nat) :
  numbers key run -> ascending key run ->
  k = length run \/ item_lt key pivot (nth k run pivot) = true ->
  Forall (fun x => item_lt key pivot x = true) (skipn k run).
Proof.
  intros Hnum Hasc [->|Hlt].
  - rewrite skipn_all. constructor.
  - apply Forall_forall. intros x Hin.
    destruct (In_nth _ _ pivot Hin) as (i & Hi & Hx).
    rewrite length_skipn in Hi. rewrite nth_skipn in Hx. subst x.
    destruct i as [|i]; [rewrite Nat.add_0_r; exact Hlt|].
    pose proof (adjacent_nth (key_le key) key_le_trans run pivot
                  (ascending_numbers_le run Hnum Hasc)
                  (k + S i) k ltac:(lia) ltac:(lia)) as Hle.
    unfold key_le in Hle. unfold item_lt in *.
    apply (value_ge_lt' _ _ _ Hle Hlt).
Qed.

Lemma numbers_insert_at (k : nat) (pivot : A) (run : list A) :
  numbers key run -> isnan (key pivot) = false ->
  numbers key (insert_at k pivot run).
Proof.
  intros Hrun Hp x Hin.
  apply (Permutation_in _ (Permutation_insert_at k pivot run)) in Hin.
  destruct Hin as [<-|Hin]; [exact Hp | apply Hrun, Hin].
Qed.

Lemma filter_none {X} (f : X -> bool) (l : list X) :
  Forall (fun x => f x = false) l -> filter f l = [].
Proof.
  induction 1 as [|x l Hx _ IH]; simpl; [reflexivity|].
  rewrite Hx. exact IH.
Qed.

(** The binary search puts the pivot after the elements equal to it. *)
Lemma filter_eq_insert_at (v : value) (k : nat) (pivot : A) (run : list A) :
  numbers key run -> ascending key run ->
  k = length run \/ item_lt key pivot (nth k run pivot) = true ->
  filter (fun x => value_eqb (key x) v) (insert_at k pivot run) =
  filter (fun x => value_eqb (key x) v) run ++
  filter (fun x => value_eqb (key x) v) [pivot].
Proof.
  intros Hnum Hasc Hk. unfold insert_at.
  rewrite <- (firstn_skipn k run) at 3. rewrite !filter_app. simpl.
  destruct (value_eqb (key pivot) v) eqn:Hp.
  - assert (Hnone : filter (fun x => value_eqb (key x) v) (skipn k run) = []).
    { apply filter_none.
      pose proof (above_pivot pivot run k Hnum Hasc Hk) as Habove.
      revert Habove. apply Forall_impl. intros x Hx.
      apply (value_eqb_not_lt (key pivot)); assumption. }
    rewrite Hnone, app_nil_r. reflexivity.
  - rewrite app_nil_r. reflexivity.
Qed.

Lemma binarysort_stable (v : value) (rest run : list A) :
  numbers key run -> numbers key rest -> ascending key run ->
  filter (fun x => value_eqb (key x) v) (binarysort key run rest) =
  filter (fun x => value_eqb (key x) v) run ++
  filter (fun x => value_eqb (key x) v) rest.
Proof.
  revert run. induction rest as [|pivot rest IH]; intros run Hrun Hrest Hasc.
  - simpl. rewrite app_nil_r. reflexivity.
  - simpl binarysort.
    destruct (bisect_spec _ key pivot run (length run) 0 (length run))
      as (H1 & H2 & H3); try lia; auto.
    assert (Hp : isnan (key pivot) = false)
      by (apply Hrest; left; reflexivity).
    rewrite IH.
    + rewrite filter_eq_insert_at by assumption.
      rewrite <- app_assoc. simpl.
      destruct (value_eqb (key pivot) v); reflexivity.
    + apply numbers_insert_at; assumption.
    + intros x Hin. apply Hrest. right. exact Hin.
    + apply ascending_insert_at; auto. lia.
Qed.

Lemma value_eqb_not_gt (a b v : value) :
  value_eqb a v = true -> value_lt b a = true -> value_eqb b v = false.
Proof.
  destruct a as [x|], b as [y|], v as [z|]; simpl; try discriminate;
    try reflexivity.
  intros Hxz H. apply negb_true_iff in H.
  destruct (Qeq_bool y z) eqn:Hyz; [|reflexivity].
  apply Qeq_bool_iff in Hxz, Hyz.
  assert (Hle : Qle_bool x y = true).
  { apply Qle_bool_iff. rewrite Hxz, Hyz. apply Qle_refl. }
  congruence.
Qed.

Lemma item_lt_trans (a b c : A) :
  item_lt key b a = true -> item_lt key c b = true ->
  item_lt key c a = true.
Proof.
  unfold item_lt.
  destruct (key a) as [x|], (key b) as [y|], (key c) as [z|]; simpl;
    try discriminate.
  intros H1 H2. apply negb_true_iff in H1, H2. apply negb_true_iff.
  destruct (Qle_bool x z) eqn:Hxz; [|reflexivity].
  apply Qle_bool_iff in Hxz.
  destruct (Qlt_le_dec z y) as [Hlt|Hle].
  - assert (Hxy : Qle_bool x y = true).
    { apply Qle_bool_iff, (Qle_trans _ z); [exact Hxz|].
      apply Qlt_le_weak, Hlt. }
    congruence.
  - apply Qle_bool_iff in Hle. congruence.
Qed.

(** A strictly descending run has every value at most once, so that
    reversing it moves no element past an equal one. *)
Lemma descending_run_stable (v : value) (l : list A) :
  adjacent (fun x y => item_lt key y x = true) l ->
  filter (fun x => value_eqb (key x) v) (rev l) =
  filter (fun x => value_eqb (key x) v) l.
Proof.
  intros Hdesc. rewrite filter_rev.
  assert (Hone : length (filter (fun x => value_eqb (key x) v) l) <= 1).
  { induction l as [|x l IH]; simpl; [lia|].
    destruct (value_eqb (key x) v) eqn:Hx.
    - pose proof (adjacent_head_all
                    (fun x y => item_lt key y x = true) l item_lt_trans
                    x Hdesc) as Hall.
      rewrite filter_none; [simpl; lia|].
      revert Hall. apply Forall_impl. intros y Hy.
      apply (value_eqb_not_gt (key x)); assumption.
    - apply IH. apply (adjacent_tail _ x). exact Hdesc. }
  destruct (filter (fun x => value_eqb (key x) v) l) as [|y [|z t]];
    simpl in *; try reflexivity. lia.
Qed.

Lemma numbers_firstn (n : nat) (l : list A) :
  numbers key l -> numbers key (firstn n l).
Proof. intros H x Hin. apply H. apply (In_firstn _ _ _ Hin). Qed.

Lemma numbers_skipn (n : nat) (l : list A) :
  numbers key l -> numbers key (skipn n l).
Proof. intros H x Hin. apply H. apply (In_skipn _ _ _ Hin). Qed.

Lemma numbers_rev (l : list A) : numbers key l -> numbers key (rev l).
Proof. intros H x Hin. apply H. apply in_rev. exact Hin. Qed.

Lemma listsort_stable (v : value) (a : list A) :
  numbers key a ->
  filter (fun x => value_eqb (key x) v) (listsort key a) =
  filter (fun x => value_eqb (key x) v) a.
Proof.
  intros Hnum. unfold listsort.
  destruct (Nat.ltb_spec (length a) 2) as [Hlen|Hlen]; [reflexivity|].
  destruct a as [|x [|y t]]; simpl in Hlen; try lia. simpl count_run.
  pose proof (numbers_skipn (run_desc key y t) t
                (fun z Hz => Hnum z (or_intror (or_intror Hz)))) as Hrd.
  pose proof (numbers_skipn (run_asc key y t) t
                (fun z Hz => Hnum z (or_intror (or_intror Hz)))) as Hra.
  destruct (item_lt key y x) eqn:Hyx; cbv beta iota zeta.
  - change (firstn (S (S (run_desc key y t))) (x :: y :: t))
      with (x :: y :: firstn (run_desc key y t) t).
    change (skipn (S (S (run_desc key y t))) (x :: y :: t))
      with (skipn (run_desc key y t) t).
    assert (Hd : adjacent (fun a b => item_lt key b a = true)
                          (x :: y :: firstn (run_desc key y t) t)).
    { apply adjacent_cons; [exact Hyx | apply run_desc_descending]. }
    assert (Hn : numbers key (x :: y :: firstn (run_desc key y t) t)).
    { intros z [<-|[<-|Hz]]; [apply Hnum; simpl; tauto
                             | apply Hnum; simpl; tauto |].
      apply Hnum. right. right. apply (In_firstn _ _ _ Hz). }
    rewrite binarysort_stable.
    + rewrite (descending_run_stable v _ Hd), <- filter_app.
      change ((x :: y :: firstn (run_desc key y t) t)
                ++ skipn (run_desc key y t) t)
        with (x :: y :: (firstn (run_desc key y t) t
                           ++ skipn (run_desc key y t) t)).
      rewrite firstn_skipn. reflexivity.
    + apply numbers_rev, Hn.
    + exact Hrd.
    + apply adjacent_rev in Hd. revert Hd. apply adjacent_impl.
      intros a b Hab. apply value_lt_asym. exact Hab.
  - change (firstn (S (S (run_asc key y t))) (x :: y :: t))
      with (x :: y :: firstn (run_asc key y t) t).
    change (skipn (S (S (run_asc key y t))) (x :: y :: t))
      with (skipn (run_asc key y t) t).
    rewrite binarysort_stable.
    + rewrite <- filter_app.
      change ((x :: y :: firstn (run_asc key y t) t)
                ++ skipn (run_asc key y t) t)
        with (x :: y :: (firstn (run_asc key y t) t
                           ++ skipn (run_asc key y t) t)).
      rewrite firstn_skipn. reflexivity.
    + intros z [<-|[<-|Hz]]; [apply Hnum; simpl; tauto
                             | apply Hnum; simpl; tauto |].
      apply Hnum. right. right. apply (In_firstn _ _ _ Hz).
    + exact Hra.
    + apply adjacent_cons; [exact Hyx | apply run_asc_ascending].
Qed.

(** [sorted(l, key=key, reverse=True)] on numbers is stable: the elements
    of one value are in the order they have in [l]. *)
Lemma sorted_reverse_stable (v : value) (l : list A) :
  numbers key l ->
  filter (fun x => value_eqb (key x) v) (sorted key true l) =
  filter (fun x => value_eqb (key x) v) l.
Proof.
  intros Hnum. unfold sorted.
  rewrite filter_rev, listsort_stable by (apply numbers_rev, Hnum).
  rewrite filter_rev, rev_involutive. reflexivity.
Qed.

(** ... and in descending order throughout. *)
Lemma sorted_reverse_descending (l : list A) (d : A) :
  numbers key l ->
  forall i j, i < j -> j < length (sorted key true l) ->
    value_ge (key (nth i (sorted key true l) d))
             (key (nth j (sorted key true l) d)).
Proof.
  intros Hnum i j Hij Hj.
  assert (Hsn : numbers key (sorted key true l)).
  { intros x Hin. apply Hnum.
    apply (Permutation_in _ (Permutation_sorted _ key true l) Hin). }
  apply (adjacent_nth (fun x y => value_ge (key x) (key y))
           (fun a b c => value_ge_trans (key a) (key b) (key c))
           (sorted key true l) d); try assumption.
  intros k d' Hk. apply value_not_lt_ge.
  - apply Hsn, nth_In. lia.
  - apply Hsn, nth_In. lia.
  - apply (sorted_reverse_adjacent _ key l k d' Hk).
Qed.

End SortingNumbers.

(** ** Rankings of numbers *)

(** X1.  A ranking that holds no NaN is in descending order throughout: an
    entry is [>=] every later one, and the first entry has the largest
    value. *)
Theorem ranking_of_numbers_is_descending self date (w : World) rankings w'
        name ranking :
  get_latest_rankings self date w = (Ok rankings, w') ->
  In (name, ranking) rankings ->
  (forall x, In x ranking -> isnan (snd x) = false) ->
  forall i j x y,
    i < j ->
    nth_error ranking i = Some x -> nth_error ranking j = Some y ->
    value_ge (snd x) (snd y).
Proof.
  intros Hrun Hin Hnum i j x y Hij Hx Hy.
  apply get_latest_rankings_inv in Hrun.
  destruct Hrun as (s & e & tables & latest & _ & _ & _ & _ & _ & ->).
  apply In_rankings_sorted in Hin. destruct Hin as (idx & _ & ->).
  assert (Hj : j < length (sorted (fun x : string * value => snd x) true
                                  (unsorted_ranking latest idx)))
    by (apply nth_error_Some; congruence).
  assert (Hentries : numbers (fun x : string * value => snd x)
                             (unsorted_ranking latest idx)).
  { intros z Hz. apply Hnum.
    apply (Permutation_in _ (Permutation_sym (Permutation_sorted _ _ _ _))).
    exact Hz. }
  pose proof (sorted_reverse_descending _ (fun x : string * value => snd x)
                (unsorted_ranking latest idx) x Hentries i j Hij Hj) as H.
  rewrite (nth_error_nth _ _ x Hx), (nth_error_nth _ _ x Hy) in H.
  exact H.
Qed.

(** X2.  In a ranking that holds no NaN, the entities of one value are in
    the order of the entity catalogue. *)
Theorem ranking_ties_keep_catalogue_order self date (w : World) rankings w'
        name ranking :
  get_latest_rankings self date w = (Ok rankings, w') ->
  In (name, ranking) rankings ->
  (forall x, In x ranking -> isnan (snd x) = false) ->
  exists entries,
    map fst entries = map snd ESI_ENTITIES /\
    Permutation ranking entries /\
    forall v,
      filter (fun x => value_eqb (snd x) v) ranking =
      filter (fun x => value_eqb (snd x) v) entries.
Proof.
  intros Hrun Hin Hnum.
  apply get_latest_rankings_inv in Hrun.
  destruct Hrun as (s & e & tables & latest & _ & _ & _ & _ & _ & ->).
  apply In_rankings_sorted in Hin. destruct Hin as (idx & _ & ->).
  exists (unsorted_ranking latest idx).
  split; [apply unsorted_ranking_names|].
  split; [apply Permutation_sorted|].
  intros v.
  apply (sorted_reverse_stable _ (fun x : string * value => snd x)).
  intros z Hz. apply Hnum.
  apply (Permutation_in _ (Permutation_sym (Permutation_sorted _ _ _ _))).
  exact Hz.
Qed.

(** ** More on [_fetch_esi_tables] *)

(** X3.  The cache files of the 16 entities are 16 different paths,
    whatever the data directory. *)
Theorem cache_files_are_distinct self :
  NoDup (map (_entity_csv_filename self) ENTITY_CODES).
Proof.
  apply NoDup_map_NoDup_ForallPairs.
  - intros a b Ha Hb Heq. apply (entity_csv_filename_inj self a b Ha Hb Heq).
  - repeat constructor; simpl; intuition discriminate.
Qed.

(** X4.  A fetch that has returned can be repeated: in the world it leaves,
    the next fetch finds the 16 cache files, reads them and nothing else,
    writes no file, and returns the same tables (a cache file holding the
    frame that was written to it). *)
Theorem fetch_again_reads_the_cache self (w : World) tables w1 :
  _fetch_esi_tables self w = (Ok tables, w1) ->
  exists w2,
    _fetch_esi_tables self w1 = (Ok tables, w2) /\
    fs w2 = fs w1 /\
    io_log w2 =
      io_log w1
      ++ is_file_events (map (_entity_csv_filename self) ENTITY_CODES)
      ++ read_csv_events self.
Proof.
  intros Hfetch.
  assert (Hsrc : forall ec, In ec ENTITY_CODES ->
                   exists src,
                     cached_frame self (fs w1) ec = Some src /\
                     dict_get ec tables = Some (frame_to_period src)).
  { intros ec Hin.
    destruct (fetch_sources self w tables w1 ec Hfetch Hin)
      as (src & Hfile & Hget).
    exists src. split; [|exact Hget].
    unfold cached_frame. rewrite Hfile. reflexivity. }
  assert (Hall : forall ec, In ec ENTITY_CODES ->
                            cached_frame self (fs w1) ec <> None).
  { intros ec Hin. destruct (Hsrc ec Hin) as (src & -> & _). discriminate. }
  exists (logs w1 (is_file_events
                     (map (_entity_csv_filename self) ENTITY_CODES)
                   ++ read_csv_events self)).
  split; [|split; reflexivity].
  rewrite (fetch_cached self w1 Hall). f_equal. f_equal.
  destruct (fetch_inv_raw self w tables w1 Hfetch) as (raw & Htables).
  rewrite Htables. unfold monthly. apply map_ext_in. intros ec Hin.
  f_equal.
  destruct (Hsrc ec Hin) as (src & Hcached & Hget).
  rewrite Htables in Hget.
  rewrite (dict_get_map_key
             (fun ec => frame_to_period (raw_frame raw ec)) _ _ Hin) in Hget.
  assert (Hsame : frame_to_period (raw_frame raw ec) = frame_to_period src)
    by congruence.
  rewrite Hsame.
  unfold raw_frame. rewrite (cached_tables_get _ _ _ Hin), Hcached.
  reflexivity.
Qed.

Lemma import_loop_fails self (l : list (string * string)) :
  forall acc (w : World),
    (exists e, In e l /\ excel_frame self (fs w) (snd e) = None) ->
    exists read,
      for_each l (import_step self) acc w =
      (Raise (IOError (esi_file_path self)),
       logs w (map (fun e : string * string =>
                      EvReadExcel (esi_file_path self)
                                         (esi_sheet_name self) 0 0 (snd e))
                   read)).
Proof.
  induction l as [|[entity cols] l IH]; intros acc w (e & Hin & Hnone).
  - destruct Hin.
  - rewrite for_each_cons. unfold bind. rewrite import_step_eq.
    destruct (excel_frame self (fs w) cols) as [df|] eqn:Hdf.
    + destruct Hin as [<-|Hin]; [simpl in Hnone; congruence|].
      destruct (IH (dict_set entity df acc)
                   (log (EvReadExcel (esi_file_path self)
                                     (esi_sheet_name self) 0 0 cols) w))
        as (read & Hread).
      { exists e. split; [exact Hin | exact Hnone]. }
      exists ((entity, cols) :: read). rewrite Hread, logs_log. reflexivity.
    + exists [(entity, cols)]. cbn [map snd].
      rewrite <- logs_log, logs_nil. reflexivity.
Qed.

(** X5.  When a cache file is missing and the workbook cannot be read for
    one of the entities, the fetch raises the error of the reader and
    leaves the directory as it was: no cache file is written, not even
    those of the entities that were read. *)
Theorem failed_import_writes_nothing self (w : World) :
  (exists ec, In ec ENTITY_CODES /\
              fs w (_entity_csv_filename self ec) = None) ->
  (exists ec cols, In (ec, cols) ENTITY_COLS /\
                   excel_frame self (fs w) cols = None) ->
  exists w',
    _fetch_esi_tables self w = (Raise (IOError (esi_file_path self)), w') /\
    fs w' = fs w /\
    forall path, In (EvToCsv path) (io_log w') -> In (EvToCsv path) (io_log w).
Proof.
  intros Hmiss (ec & cols & Hin & Hnone). apply all_cached_false in Hmiss.
  destruct (import_loop_fails self ENTITY_COLS []
              (logs w (is_file_events
                         (checked_files self (fs w) ENTITY_CODES))))
    as (read & Hread).
  { exists (ec, cols). split; [exact Hin | exact Hnone]. }
  eexists. split; [|split].
  - unfold _fetch_esi_tables.
    rewrite (bind_ok _ _ _ _ _ (we_have_csvs_eq self ENTITY_CODES w)).
    fold (all_cached self (fs w)). rewrite Hmiss.
    apply bind_raise. apply bind_raise.
    unfold _import_esi_tables_from_xlsx, items. exact Hread.
  - reflexivity.
  - intros path Hp. unfold logs in Hp. cbn [io_log] in Hp.
    rewrite <- app_assoc in Hp.
    apply in_app_or in Hp. destruct Hp as [Hp|Hp]; [exact Hp|].
    apply in_app_or in Hp. destruct Hp as [Hp|Hp].
    + unfold is_file_events in Hp. apply in_map_iff in Hp.
      destruct Hp as (p & Heq & _). discriminate Heq.
    + apply in_map_iff in Hp. destruct Hp as (p & Heq & _). discriminate Heq.
Qed.

(** ** Queries on a complete cache *)

Lemma quiet_bind {A B} (c : M A) (k : A -> M B) :
  quiet c -> (forall a, quiet (k a)) -> quiet (bind c k).
Proof.
  intros Hc Hk w. unfold bind. specialize (Hc w).
  destruct (c w) as [[a|e] w1]; simpl in Hc; subst w1.
  - apply Hk.
  - reflexivity.
Qed.

Lemma quiet_for_each {A S} (l : list A) (body : S -> A -> M S) :
  (forall s x, quiet (body s x)) -> forall s, quiet (for_each l body s).
Proof.
  intros Hbody. induction l as [|x l IH]; intros s.
  - intros w. reflexivity.
  - rewrite for_each_cons. apply quiet_bind; [apply Hbody | exact IH].
Qed.

Lemma quiet_latest_values_loop tables s e :
  quiet (latest_values_loop tables s e).
Proof.
  apply quiet_for_each. intros acc ec w.
  rewrite latest_values_step_eq. reflexivity.
Qed.

Lemma quiet_latest_cell latest ec idx : quiet (latest_cell latest ec idx).
Proof. intros w. rewrite latest_cell_eq. reflexivity. Qed.

Lemma quiet_rankings_loop latest : quiet (rankings_loop latest).
Proof.
  apply quiet_for_each. intros r [ec label]. unfold rankings_step.
  repeat (apply quiet_bind; [apply quiet_latest_cell | intros ?]).
  intros w. reflexivity.
Qed.

Lemma quiet_countries_loop tables comp months :
  quiet (countries_loop tables comp months).
Proof.
  apply quiet_for_each. intros acc ec w.
  rewrite countries_step_eq. reflexivity.
Qed.

Lemma quiet_getitem {V} (d : pydict V) (k : string) : quiet (getitem d k).
Proof. intros w. unfold getitem. destruct (dict_get k d); reflexivity. Qed.

Lemma quiet_list_getitem {X} (l : list X) (i : nat) :
  quiet (list_getitem l i).
Proof. intros w. unfold list_getitem. destruct (nth_error l i); reflexivity. Qed.

(** X6.  When every entity has a readable cache file, a query, whether for
    rankings or for history and whether it returns or raises, checks and
    reads the 16 cache files and does nothing else: it writes no file and
    does not read the workbook. *)
Theorem queries_only_read_a_complete_cache self date comp months (w : World) :
  (forall ec, In ec ENTITY_CODES ->
     exists df, fs w (_entity_csv_filename self ec) = Some (CsvFile df)) ->
  snd (get_latest_rankings self date w) =
    logs w (is_file_events (map (_entity_csv_filename self) ENTITY_CODES)
            ++ read_csv_events self) /\
  snd (get_historical_values self comp months w) =
    logs w (is_file_events (map (_entity_csv_filename self) ENTITY_CODES)
            ++ read_csv_events self).
Proof.
  intros Hfiles.
  assert (Hall : forall ec, In ec ENTITY_CODES ->
                            cached_frame self (fs w) ec <> None).
  { intros ec Hin. destruct (Hfiles ec Hin) as (df & Hdf).
    unfold cached_frame. rewrite Hdf. discriminate. }
  pose proof (fetch_cached self w Hall) as Hfetch.
  split.
  - unfold get_latest_rankings.
    rewrite (bind_ok _ _ _ _ _ (lookup_window_eq date w)).
    destruct (match date with
              | Some d => (d, d)
              | None => _
              end) as [s e].
    rewrite (bind_ok _ _ _ _ _ Hfetch).
    apply quiet_bind; [apply quiet_latest_values_loop | intros latest].
    apply quiet_bind; [apply quiet_rankings_loop | intros r].
    intros w1. reflexivity.
  - unfold get_historical_values.
    rewrite (bind_ok _ _ _ _ _ Hfetch).
    apply quiet_bind; [apply quiet_countries_loop | intros countries].
    apply quiet_bind; [apply quiet_list_getitem | intros first].
    apply quiet_bind; [apply quiet_getitem | intros table].
    intros w1. reflexivity.
Qed.

(** ** How a fetch fails *)

Lemma load_loop_fails self (codes : list string) :
  forall acc (w : World),
    (exists ec, In ec codes /\ cached_frame self (fs w) ec = None) ->
    exists ec read,
      In ec codes /\ cached_frame self (fs w) ec = None /\
      for_each codes (load_step self) acc w =
      (Raise (IOError (_entity_csv_filename self ec)),
       logs w (map (fun ec => EvReadCsv (_entity_csv_filename self ec) 0 [0])
                   read)).
Proof.
  induction codes as [|c codes IH]; intros acc w (ec & Hin & Hnone).
  - destruct Hin.
  - rewrite for_each_cons. unfold bind. rewrite load_step_eq.
    destruct (cached_frame self (fs w) c) as [df|] eqn:Hdf.
    + destruct Hin as [<-|Hin]; [congruence|].
      destruct (IH (dict_set c df acc)
                   (log (EvReadCsv (_entity_csv_filename self c) 0 [0]) w))
        as (ec0 & read & Hin0 & Hnone0 & Hrun).
      { exists ec. split; [exact Hin | exact Hnone]. }
      exists ec0, (c :: read). split; [right; exact Hin0|].
      split; [exact Hnone0|].
      rewrite Hrun, logs_log. reflexivity.
    + exists c, [c]. split; [left; reflexivity|]. split; [exact Hdf|].
      cbn [map]. rewrite <- logs_log, logs_nil. reflexivity.
Qed.

Lemma fetch_raise_inv self (w : World) e w' :
  _fetch_esi_tables self w = (Raise e, w') ->
  (all_cached self (fs w) = true /\
   exists ec read,
     In ec ENTITY_CODES /\ cached_frame self (fs w) ec = None /\
     e = IOError (_entity_csv_filename self ec) /\
     w' = logs w (is_file_events
                    (map (_entity_csv_filename self) ENTITY_CODES)
                  ++ map (fun ec =>
                            EvReadCsv (_entity_csv_filename self ec) 0 [0])
                         read))
  \/
  (all_cached self (fs w) = false /\
   exists c read,
     In c ENTITY_COLS /\ excel_frame self (fs w) (snd c) = None /\
     e = IOError (esi_file_path self) /\
     w' = logs w (is_file_events (checked_files self (fs w) ENTITY_CODES)
                  ++ map (fun c : string * string =>
                            EvReadExcel (esi_file_path self)
                                        (esi_sheet_name self) 0 0 (snd c))
                         read)).
Proof.
  intros H. unfold _fetch_esi_tables in H.
  rewrite (bind_ok _ _ _ _ _ (we_have_csvs_eq self ENTITY_CODES w)) in H.
  fold (all_cached self (fs w)) in H.
  destruct (all_cached self (fs w)) eqn:Hall.
  - left. split; [reflexivity|].
    rewrite (checked_files_all _ _ _ Hall) in H.
    destruct (forallb (fun ec => match cached_frame self (fs w) ec with
                                 | Some _ => true
                                 | None => false
                                 end) ENTITY_CODES) eqn:Hf.
    + exfalso.
      assert (Hread : forall ec, In ec ENTITY_CODES ->
                                 cached_frame self (fs w) ec <> None).
      { intros ec Hin. rewrite forallb_forall in Hf. specialize (Hf ec Hin).
        destruct (cached_frame self (fs w) ec); [discriminate|discriminate]. }
      rewrite (bind_ok _ _ _ _ _ (load_ok self w _ Hread)) in H.
      rewrite to_monthly_ok in H; [discriminate|].
      intros ec Hin. rewrite (cached_tables_get _ _ _ Hin). discriminate.
    + apply forallb_false_exists in Hf. destruct Hf as (ec & Hin & Hec).
      destruct (load_loop_fails self ENTITY_CODES []
                  (logs w (is_file_events
                             (map (_entity_csv_filename self) ENTITY_CODES))))
        as (ec0 & read & Hin0 & Hnone0 & Hrun).
      { exists ec. split; [exact Hin|].
        change (cached_frame self (fs w) ec = None).
        destruct (cached_frame self (fs w) ec); [discriminate|reflexivity]. }
      unfold _load_esi_tables_from_csv in H.
      rewrite (bind_raise _ _ _ _ _ Hrun) in H.
      injection H as <- <-. exists ec0, read.
      split; [exact Hin0|]. split; [exact Hnone0|].
      split; [reflexivity|]. apply logs_logs.
  - right. split; [reflexivity|].
    destruct (forallb (fun c : string * string =>
                         match excel_frame self (fs w) (snd c) with
                         | Some _ => true
                         | None => false
                         end) ENTITY_COLS) eqn:Hf.
    + exfalso.
      assert (Hread : forall c, In c ENTITY_COLS ->
                                excel_frame self (fs w) (snd c) <> None).
      { intros c Hin. rewrite forallb_forall in Hf. specialize (Hf c Hin).
        destruct (excel_frame self (fs w) (snd c)); [discriminate|discriminate]. }
      pose proof (fetch_imported self w Hall Hread) as Hok.
      unfold _fetch_esi_tables in Hok.
      rewrite (bind_ok _ _ _ _ _ (we_have_csvs_eq self ENTITY_CODES w)) in Hok.
      fold (all_cached self (fs w)) in Hok. rewrite Hall in Hok.
      rewrite Hok in H. discriminate.
    + apply forallb_false_exists in Hf. destruct Hf as (c & Hin & Hc).
      assert (Hnone : excel_frame self (fs w) (snd c) = None).
      { destruct (excel_frame self (fs w) (snd c)); [discriminate|reflexivity]. }
      destruct (import_loop_fails self ENTITY_COLS []
                  (logs w (is_file_events
                             (checked_files self (fs w) ENTITY_CODES))))
        as (read & Hrun).
      { exists c. split; [exact Hin | exact Hnone]. }
      unfold _import_esi_tables_from_xlsx, items in H.
      rewrite (bind_raise _ _ _ _ _ (bind_raise _ _ _ _ _ Hrun)) in H.
      injection H as <- <-. exists c, read.
      split; [exact Hin|]. split; [exact Hnone|].
      split; [reflexivity|]. apply logs_logs.
Qed.


(** ** How [get_latest_rankings] fails *)






(** ** How [get_historical_values] fails *)

Lemma component_or_esi_known (comp : string) :
  In (component_or_esi comp) ESI_COMPONENTS.
Proof.
  unfold component_or_esi.
  destruct (existsb (String.eqb comp) ESI_COMPONENTS) eqn:Hex.
  - apply existsb_exists in Hex. destruct Hex as (c & Hin & Heq).
    apply String.eqb_eq in Heq. subst c. exact Hin.
  - simpl. tauto.
Qed.

Lemma history_component_or_esi self comp months :
  get_historical_values self comp months =
  get_historical_values self (component_or_esi comp) months.
Proof.
  unfold get_historical_values at 2.
  assert (Hknown : existsb (String.eqb (component_or_esi comp))
                           ESI_COMPONENTS = true).
  { apply existsb_exists. exists (component_or_esi comp).
    split; [apply component_or_esi_known | apply String.eqb_refl]. }
  rewrite Hknown. cbn [negb].
  unfold get_historical_values, component_or_esi.
  destruct (existsb (String.eqb comp) ESI_COMPONENTS); reflexivity.
Qed.

Lemma countries_loop_raise_inv tables comp months (codes : list string) :
  forall acc (w : World) err w',
    (forall ec, In ec codes -> dict_get ec tables <> None) ->
    for_each codes (countries_step tables comp months) acc w =
      (Raise err, w') ->
    w' = w /\
    exists before ec after table,
      codes = before ++ ec :: after /\
      (forall ec', In ec' before -> has_column tables comp ec') /\
      dict_get ec tables = Some table /\
      frame_column (String.append (upper ec) comp) table = None /\
      err = KeyError (String.append (upper ec) comp).
Proof.
  induction codes as [|c codes IH]; intros acc w err w' Hall H.
  - discriminate H.
  - rewrite for_each_cons in H. unfold bind in H.
    rewrite countries_step_eq in H.
    destruct (dict_get c tables) as [table|] eqn:Hget;
      [|contradiction (Hall c (or_introl eq_refl))].
    destruct (frame_column (String.append (upper c) comp) table)
      as [column|] eqn:Hcol.
    + destruct (IH _ _ _ _ (fun ec Hin => Hall ec (or_intror Hin)) H)
        as (Hw & before & ec & after & table' & Hcodes & Hbefore & Hget'
            & Hcol' & Herr).
      split; [exact Hw|].
      exists (c :: before), ec, after, table'.
      split; [rewrite Hcodes; reflexivity|]. split.
      * intros ec' [<-|Hin]; [|apply Hbefore, Hin].
        exists table. split; [exact Hget|]. rewrite Hcol. discriminate.
      * split; [exact Hget'|]. split; [exact Hcol' | exact Herr].
    + injection H as <- <-. split; [reflexivity|].
      exists [], c, codes, table. split; [reflexivity|].
      split; [intros ec' []|].
      split; [exact Hget|]. split; [exact Hcol | reflexivity].
Qed.

Lemma countries_loop_fails tables comp months (before : list string) :
  forall ec after table acc (w : World),
    (forall ec', In ec' before -> has_column tables comp ec') ->
    dict_get ec tables = Some table ->
    frame_column (String.append (upper ec) comp) table = None ->
    for_each (before ++ ec :: after) (countries_step tables comp months)
             acc w =
    (Raise (KeyError (String.append (upper ec) comp)), w).
Proof.
  induction before as [|c before IH];
    intros ec after table acc w Hbefore Hget Hcol.
  - cbn [app]. rewrite for_each_cons. unfold bind.
    rewrite countries_step_eq, Hget, Hcol. reflexivity.
  - cbn [app]. rewrite for_each_cons. unfold bind.
    rewrite countries_step_eq.
    destruct (Hbefore c (or_introl eq_refl)) as (table' & -> & Hcol').
    destruct (frame_column (String.append (upper c) comp) table');
      [|contradiction Hcol'; reflexivity].
    apply (IH ec after table); [|exact Hget|exact Hcol].
    intros ec' Hin. apply Hbefore. right. exact Hin.
Qed.

(** X9.  [get_historical_values] fails in two ways and no other: with the
    error of the fetch, or with [KeyError] for the column of the first
    entity, in the order of [ENTITY_CODES], whose table has no column of
    that name.  The number of months never makes it fail. *)
Theorem history_fails_only_on_missing_column
        self comp months (w : World) err w' :
  get_historical_values self comp months w = (Raise err, w') ->
  (exists path, err = IOError path /\
                _fetch_esi_tables self w = (Raise err, w'))
  \/
  exists tables before ec after table,
    _fetch_esi_tables self w = (Ok tables, w') /\
    ENTITY_CODES = before ++ ec :: after /\
    (forall ec', In ec' before ->
                 has_column tables (component_or_esi comp) ec') /\
    dict_get ec tables = Some table /\
    frame_column (String.append (upper ec) (component_or_esi comp)) table
      = None /\
    err = KeyError (String.append (upper ec) (component_or_esi comp)).
Proof.
  rewrite history_component_or_esi.
  pose proof (component_or_esi_known comp) as Hin.
  generalize dependent (component_or_esi comp). clear comp.
  intros comp Hin H.
  unfold get_historical_values in H.
  assert (Hknown : existsb (String.eqb comp) ESI_COMPONENTS = true).
  { apply existsb_exists. exists comp. split; [exact Hin|].
    apply String.eqb_refl. }
  rewrite Hknown in H. cbn [negb] in H. unfold bind in H.
  destruct (_fetch_esi_tables self w) as [[tables|err0] w1] eqn:Hfetch.
  - right.
    assert (Hhas : forall ec, In ec ENTITY_CODES ->
                              dict_get ec tables <> None).
    { intros ec Hec. apply (fetch_has_tables _ _ _ _ _ Hfetch Hec). }
    destruct (countries_loop tables comp months w1) as [[c|err1] w2]
      eqn:Hloop.
    + exfalso. unfold list_getitem, getitem, ret in H.
      cbn [nth_error ENTITY_CODES] in H.
      destruct (dict_get "eu" tables) eqn:Heu; [discriminate H|].
      apply (Hhas "eu"); [left; reflexivity | exact Heu].
    + injection H as <- <-. unfold countries_loop in Hloop.
      apply countries_loop_raise_inv in Hloop; [|exact Hhas].
      destruct Hloop as (-> & before & ec & after & table & Hcodes & Hbefore
                         & Hget & Hcol & Herr).
      exists tables, before, ec, after, table.
      split; [reflexivity|]. split; [exact Hcodes|].
      split; [exact Hbefore|]. split; [exact Hget|].
      split; [exact Hcol | exact Herr].
  - injection H as <- <-. left.
    destruct (fetch_raise_inv self w err0 w1 Hfetch)
      as [(_ & ec & read & _ & _ & Herr & _)
         |(_ & c & read & _ & _ & Herr & _)].
    + exists (_entity_csv_filename self ec). split; [exact Herr|reflexivity].
    + exists (esi_file_path self). split; [exact Herr|reflexivity].
Qed.

(** X10.  When the table of an entity has no column for the component, and
    the tables of the entities before it in [ENTITY_CODES] have theirs,
    [get_historical_values] raises [KeyError] with the name of that
    column, whatever the number of months. *)
Theorem history_missing_column_raises
        self comp months (w : World) tables w1 before ec after table :
  _fetch_esi_tables self w = (Ok tables, w1) ->
  ENTITY_CODES = before ++ ec :: after ->
  (forall ec', In ec' before ->
               has_column tables (component_or_esi comp) ec') ->
  dict_get ec tables = Some table ->
  frame_column (String.append (upper ec) (component_or_esi comp)) table
    = None ->
  get_historical_values self comp months w =
  (Raise (KeyError (String.append (upper ec) (component_or_esi comp))), w1).
Proof.
  rewrite history_component_or_esi.
  pose proof (component_or_esi_known comp) as Hin.
  generalize dependent (component_or_esi comp). clear comp.
  intros comp Hin Hfetch Hcodes Hbefore Hget Hcol.
  unfold get_historical_values.
  assert (Hknown : existsb (String.eqb comp) ESI_COMPONENTS = true).
  { apply existsb_exists. exists comp. split; [exact Hin|].
    apply String.eqb_refl. }
  rewrite Hknown. cbn [negb].
  rewrite (bind_ok _ _ _ _ _ Hfetch).
  apply bind_raise. unfold countries_loop. rewrite Hcodes.
  apply (countries_loop_fails tables comp months before ec after table);
    assumption.
Qed.


(** ** The month that is ranked *)

Lemma adjacent_app_l {A} (R : A -> A -> Prop) (l : list A) (a : A) :
  adjacent R (l ++ [a]) -> adjacent R l.
Proof.
  intros H i d Hi. specialize (H i d).
  rewrite length_app in H. simpl in H.
  rewrite !app_nth1 in H by lia. apply H. lia.
Qed.

Lemma filter_last_is_newest (f : Period * list value -> bool)
      (rows : list (Period * list value)) :
  strictly_monthly (map fst rows) ->
  forall others last_row,
    filter f rows = others ++ [last_row] ->
    In last_row rows /\ f last_row = true /\
    forall r, In r rows -> f r = true ->
              (ordinal (fst r) <= ordinal (fst last_row))%Z.
Proof.
  induction rows as [|a l IH] using rev_ind; intros Hm others last_row H.
  - destruct others; discriminate H.
  - rewrite filter_app in H. cbn [filter] in H.
    destruct (f a) eqn:Ha.
    + apply app_inj_tail in H. destruct H as [_ <-].
      split; [apply in_or_app; right; left; reflexivity|].
      split; [exact Ha|].
      intros r Hin _. apply in_app_or in Hin.
      destruct Hin as [Hin|[<-|[]]]; [|lia].
      destruct (In_nth _ _ a Hin) as (i & Hi & Hnth).
      pose proof (strictly_monthly_lt (map fst (l ++ [a])) (fst a) Hm
                    (length l) i Hi) as Hlt.
      rewrite length_map, length_app in Hlt. simpl in Hlt.
      specialize (Hlt ltac:(lia)).
      rewrite !(map_nth fst) in Hlt.
      rewrite app_nth1 in Hlt by exact Hi.
      rewrite app_nth2 in Hlt by lia.
      rewrite Nat.sub_diag in Hlt. cbn [nth] in Hlt.
      rewrite Hnth in Hlt. lia.
    + rewrite app_nil_r in H.
      rewrite map_app in Hm. apply adjacent_app_l in Hm.
      destruct (IH Hm others last_row H) as (Hin & Hf & Hmax).
      split; [apply in_or_app; left; exact Hin|]. split; [exact Hf|].
      intros r Hr Hfr. apply in_app_or in Hr.
      destruct Hr as [Hr|[<-|[]]]; [apply Hmax; assumption|congruence].
Qed.

(** X12.  When the months of the table of an entity go strictly up, the
    value the entity gets in a ranking is read from the row of the newest
    month of the window the table has a row for: the row lies in the
    window, and no row of the table in the window is of a later month. *)
Theorem newest_month_of_window_is_ranked
        self date (w : World) rankings w' s e tables
        ec label name idx table :
  get_latest_rankings self date w = (Ok rankings, w') ->
  lookup_window date w = (Ok (s, e), w) ->
  _fetch_esi_tables self w = (Ok tables, w') ->
  In (ec, label) ESI_ENTITIES ->
  In (name, idx) component_columns ->
  dict_get ec tables = Some table ->
  strictly_monthly (df_index table) ->
  exists row v ranking,
    In row (df_rows table) /\
    in_window s e (fst row) = true /\
    (forall r, In r (df_rows table) -> in_window s e (fst r) = true ->
               (ordinal (fst r) <= ordinal (fst row))%Z) /\
    nth_error (snd row) idx = Some v /\
    dict_get name rankings = Some ranking /\
    In (label, v) ranking.
Proof.
  intros Hrun Hwin Hfetch Hent Hcomp Hget Hm.
  apply get_latest_rankings_inv in Hrun.
  destruct Hrun
    as (s' & e' & tables' & latest & Hwin' & Hfetch' & Hl & Hrows & Hcells
        & ->).
  rewrite Hwin in Hwin'. injection Hwin' as <- <-.
  rewrite Hfetch in Hfetch'. injection Hfetch' as <-.
  pose proof (entity_code_of _ _ Hent) as Hcode.
  destruct (Hrows ec Hcode) as (table' & row & rest & Hget' & Htail).
  rewrite Hget in Hget'. injection Hget' as <-.
  destruct (window_tail_cons _ _ _ _ _ Htail)
    as (others & last_row & Hwindow & -> & ->).
  destruct (filter_last_is_newest
              (fun r => in_window s e (fst r)) (df_rows table) Hm
              others last_row Hwindow) as (Hin & Hf & Hmax).
  destruct (Hcells ec label idx Hent (component_column_lt _ _ Hcomp))
    as (row' & Hrow' & Hnth).
  assert (Hrow : row' = snd last_row).
  { rewrite Hl in Hrow'.
    rewrite (dict_get_map_key (latest_row tables s e) _ _ Hcode) in Hrow'.
    injection Hrow' as <-. unfold latest_row. rewrite Hget, Htail.
    reflexivity. }
  subst row'.
  exists last_row, (cell latest ec idx),
    (sorted (fun x : string * value => snd x) true
            (unsorted_ranking latest idx)).
  split; [exact Hin|]. split; [exact Hf|]. split; [exact Hmax|].
  split; [exact Hnth|]. split.
  - apply (dict_get_component
             (fun idx => sorted (fun x : string * value => snd x) true
                                (unsorted_ranking latest idx))).
    exact Hcomp.
  - apply (Permutation_in _ (Permutation_sym (Permutation_sorted _ _ _ _))).
    unfold unsorted_ranking.
    apply (in_map (fun entity => (snd entity, cell latest (fst entity) idx))
                  _ _ Hent).
Qed.

(** ** [display_latest_rankings] *)

Lemma comprehension_ok {A B} (f : A -> M B) (g : A -> B) (l : list A)
      (w : World) :
  (forall x, In x l -> f x w = (Ok (g x), w)) ->
  comprehension f l w = (Ok (map g l), w).
Proof.
  induction l as [|x l IH]; intros H; [reflexivity|].
  cbn [comprehension map]. unfold bind.
  rewrite (H x (or_introl eq_refl)).
  rewrite IH; [reflexivity|]. intros y Hy. apply H. right. exact Hy.
Qed.

Lemma table_rows_ok format_float rankings (cell_text : nat -> string -> string)
      (l : list nat) :
  forall table (w : World),
    (forall i indicator, In i l -> In indicator indicators ->
       table_cell format_float rankings i indicator w =
       (Ok (cell_text i indicator), w)) ->
    for_each l (table_row_step format_float rankings) table w =
    (Ok (table ++ map (fun i => map (cell_text i) indicators) l), w).
Proof.
  induction l as [|i l IH]; intros table w H.
  - cbn [for_each map]. rewrite app_nil_r. reflexivity.
  - rewrite for_each_cons. unfold bind at 1. unfold table_row_step at 1.
    unfold bind at 1.
    rewrite (comprehension_ok (table_cell format_float rankings i)
                              (cell_text i) indicators w).
    + unfold ret. rewrite IH.
      * cbn [map]. rewrite <- app_assoc. reflexivity.
      * intros i' ind Hi' Hind. apply H; [right; exact Hi' | exact Hind].
    + intros ind Hind. apply H; [left; reflexivity | exact Hind].
Qed.

Lemma indicator_component (indicator : string) :
  In indicator indicators -> exists idx, In (indicator, idx) component_columns.
Proof.
  intros H. simpl in H.
  repeat (destruct H as [<-|H];
          [eexists; simpl; repeat (try (left; reflexivity); right)|]).
  contradiction.
Qed.

Lemma length_sorted_ranking latest idx :
  length (sorted (fun x : string * value => snd x) true
                 (unsorted_ranking latest idx)) = 16.
Proof.
  rewrite (Permutation_length
             (Permutation_sorted _ (fun x : string * value => snd x) true
                                 (unsorted_ranking latest idx))).
  reflexivity.
Qed.

(** X13.  Once [get_latest_rankings] has returned, the display does not
    fail.  As JSON it prints the rankings as they are.  As a table it
    prints the headers and 16 rows of 6 cells; the cell of row [i] under
    the header of an indicator is made of entry [i] of the ranking of that
    indicator, its name and its value, green in the first row and red in
    the last. *)
Theorem display_prints_the_rankings
        format_float format_date date data_dir esi_filename esi_sheet_name
        (w : World) rankings w' :
  get_latest_rankings (configure data_dir esi_filename esi_sheet_name) date w
    = (Ok rankings, w') ->
  display_latest_rankings format_float format_date date true
                          data_dir esi_filename esi_sheet_name w
    = (Ok (JsonDumps rankings), w') /\
  exists rows,
    display_latest_rankings format_float format_date date false
                            data_dir esi_filename esi_sheet_name w
      = (Ok (Table
               {| table_data := headers :: rows;
                  inner_heading_row_border := true;
                  table_title :=
                    option_map
                      (fun d => String.append "Rankings for " (format_date d))
                      date |}), w') /\
    length rows = 16 /\
    forall i j indicator,
      i < 16 -> nth_error indicators j = Some indicator ->
      exists ranking name v row,
        dict_get indicator rankings = Some ranking /\
        nth_error ranking i = Some (name, v) /\
        nth_error rows i = Some row /\
        length row = 6 /\
        nth_error row j = Some (tmpl format_float i name v).
Proof.
  intros Hrun. split.
  { unfold display_latest_rankings. rewrite (bind_ok _ _ _ _ _ Hrun).
    reflexivity. }
  pose proof Hrun as Hinv. apply get_latest_rankings_inv in Hinv.
  destruct Hinv as (s & e & tables & latest & _ & _ & _ & _ & _ & Hr).
  set (ranking_of_indicator := fun indicator =>
         match dict_get indicator rankings with
         | Some ranking => ranking
         | None => []
         end).
  set (cell_text := fun i indicator =>
         let entry := nth i (ranking_of_indicator indicator) ("", NaN) in
         tmpl format_float i (fst entry) (snd entry)).
  assert (Hranking : forall indicator, In indicator indicators ->
            exists ranking,
              dict_get indicator rankings = Some ranking /\
              length ranking = 16).
  { intros indicator Hin.
    destruct (indicator_component indicator Hin) as (idx & Hidx).
    exists (sorted (fun x : string * value => snd x) true
                   (unsorted_ranking latest idx)).
    split; [|apply length_sorted_ranking].
    rewrite Hr.
    apply (dict_get_component
             (fun idx => sorted (fun x : string * value => snd x) true
                                (unsorted_ranking latest idx))).
    exact Hidx. }
  assert (Hcell : forall i indicator,
            In i (seq 0 16) -> In indicator indicators ->
            table_cell format_float rankings i indicator w' =
            (Ok (cell_text i indicator), w')).
  { intros i indicator Hi Hin. apply in_seq in Hi.
    destruct (Hranking indicator Hin) as (ranking & Hget & Hlen).
    unfold table_cell, bind, getitem, list_getitem, ret.
    rewrite Hget.
    destruct (nth_error ranking i) as [entry|] eqn:Hnth.
    - unfold cell_text, ranking_of_indicator. rewrite Hget.
      rewrite (nth_error_nth _ _ ("", NaN) Hnth). reflexivity.
    - apply nth_error_None in Hnth. lia. }
  exists (map (fun i => map (cell_text i) indicators) (seq 0 16)).
  split; [|split].
  - unfold display_latest_rankings. rewrite (bind_ok _ _ _ _ _ Hrun).
    change (length ESI_ENTITIES) with 16.
    rewrite (bind_ok _ _ _ _ _
               (table_rows_ok format_float rankings cell_text (seq 0 16)
                              [headers] w' Hcell)).
    destruct date; reflexivity.
  - rewrite length_map, length_seq. reflexivity.
  - intros i j indicator Hi Hj.
    assert (Hin : In indicator indicators) by (apply (nth_error_In _ _ Hj)).
    destruct (Hranking indicator Hin) as (ranking & Hget & Hlen).
    destruct (nth_error ranking i) as [[name v]|] eqn:Hnth;
      [|apply nth_error_None in Hnth; lia].
    exists ranking, name, v, (map (cell_text i) indicators).
    split; [exact Hget|]. split; [exact Hnth|]. split; [|split].
    + rewrite nth_error_map, nth_error_seq.
      destruct (Nat.ltb_spec i 16) as [_|Hge]; [reflexivity|lia].
    + rewrite length_map. reflexivity.
    + rewrite nth_error_map, Hj. cbn [option_map]. f_equal.
      unfold cell_text, ranking_of_indicator. rewrite Hget.
      rewrite (nth_error_nth _ _ ("", NaN) Hnth). reflexivity.
Qed.

(** ** [historical_esi_values_chart] *)

Lemma fold_add_series (l : list (string * list value)) :
  forall chart,
    fold_left (fun chart country_val =>
                 add (fst country_val) (snd country_val) chart) l chart =
    {| dots_size := dots_size chart;
       show_y_guides := show_y_guides chart;
       x_label_rotation := x_label_rotation chart;
       disable_xml_declaration := disable_xml_declaration chart;
       chart_title := chart_title chart;
       x_labels := x_labels chart;
       series := series chart ++ l |}.
Proof.
  induction l as [|x l IH]; intros chart.
  - destruct chart. cbn. rewrite app_nil_r. reflexivity.
  - cbn [fold_left]. rewrite IH. unfold add. cbn.
    rewrite <- app_assoc. destruct x. reflexivity.
Qed.

Lemma tail_map {X Y} (f : X -> Y) (n : Z) (l : list X) :
  tail n (map f l) = map f (tail n l).
Proof.
  unfold tail. rewrite length_map.
  destruct (n =? 0)%Z; [reflexivity|].
  destruct (0 <? n)%Z; apply skipn_map.
Qed.

(** X14.  When the tables have the column of the component for every
    entity, the chart function does not fail, whatever the number of
    months.  The chart has one line per entity, named by the entity codes
    in the order of [ENTITY_CODES], each the tail of the column of its
    entity; its labels are the periods of the table of ['eu'], and its
    title names the number of months.  It is written to the file when a
    file name is given, and returned otherwise; given the empty name it
    is returned, and with the XML declaration that the chart returned for
    no name does not have. *)
Theorem chart_has_a_line_per_entity
        strftime_Y_m comp title filename months
        data_dir esi_filename esi_sheet_name (w : World) tables w1 :
  In comp ESI_COMPONENTS ->
  _fetch_esi_tables (configure data_dir esi_filename esi_sheet_name) w
    = (Ok tables, w1) ->
  (forall ec, In ec ENTITY_CODES -> has_column tables comp ec) ->
  exists chart first,
    historical_esi_values_chart strftime_Y_m comp title filename months
                                data_dir esi_filename esi_sheet_name w
      = (Ok (match filename with
             | Some (String c s) => RenderToFile chart (String c s)
             | _ => Render chart
             end), w1) /\
    disable_xml_declaration chart =
      match filename with
      | None => true
      | Some _ => false
      end /\
    chart_title chart =
      String.append "ESI - "
        (String.append title
           (String.append " (past "
              (String.append (str_int months) " months)"))) /\
    dict_get "eu" tables = Some first /\
    x_labels chart = map strftime_Y_m (tail months (df_index first)) /\
    map fst (series chart) = ENTITY_CODES /\
    forall ec, In ec ENTITY_CODES ->
      exists table column,
        dict_get ec tables = Some table /\
        frame_column (String.append (upper ec) comp) table = Some column /\
        dict_get ec (series chart) = Some (tail months (map snd column)).
Proof.
  intros Hcomp Hfetch Hall.
  destruct (get_historical_values_ok
              (configure data_dir esi_filename esi_sheet_name)
              comp months w tables w1 Hcomp Hfetch Hall)
    as (first & Hfirst & Hrun).
  exists {| dots_size := 1;
            show_y_guides := false;
            x_label_rotation := 90;
            disable_xml_declaration :=
              match filename with
              | None => true
              | Some _ => false
              end;
            chart_title :=
              String.append "ESI - "
                (String.append title
                   (String.append " (past "
                      (String.append (str_int months) " months)")));
            x_labels := map strftime_Y_m (df_index (frame_tail months first));
            series := map (fun ec => (ec, history_series tables comp months ec))
                          ENTITY_CODES |}, first.
  split; [|split; [|split; [|split; [|split; [|split]]]]].
  - unfold historical_esi_values_chart.
    rewrite (bind_ok _ _ _ _ _ Hrun). cbn [countries dates].
    unfold items. rewrite fold_add_series.
    cbn [dots_size show_y_guides x_label_rotation disable_xml_declaration
         chart_title x_labels series app].
    destruct filename as [[|c s]|]; reflexivity.
  - reflexivity.
  - reflexivity.
  - exact Hfirst.
  - cbn [x_labels]. unfold df_index, frame_tail. cbn [df_rows].
    rewrite tail_map. reflexivity.
  - cbn [series]. rewrite map_map. apply map_id.
  - intros ec Hin. destruct (Hall ec Hin) as (table & Hget & Hcol).
    destruct (frame_column (String.append (upper ec) comp) table)
      as [column|] eqn:Hcolumn; [|contradiction Hcol; reflexivity].
    exists table, column. split; [exact Hget|]. split; [exact Hcolumn|].
    cbn [series].
    rewrite (dict_get_map_key (history_series tables comp months) _ _ Hin).
    unfold history_series. rewrite Hget, Hcolumn. unfold series_tolist.
    rewrite tail_map. reflexivity.
Qed.

(** ** The further properties on the sample data *)

Lemma cache_round_trip_is_lossless_witness :
  exists loaded w3,
    _load_esi_tables_from_csv __init__
      (snd (_create_esi_csv_tables __init__
              (imported_tables __init__ (fs workbook_world))
              (snd (_import_esi_tables_from_xlsx __init__ workbook_world))))
      = (Ok loaded, w3) /\
    keys loaded = ENTITY_CODES /\
    monthly loaded = monthly (imported_tables __init__ (fs workbook_world)) /\
    forall ec, In ec ENTITY_CODES ->
      exists table,
        dict_get ec (imported_tables __init__ (fs workbook_world)) =
          Some table /\
        fst (csv_round_trip
               (_entity_csv_filename __init__ ec) table
               (snd (_import_esi_tables_from_xlsx __init__ workbook_world))) =
          Ok table /\
        fs (snd (_create_esi_csv_tables __init__
                   (imported_tables __init__ (fs workbook_world))
                   (snd (_import_esi_tables_from_xlsx __init__
                           workbook_world))))
           (_entity_csv_filename __init__ ec) = Some (CsvFile table) /\
        dict_get ec loaded = Some table /\
        dict_get ec (monthly loaded) = Some (frame_to_period table) /\
        dict_get ec (monthly (imported_tables __init__ (fs workbook_world))) =
          Some (frame_to_period table).
Proof.
  assert (H1 : _import_esi_tables_from_xlsx __init__ workbook_world =
               (Ok (imported_tables __init__ (fs workbook_world)),
                snd (_import_esi_tables_from_xlsx __init__ workbook_world)))
    by run.
  assert (H2 : _create_esi_csv_tables __init__
                 (imported_tables __init__ (fs workbook_world))
                 (snd (_import_esi_tables_from_xlsx __init__ workbook_world))
               = (Ok tt,
                  snd (_create_esi_csv_tables __init__
                         (imported_tables __init__ (fs workbook_world))
                         (snd (_import_esi_tables_from_xlsx __init__
                                 workbook_world))))) by run.
  exact (cache_round_trip_is_lossless __init__ workbook_world _ _ _ H1 H2).
Defined.

Lemma sample_esi_ranking_numbers (x : string * value) :
  In x (ranking_of (Some sample_month) cached_world "esi") ->
  isnan (snd x) = false.
Proof.
  intros H. vm_compute in H.
  repeat (destruct H as [<-|H]; [reflexivity|]). contradiction.
Defined.

Lemma sample_retail_ranking_numbers (x : string * value) :
  In x (ranking_of (Some sample_month) cached_world "retail_confidence") ->
  isnan (snd x) = false.
Proof.
  intros H. vm_compute in H.
  repeat (destruct H as [<-|H]; [reflexivity|]). contradiction.
Defined.

Lemma sample_rankings_run :
  get_latest_rankings __init__ (Some sample_month) cached_world =
  (Ok (rankings_of (Some sample_month) cached_world),
   snd (get_latest_rankings __init__ (Some sample_month) cached_world)).
Proof. run. Defined.

Lemma ranking_of_numbers_is_descending_witness :
  value_ge
    (snd (nth 0 (ranking_of (Some sample_month) cached_world "esi")
              ("", NaN)))
    (snd (nth 15 (ranking_of (Some sample_month) cached_world "esi")
              ("", NaN))).
Proof.
  assert (H2 : In ("esi", ranking_of (Some sample_month) cached_world "esi")
                  (rankings_of (Some sample_month) cached_world))
    by (apply dict_get_In; run).
  assert (H3 : 0 < 15) by lia.
  assert (H4 : nth_error (ranking_of (Some sample_month) cached_world "esi") 0
               = Some (nth 0 (ranking_of (Some sample_month) cached_world
                                         "esi") ("", NaN))) by run.
  assert (H5 : nth_error (ranking_of (Some sample_month) cached_world "esi")
                         15
               = Some (nth 15 (ranking_of (Some sample_month) cached_world
                                          "esi") ("", NaN))) by run.
  exact (ranking_of_numbers_is_descending
           __init__ (Some sample_month) cached_world _ _ _ _
           sample_rankings_run H2 sample_esi_ranking_numbers
           0 15 _ _ H3 H4 H5).
Defined.

Lemma ranking_ties_keep_catalogue_order_witness :
  exists entries,
    map fst entries = map snd ESI_ENTITIES /\
    Permutation (ranking_of (Some sample_month) cached_world
                            "retail_confidence") entries /\
    forall v,
      filter (fun x => value_eqb (snd x) v)
             (ranking_of (Some sample_month) cached_world
                         "retail_confidence") =
      filter (fun x => value_eqb (snd x) v) entries.
Proof.
  assert (H2 : In ("retail_confidence",
                   ranking_of (Some sample_month) cached_world
                              "retail_confidence")
                  (rankings_of (Some sample_month) cached_world))
    by (apply dict_get_In; run).
  exact (ranking_ties_keep_catalogue_order
           __init__ (Some sample_month) cached_world _ _ _ _
           sample_rankings_run H2 sample_retail_ranking_numbers).
Defined.

Lemma fetch_again_reads_the_cache_witness :
  exists w2,
    _fetch_esi_tables __init__
      (snd (_fetch_esi_tables __init__ workbook_world)) =
      (Ok (tables_of workbook_world), w2) /\
    fs w2 = fs (snd (_fetch_esi_tables __init__ workbook_world)) /\
    io_log w2 =
      io_log (snd (_fetch_esi_tables __init__ workbook_world))
      ++ is_file_events (map (_entity_csv_filename __init__) ENTITY_CODES)
      ++ read_csv_events __init__.
Proof.
  assert (H : _fetch_esi_tables __init__ workbook_world =
              (Ok (tables_of workbook_world),
               snd (_fetch_esi_tables __init__ workbook_world))) by run.
  exact (fetch_again_reads_the_cache __init__ workbook_world _ _ H).
Defined.

Lemma failed_import_writes_nothing_witness :
  exists w',
    _fetch_esi_tables __init__ empty_world =
      (Raise (IOError (esi_file_path __init__)), w') /\
    fs w' = fs empty_world /\
    forall path,
      In (EvToCsv path) (io_log w') -> In (EvToCsv path) (io_log empty_world).
Proof.
  apply failed_import_writes_nothing.
  - exists "eu". split; [left; reflexivity | reflexivity].
  - exists "eu", "A,C:H". split; [left; reflexivity | reflexivity].
Defined.

Lemma queries_only_read_a_complete_cache_witness :
  snd (get_latest_rankings __init__ (Some late_month) cached_world) =
    logs cached_world
         (is_file_events (map (_entity_csv_filename __init__) ENTITY_CODES)
          ++ read_csv_events __init__) /\
  snd (get_historical_values __init__ ".RETA" 3 cached_world) =
    logs cached_world
         (is_file_events (map (_entity_csv_filename __init__) ENTITY_CODES)
          ++ read_csv_events __init__).
Proof.
  exact (queries_only_read_a_complete_cache
           __init__ (Some late_month) ".RETA" 3 cached_world
           cached_world_has_cache).
Defined.



Lemma history_fails_only_on_missing_column_witness :
  (exists path,
      KeyError "AT.ESI" = IOError path /\
      _fetch_esi_tables __init__ narrow_world =
        (Raise (KeyError "AT.ESI"),
         snd (get_historical_values __init__ "esi" 12 narrow_world)))
  \/
  exists tables before ec after table,
    _fetch_esi_tables __init__ narrow_world =
      (Ok tables,
       snd (get_historical_values __init__ "esi" 12 narrow_world)) /\
    ENTITY_CODES = before ++ ec :: after /\
    (forall ec', In ec' before ->
                 has_column tables (component_or_esi "esi") ec') /\
    dict_get ec tables = Some table /\
    frame_column (String.append (upper ec) (component_or_esi "esi")) table
      = None /\
    KeyError "AT.ESI" =
      KeyError (String.append (upper ec) (component_or_esi "esi")).
Proof.
  assert (H : get_historical_values __init__ "esi" 12 narrow_world =
              (Raise (KeyError "AT.ESI"),
               snd (get_historical_values __init__ "esi" 12 narrow_world)))
    by run.
  exact (history_fails_only_on_missing_column __init__ "esi" 12
                                              narrow_world _ _ H).
Defined.

Lemma narrow_world_first_columns (ec : string) :
  In ec ["eu"; "ea"] ->
  has_column (tables_of narrow_world) (component_or_esi ".ESI") ec.
Proof.
  intros H. exists (table_of narrow_world ec). simpl in H.
  repeat (destruct H as [<-|H];
          [split; [run | vm_compute; discriminate]|]).
  contradiction.
Defined.

Lemma history_missing_column_raises_witness :
  get_historical_values __init__ ".ESI" (-3) narrow_world =
  (Raise (KeyError (String.append (upper "at") (component_or_esi ".ESI"))),
   snd (_fetch_esi_tables __init__ narrow_world)).
Proof.
  assert (H1 : _fetch_esi_tables __init__ narrow_world =
               (Ok (tables_of narrow_world),
                snd (_fetch_esi_tables __init__ narrow_world))) by run.
  assert (H2 : ENTITY_CODES =
               ["eu"; "ea"] ++
               "at" :: ["be"; "dk"; "de"; "el"; "es"; "fr"; "it"; "nl";
                        "pl"; "pt"; "fi"; "se"; "uk"]) by reflexivity.
  assert (H3 : dict_get "at" (tables_of narrow_world) =
               Some (table_of narrow_world "at")) by run.
  assert (H4 : frame_column
                 (String.append (upper "at") (component_or_esi ".ESI"))
                 (table_of narrow_world "at") = None) by run.
  exact (history_missing_column_raises
           __init__ ".ESI" (-3) narrow_world _ _ _ "at" _ _
           H1 H2 narrow_world_first_columns H3 H4).
Defined.


Lemma sample_table_strictly_monthly :
  strictly_monthly (df_index (table_of cached_world "de")).
Proof.
  intros i d Hi. vm_compute in Hi.
  destruct i as [|i]; [vm_compute; reflexivity|].
  exfalso. apply Nat.succ_lt_mono in Hi. apply Nat.succ_lt_mono in Hi.
  inversion Hi.
Defined.

Lemma newest_month_of_window_is_ranked_witness :
  exists row v ranking,
    In row (df_rows (table_of cached_world "de")) /\
    in_window (mkPeriod 2020 9) (mkPeriod 2020 10) (fst row) = true /\
    (forall r, In r (df_rows (table_of cached_world "de")) ->
               in_window (mkPeriod 2020 9) (mkPeriod 2020 10) (fst r) = true ->
               (ordinal (fst r) <= ordinal (fst row))%Z) /\
    nth_error (snd row) 5 = Some v /\
    dict_get "esi" (rankings_of None cached_world) = Some ranking /\
    In ("Germany", v) ranking.
Proof.
  assert (H1 : get_latest_rankings __init__ None cached_world =
               (Ok (rankings_of None cached_world),
                snd (_fetch_esi_tables __init__ cached_world))) by run.
  assert (H2 : lookup_window None cached_world =
               (Ok (mkPeriod 2020 9, mkPeriod 2020 10), cached_world))
    by run.
  assert (H3 : _fetch_esi_tables __init__ cached_world =
               (Ok (tables_of cached_world),
                snd (_fetch_esi_tables __init__ cached_world))) by run.
  assert (H4 : In ("de", "Germany") ESI_ENTITIES) by (simpl; tauto).
  assert (H5 : In ("esi", 5) component_columns) by (simpl; tauto).
  assert (H6 : dict_get "de" (tables_of cached_world) =
               Some (table_of cached_world "de")) by run.
  exact (newest_month_of_window_is_ranked
           __init__ None cached_world _ _ _ _ _ "de" "Germany" "esi" 5 _
           H1 H2 H3 H4 H5 H6 sample_table_strictly_monthly).
Defined.

Lemma display_prints_the_rankings_witness :
  display_latest_rankings sample_float_text sample_month_text
                          (Some sample_month) true None (Some "") None
                          cached_world
    = (Ok (JsonDumps (rankings_of (Some sample_month) cached_world)),
       snd (_fetch_esi_tables __init__ cached_world)) /\
  exists rows,
    display_latest_rankings sample_float_text sample_month_text
                            (Some sample_month) false None (Some "") None
                            cached_world
      = (Ok (Table
               {| table_data := headers :: rows;
                  inner_heading_row_border := true;
                  table_title :=
                    option_map
                      (fun d => String.append "Rankings for "
                                              (sample_month_text d))
                      (Some sample_month) |}),
         snd (_fetch_esi_tables __init__ cached_world)) /\
    length rows = 16 /\
    forall i j indicator,
      i < 16 -> nth_error indicators j = Some indicator ->
      exists ranking name v row,
        dict_get indicator (rankings_of (Some sample_month) cached_world)
          = Some ranking /\
        nth_error ranking i = Some (name, v) /\
        nth_error rows i = Some row /\
        length row = 6 /\
        nth_error row j = Some (tmpl sample_float_text i name v).
Proof.
  assert (H : get_latest_rankings (configure None (Some "") None)
                                  (Some sample_month) cached_world =
              (Ok (rankings_of (Some sample_month) cached_world),
               snd (_fetch_esi_tables __init__ cached_world))) by run.
  exact (display_prints_the_rankings
           sample_float_text sample_month_text (Some sample_month)
           None (Some "") None cached_world _ _ H).
Defined.

Lemma chart_has_a_line_per_entity_witness :
  exists chart first,
    industrial_esi_chart sample_month_text (Some "") 6 None None None
                         cached_world
      = (Ok (Render chart), snd (_fetch_esi_tables __init__ cached_world)) /\
    disable_xml_declaration chart = false /\
    chart_title chart =
      String.append "ESI - "
        (String.append "Industrial Confidence"
           (String.append " (past "
              (String.append (str_int 6) " months)"))) /\
    dict_get "eu" (tables_of cached_world) = Some first /\
    x_labels chart = map sample_month_text (tail 6 (df_index first)) /\
    map fst (series chart) = ENTITY_CODES /\
    forall ec, In ec ENTITY_CODES ->
      exists table column,
        dict_get ec (tables_of cached_world) = Some table /\
        frame_column (String.append (upper ec) ".INDU") table =
          Some column /\
        dict_get ec (series chart) = Some (tail 6 (map snd column)).
Proof.
  assert (H1 : In ".INDU" ESI_COMPONENTS) by (left; reflexivity).
  assert (H2 : _fetch_esi_tables (configure None None None) cached_world =
               (Ok (tables_of cached_world),
                snd (_fetch_esi_tables __init__ cached_world))) by run.
  exact (chart_has_a_line_per_entity
           sample_month_text ".INDU" "Industrial Confidence" (Some "") 6
           None None None cached_world _ _ H1 H2 cached_world_has_columns).
Defined.
